(** * Expense tracker: the core shared by the desktop and the web front-end

    The repository holds two programs over one SQLite table [expenses]:
    [expense_tracker.py] (Tkinter, module [Tk] below) and
    [expense_tracker_streamlit.py] (Streamlit, module [St] below).  Both
    carry their own copy of the store operations, the filter, the KPI
    statistics, the outlier detector, the period report and the
    import/export loop.

    Conventions of the embedding.
    - A row of the table is the record [Expense]; the table is the list of
      its rows in rowid order together with the AUTOINCREMENT counter.
    - Amounts are real numbers ([R]); the not-a-number value that pandas
      and [float] can produce is written out as [NaN] in [pyfloat].
      Rounding of binary floating point is not part of this model;
      module [Tk64] evaluates the outlier detector in IEEE doubles.
    - Text is [string], one [ascii] per character: the texts of the model
      are the texts over the characters up to code point 255.  SQLite
      compares TEXT with the BINARY collation, the order of the code
      points, which is [String.leb] here.
    - A Python function that can raise is a function into [res]; one that
      also writes to the database is a state transformer over [Store]. *)

From Stdlib Require Import Floats.
From Stdlib Require Import Reals Lra Lia ZArith String Ascii.
From stdpp Require Import gmap strings list sorting.

Open Scope R_scope.
Open Scope string_scope.

(** ** Python values and exceptions *)

Inductive exn : Type :=
| ValueError        (* float() on text that is not a number *)
| IntegrityError    (* sqlite3: NOT NULL constraint failed *)
| ReError           (* re.error: the keyword is not a regular expression *)
| IndexError        (* pandas: the bar chart of a series without entries *)
| AttributeError.   (* a function the library does not have *)

Inductive res (A : Type) : Type :=
| Ok (a : A)
| Raise (e : exn).
Arguments Ok {A} a.
Arguments Raise {A} e.

Inductive pyfloat : Type :=
| Fin (x : R)
| NaN.

Inductive value : Type :=
| VFloat (x : pyfloat)
| VStr (s : string)
| VNone.

(** [cats.count(c)]. *)
Definition count (cats : list string) (c : string) : nat :=
  length (filter (λ x, x = c) cats).

(** Truth value of an optional string argument: [None] and [''] are false. *)
Definition truthy (o : option string) : option string :=
  match o with
  | Some s => if decide (s = "") then None else Some s
  | None => None
  end.

(** ** Comparisons on reals are decidable *)

#[global] Instance Rle_decision : RelDecision Rle := Rle_dec.
#[global] Instance Rlt_decision : RelDecision Rlt := Rlt_dec.
#[global] Instance Rgt_decision : RelDecision Rgt := Rgt_dec.
#[global] Instance Rge_decision : RelDecision Rge := Rge_dec.
#[global] Instance Req_decision : EqDecision R := Req_dec_T.

(** ** The table [expenses] *)

Record Expense : Type := mkExpense {
  row_id : Z;
  row_amount : R;
  row_category : string;
  row_date : string;
  row_description : string
}.

#[global] Instance Expense_eq_dec : EqDecision Expense.
Proof. solve_decision. Defined.

(** [rows]: the table in rowid order.  [seq]: the largest rowid ever
    handed out, which SQLite keeps in [sqlite_sequence] for an
    AUTOINCREMENT key. *)
Record Store : Type := mkStore {
  rows : list Expense;
  seq : Z
}.

Definition empty_store : Store := mkStore [] 0.

Definition ids (db : Store) : list Z := row_id <$> rows db.

Definition max_rowid (l : list Expense) : Z := foldr Z.max 0%Z (row_id <$> l).

(** State transformer with exceptions.  A raise keeps the store as it is
    at that point: every statement that ran before was committed on its
    own connection. *)
Definition M (A : Type) : Type := Store → res A * Store.

#[global] Instance M_ret : MRet M := λ A a db, (Ok a, db).
#[global] Instance M_bind : MBind M := λ A B k m db,
  match m db with
  | (Ok a, db') => k a db'
  | (Raise e, db') => (Raise e, db')
  end.
Definition raise {A} (e : exn) : M A := λ db, (Raise e, db).

(** The functions of this module are the same in both programs. *)

Module Db.

(** [INSERT INTO expenses (amount, category, date, description)].
    sqlite3 binds a NaN as NULL, which the NOT NULL column refuses; the
    exception leaves [execute] before [commit]. *)
Definition add_expense (amount : pyfloat) (category date description : string)
  : M unit :=
  match amount with
  | NaN => raise IntegrityError
  | Fin a =>
      λ db, let new_id := (Z.max (seq db) (max_rowid (rows db)) + 1)%Z in
            (Ok (), mkStore (rows db ++ [mkExpense new_id a category date description])
                            new_id)
  end.

Definition set_fields (a : R) (category date description : string) (r : Expense)
  : Expense :=
  mkExpense (row_id r) a category date description.

(** [UPDATE expenses SET ... WHERE id=?].  The function returns [None]
    whatever the number of rows the statement touched; a NaN amount is
    refused when there is a row to write it to. *)
Definition update_expense (expense_id : Z) (amount : pyfloat)
    (category date description : string) : M unit :=
  match amount with
  | NaN =>
      λ db, if decide (expense_id ∈ ids db) then (Raise IntegrityError, db)
            else (Ok (), db)
  | Fin a =>
      λ db, (Ok (), mkStore
               ((λ r, if decide (row_id r = expense_id)
                      then set_fields a category date description r else r)
                  <$> rows db)
               (seq db))
  end.

(** [DELETE FROM expenses WHERE id=?]. *)
Definition delete_expense (expense_id : Z) : M unit :=
  λ db, (Ok (), mkStore (filter (λ r, row_id r ≠ expense_id) (rows db)) (seq db)).

(** [SELECT DISTINCT category FROM expenses]. *)
Definition get_all_categories (db : Store) : list string :=
  remove_dups (row_category <$> rows db).

End Db.

(** ** Text matching *)

(** ASCII lower case, the folding SQLite's LIKE applies to both sides. *)
Definition lower (c : ascii) : ascii :=
  let n := nat_of_ascii c in
  if (65 <=? n)%nat && (n <=? 90)%nat then ascii_of_nat (n + 32) else c.

Fixpoint lower_string (s : string) : string :=
  match s with
  | EmptyString => EmptyString
  | String c s' => String (lower c) (lower_string s')
  end.

(** SQLite's [LIKE] without an ESCAPE clause: [%] matches any run of
    characters, [_] any one character, every other character itself up
    to ASCII case; the whole text has to be consumed.  A character is one
    [ascii] here, as everywhere in the model. *)
Fixpoint like (p : string) : string → bool :=
  match p with
  | EmptyString => λ s, match s with EmptyString => true | _ => false end
  | String c p' =>
      if Ascii.eqb c "%" then
        fix star (s : string) : bool :=
          like p' s || match s with
                       | EmptyString => false
                       | String _ s' => star s'
                       end
      else if Ascii.eqb c "_" then
        λ s, match s with EmptyString => false | String _ s' => like p' s' end
      else
        λ s, match s with
             | EmptyString => false
             | String d s' => Ascii.eqb (lower c) (lower d) && like p' s'
             end
  end.

(** The parameter the query binds for the keyword: [f'%{desc_keyword}%']. *)
Definition like_pattern (desc_keyword : string) : string :=
  "%" ++ desc_keyword ++ "%".

(** ** Filter criteria: the keyword arguments of both filter functions *)

Record Criteria : Type := mkCriteria {
  start_date : option string;
  end_date : option string;
  category : option string;
  min_amount : option R;
  max_amount : option R;
  desc_keyword : option string
}.

Definition no_criteria : Criteria := mkCriteria None None None None None None.

(** [category and category != 'All']. *)
Definition category_arg (c : Criteria) : option string :=
  match truthy (category c) with
  | Some k => if decide (k = "All") then None else Some k
  | None => None
  end.

Definition date_ge (d : string) (r : Expense) : bool := String.leb d (row_date r).
Definition date_le (d : string) (r : Expense) : bool := String.leb (row_date r) d.
Definition category_eq (k : string) (r : Expense) : bool :=
  bool_decide (row_category r = k).
Definition amount_ge (m : R) (r : Expense) : bool := bool_decide (row_amount r >= m).
Definition amount_le (m : R) (r : Expense) : bool := bool_decide (row_amount r <= m).

(** One test of a filter: made when the argument passed its [if], and
    true of every record otherwise. *)
Definition conjunct {A} (o : option A) (p : A → Expense → bool) (r : Expense) : bool :=
  match o with
  | Some a => p a r
  | None => true
  end.

(** ** numpy and pandas reductions over a column of amounts *)

Module Np.

Definition sum (a : list R) : R := foldr Rplus 0 a.

Definition mean (a : list R) : R := sum a / INR (length a).

(** On an empty array [min], [max] raise and [median] is NaN; neither
    caller passes one, and the three are 0 there in this model. *)
Definition min (a : list R) : R :=
  match a with
  | [] => 0
  | x :: a' => foldl Rmin x a'
  end.

Definition max (a : list R) : R :=
  match a with
  | [] => 0
  | x :: a' => foldl Rmax x a'
  end.

Definition median (a : list R) : R :=
  let s := merge_sort Rle a in
  let n := length a in
  if Nat.even n then (nth (n / 2 - 1) s 0 + nth (n / 2) s 0) / 2
  else nth (n / 2) s 0.

(** Sum of the squared deviations from the mean. *)
Definition sqdev (a : list R) : R :=
  sum ((λ x, (x - mean a) * (x - mean a)) <$> a).

(** [np.var] and [np.std]: [ddof=0] unless told otherwise. *)
Definition var (a : list R) : R := sqdev a / INR (length a).
Definition std (a : list R) : R := sqrt (var a).

End Np.

Module Pd.

(** [Series.var] and [Series.std]: [ddof=1] unless told otherwise, and
    NaN when fewer than two values are left to divide by. *)
Definition var (a : list R) : pyfloat :=
  if decide (length a ≤ 1)%nat then NaN
  else Fin (Np.sqdev a / INR (length a - 1)).

Definition std (a : list R) : pyfloat :=
  match var a with
  | Fin v => Fin (sqrt v)
  | NaN => NaN
  end.

(** [c] is a better mode than [best]: more frequent, or as frequent and
    before it in the order of text. *)
Definition beats (cats : list string) (c best : string) : bool :=
  (count cats best <? count cats c)%nat
  || ((count cats c =? count cats best)%nat && String.ltb c best).

(** [Series.mode()[0]]: the most frequent value, the smallest one first
    among equally frequent values; [None] on an empty column. *)
Definition mode0 (cats : list string) : value :=
  match cats with
  | [] => VNone
  | x :: l => VStr (foldl (λ best c, if beats cats c best then c else best) x l)
  end.

End Pd.

(** Arithmetic and comparison of Python floats: NaN propagates through
    arithmetic and makes every comparison false. *)
Definition fadd (a b : pyfloat) : pyfloat :=
  match a, b with Fin x, Fin y => Fin (x + y) | _, _ => NaN end.
Definition fsub (a b : pyfloat) : pyfloat :=
  match a, b with Fin x, Fin y => Fin (x - y) | _, _ => NaN end.
Definition fmul (a b : pyfloat) : pyfloat :=
  match a, b with Fin x, Fin y => Fin (x * y) | _, _ => NaN end.
Definition fgt (a b : pyfloat) : bool :=
  match a, b with Fin x, Fin y => bool_decide (x > y) | _, _ => false end.
Definition flt (a b : pyfloat) : bool :=
  match a, b with Fin x, Fin y => bool_decide (x < y) | _, _ => false end.

(** ** Calendar dates and pandas periods *)

Module Cal.

Definition digit (c : ascii) : option Z :=
  let n := nat_of_ascii c in
  if (48 <=? n)%nat && (n <=? 57)%nat then Some (Z.of_nat n - 48)%Z else None.

Definition number (ds : list ascii) : option Z :=
  foldl (λ acc c, n ← acc; d ← digit c; Some (10 * n + d)%Z) (Some 0%Z) ds.

Definition leap (y : Z) : bool :=
  ((y mod 4 =? 0) && negb (y mod 100 =? 0) || (y mod 400 =? 0))%Z.

Definition days_in_month (y m : Z) : Z :=
  if (m =? 2)%Z then (if leap y then 29 else 28)%Z
  else if ((m =? 4) || (m =? 6) || (m =? 9) || (m =? 11))%Z then 30%Z
  else 31%Z.

Record date : Type := mkDate { year : Z; month : Z; day : Z }.

(** A cell of a column of timestamps: a day and the nanoseconds since
    its midnight, or the missing timestamp NaT. *)
Inductive timestamp : Type :=
| At (t : date) (time : Z)
| NaT.

(** The texts pandas reads as NaT. *)
Definition nat_strings : list string :=
  [""; "NaT"; "nat"; "NAT"; "nan"; "NaN"; "NAN"].

(** The day a text of the form [YYYY-MM-DD] spells: four, two and two
    digits between hyphens that name a day of the calendar. *)
Definition iso (s : string) : option date :=
  match list_ascii_of_string s with
  | [y1; y2; y3; y4; s1; m1; m2; s2; d1; d2] =>
      if Ascii.eqb s1 "-" && Ascii.eqb s2 "-" then
        y ← number [y1; y2; y3; y4];
        m ← number [m1; m2];
        d ← number [d1; d2];
        if ((1 <=? m) && (m <=? 12) && (1 <=? d) && (d <=? days_in_month y m))%Z
        then Some (mkDate y m d) else None
      else None
  | _ => None
  end.

(** What [pd.to_datetime] makes of a canonical text: NaT of a NaT text,
    and of a text [YYYY-MM-DD] in the years a nanosecond timestamp holds
    in full the midnight of its day.  [None]: the text is not canonical. *)
Definition to_datetime (s : string) : option timestamp :=
  if decide (s ∈ nat_strings) then Some NaT else
  match iso s with
  | Some t =>
      if ((1678 <=? year t) && (year t <=? 2261))%Z then Some (At t 0) else None
  | None => None
  end.

Definition canonical (s : string) : bool :=
  match to_datetime s with Some _ => true | None => false end.

Section Pandas.

(** [other col s]: what [pd.to_datetime] makes of the text [s] in the
    column [col] when the column holds a text that is not canonical: a
    timestamp, or [None] where it raises.  Which further spellings pandas
    reads, and whether it reads the column by the format of its first
    text, depends on its version; nothing is assumed of it here. *)
Variable other : list string → string → option timestamp.

(** The cell [pd.to_datetime] makes of the text [s] of the column [col]. *)
Definition reads (col : list string) (s : string) : option timestamp :=
  if forallb canonical col then to_datetime s else other col s.

(** [pd.to_datetime(col)]: the column of timestamps, or the exception. *)
Definition to_datetimes (col : list string) : res (list timestamp) :=
  match mapM (reads col) col with
  | Some dates => Ok dates
  | None => Raise ValueError
  end.

End Pandas.

(** Days since 1970-01-01 in the proleptic Gregorian calendar. *)
Definition days_from_civil (t : date) : Z :=
  let y := (if (month t <=? 2) then year t - 1 else year t)%Z in
  let era := (y / 400)%Z in
  let yoe := (y - era * 400)%Z in
  let mp := (if (month t <=? 2) then month t + 9 else month t - 3)%Z in
  let doy := ((153 * mp + 2) / 5 + day t - 1)%Z in
  let doe := (yoe * 365 + yoe / 4 - yoe / 100 + doy)%Z in
  (era * 146097 + doe - 719468)%Z.

(** The instant of a timestamp, in nanoseconds since 1970-01-01. *)
Definition instant (ts : timestamp) : option Z :=
  match ts with
  | At t time => Some (days_from_civil t * 86400000000000 + time)%Z
  | NaT => None
  end.

(** [a <= b] on timestamps: false when either is NaT. *)
Definition le (a b : timestamp) : bool :=
  match instant a, instant b with
  | Some x, Some y => (x <=? y)%Z
  | _, _ => false
  end.

(** The ordinal of the period of a date: weeks run from Monday to
    Sunday ([W] is [W-SUN]; day 0 was a Thursday, in the week of ordinal
    1), quarters and years are calendar ones. *)
Definition ordinal (freq : string) (t : date) : Z :=
  if decide (freq = "W") then ((days_from_civil t + 3) / 7 + 1)%Z
  else if decide (freq = "M") then ((year t - 1970) * 12 + (month t - 1))%Z
  else if decide (freq = "Q") then ((year t - 1970) * 4 + (month t - 1) / 3)%Z
  else (year t - 1970)%Z.

(** [dt.to_period(freq)]: NaT has no period. *)
Definition to_period (freq : string) (ts : timestamp) : option Z :=
  match ts with
  | At t _ => Some (ordinal freq t)
  | NaT => None
  end.

(** [df.groupby(key)['Amount'].sum()]: one entry per key, keys in
    increasing order, each with the sum of its rows in row order; the
    rows without a key are left out. *)
Fixpoint add_to_group (k : Z) (a : R) (g : list (Z * R)) : list (Z * R) :=
  match g with
  | [] => [(k, a)]
  | (k', t) :: g' =>
      if decide (k < k')%Z then (k, a) :: g
      else if decide (k = k') then (k', t + a) :: g'
      else (k', t) :: add_to_group k a g'
  end.

Definition groupby_sum (keyed : list (option Z * R)) : list (Z * R) :=
  foldl (λ g ka, match ka.1 with
                 | Some k => add_to_group k ka.2 g
                 | None => g
                 end) [] keyed.

End Cal.

(** ** Tabular files and the frames pandas reads from them *)

Module Csv.

(** A cell of the [Amount] column as [iterrows] hands it out.  Amounts
    are finite: a cell that holds an infinity is not in the model. *)
Inductive cell : Type :=
| CNum (x : R)          (* a number, or text spelling the number x *)
| CText (s : string)    (* text that [float] refuses *)
| CNaN.                 (* a missing value *)

(** A cell of a text column. *)
Inductive tcell : Type :=
| TText (s : string)
| TNaN.

(** One row of the frame; [Description] is [None] when the file has no
    such column. *)
Record FrameRow : Type := mkFrameRow {
  Amount : cell;
  Category : tcell;
  Date : tcell;
  Description : option tcell
}.

Definition py_float (c : cell) : res pyfloat :=
  match c with
  | CNum x => Ok (Fin x)
  | CNaN => Ok NaN
  | CText _ => Raise ValueError
  end.

Definition py_str (c : tcell) : string :=
  match c with
  | TText s => s
  | TNaN => "nan"
  end.

(** A field of the [Amount] column in a file.  A field that spells an
    infinity ([inf], [-inf], [Infinity]) is read as a number by pandas
    and by [float]; amounts are finite here and such a field is not in
    the model. *)
Inductive amount_field : Type :=
| Spelled (x : R)       (* the decimal spelling of x *)
| Other (s : string).   (* a missing-value text, or text that spells no number *)

(** One data line of a file with the header
    [ID,Amount,Category,Date,Description]. *)
Record Line : Type := mkLine {
  f_id : Z;
  f_amount : amount_field;
  f_category : string;
  f_date : string;
  f_description : string
}.

(** [DataFrame(rows, columns=[...]).to_csv(file, index=False)]. *)
Definition to_csv (filtered_expenses : list Expense) : list Line :=
  (λ r, mkLine (row_id r) (Spelled (row_amount r)) (row_category r) (row_date r)
               (row_description r)) <$> filtered_expenses.

(** The fields [read_csv] and [read_excel] take for a missing value. *)
Definition na_values : list string :=
  [""; "#N/A"; "#N/A N/A"; "#NA"; "-1.#IND"; "-1.#QNAN"; "-NaN"; "-nan";
   "1.#IND"; "1.#QNAN"; "<NA>"; "N/A"; "NA"; "NULL"; "NaN"; "None"; "n/a";
   "nan"; "null"].

Definition read_text (s : string) : tcell :=
  if decide (s ∈ na_values) then TNaN else TText s.

Definition read_amount (f : amount_field) : cell :=
  match f with
  | Spelled x => CNum x
  | Other s => if decide (s ∈ na_values) then CNaN else CText s
  end.

(** [pd.read_csv(file)], for a file with all five columns.  (A text
    column whose every field spells a number is read as numbers and
    printed back in pandas' own spelling; such columns are not modelled.) *)
Definition read_csv (file : list Line) : list FrameRow :=
  (λ l, mkFrameRow (read_amount (f_amount l)) (read_text (f_category l))
                   (read_text (f_date l)) (Some (read_text (f_description l))))
    <$> file.

End Csv.

(** What the import tells the user when it is over. *)
Inductive dialog : Type :=
| Imported (n : nat)        (* 'Imported {len(df)} expenses.' *)
| ImportError (e : exn).    (* 'Failed to import: {e}' *)

Definition lift {A} (r : res A) : M A := λ db, (r, db).

(** * [expense_tracker.py] *)

Module Tk.

Definition description_like (kw : string) (r : Expense) : bool :=
  like (like_pattern kw) (row_description r).

(** The WHERE clause the function assembles, starting from [1=1]. *)
Definition where_clause (c : Criteria) (r : Expense) : bool :=
  conjunct (truthy (start_date c)) date_ge r
  && conjunct (truthy (end_date c)) date_le r
  && conjunct (category_arg c) category_eq r
  && conjunct (min_amount c) amount_ge r
  && conjunct (max_amount c) amount_le r
  && conjunct (truthy (desc_keyword c)) description_like r.

Definition get_filtered_expenses (c : Criteria) (db : Store) : list Expense :=
  List.filter (where_clause c) (rows db).

Section SetOrder.

(** The order in which CPython iterates over [set(cats)]; it depends on
    the hash seed of the process. *)
Variable set_order : list string → list string.

(** [max(set(cats), key=cats.count)]: the first element, in iteration
    order, that no later element exceeds. *)
Definition most_freq_cat (cats : list string) : value :=
  match set_order cats with
  | [] => VNone
  | x :: l =>
      VStr (foldl (λ best c, if (count cats best <? count cats c)%nat
                             then c else best) x l)
  end.

Definition get_stats (expenses : list Expense) : gmap string value :=
  match expenses with
  | [] => ∅
  | _ :: _ =>
      let amounts := row_amount <$> expenses in
      let cats := row_category <$> expenses in
      <["most_freq_cat" := most_freq_cat cats]>
      (<["var" := VFloat (Fin (Np.var amounts))]>
      (<["std" := VFloat (Fin (Np.std amounts))]>
      (<["max" := VFloat (Fin (Np.max amounts))]>
      (<["min" := VFloat (Fin (Np.min amounts))]>
      (<["median" := VFloat (Fin (Np.median amounts))]>
      (<["average" := VFloat (Fin (Np.mean amounts))]>
      (<["total" := VFloat (Fin (Np.sum amounts))]> ∅)))))))
  end.

End SetOrder.

Definition detect_outliers (expenses : list Expense) : gset Z :=
  match expenses with
  | [] => ∅
  | _ :: _ =>
      let amounts := row_amount <$> expenses in
      let mean := Np.mean amounts in
      let std := Np.std amounts in
      foldl (λ outlier_ids row,
               if decide (Rabs (row_amount row - mean) > 2 * std)
               then outlier_ids ∪ {[row_id row]} else outlier_ids)
            ∅ expenses
  end.

(** The loop of [import_data] over [df.iterrows()]. *)
Fixpoint import_rows (df : list Csv.FrameRow) : M unit :=
  match df with
  | [] => mret ()
  | row :: df' =>
      amount ← lift (Csv.py_float (Csv.Amount row));
      Db.add_expense amount (Csv.py_str (Csv.Category row)) (Csv.py_str (Csv.Date row))
        (match Csv.Description row with Some d => Csv.py_str d | None => "" end);;
      import_rows df'
  end.

Section Boxes.

(** Python's [float] on the text of an entry box. *)
Variable float_of_text : string → res pyfloat.

(** [float(text) if text else None]. *)
Definition box (text : string) : res (option pyfloat) :=
  if decide (text = "") then Ok None
  else match float_of_text text with
       | Ok x => Ok (Some x)
       | Raise e => Raise e
       end.

(** What can raise in [refresh_filters], [refresh_expenses] and
    [refresh_dashboard]: the conversions of the two amount boxes of the
    filter, in the order in which [refresh_expenses] makes them. *)
Definition refresh (min_amount max_amount : string) : res unit :=
  match box min_amount with
  | Raise e => Raise e
  | Ok _ =>
      match box max_amount with
      | Raise e => Raise e
      | Ok _ => Ok ()
      end
  end.

(** [import_data], from the frame on, with the texts of the two amount
    boxes of the filter: the [try] holds the loop and the three refresh
    calls, and ends in one of the two message boxes. *)
Definition import_data (min_amount max_amount : string) (df : list Csv.FrameRow)
    (db : Store) : dialog * Store :=
  match import_rows df db with
  | (Ok _, db') =>
      match refresh min_amount max_amount with
      | Ok _ => (Imported (length df), db')
      | Raise e => (ImportError e, db')
      end
  | (Raise e, db') => (ImportError e, db')
  end.

End Boxes.

Definition export_csv (filtered_expenses : list Expense) : list Csv.Line :=
  Csv.to_csv filtered_expenses.

Section Pandas.

Variable other : list string → string → option Cal.timestamp.

(** [report_period]: the series the bar chart is drawn from, [None] for
    the 'No Data' message.  [grp.plot(kind='bar')] raises on a series
    without entries. *)
Definition report_period (period : string) (filtered_expenses : list Expense)
  : res (option (list (Z * R))) :=
  match filtered_expenses with
  | [] => Ok None
  | _ :: _ =>
      match Cal.to_datetimes other (row_date <$> filtered_expenses) with
      | Raise e => Raise e
      | Ok dates =>
          let freq := if decide (period = "W") then "W"
                      else if decide (period = "M") then "M"
                      else if decide (period = "Q") then "Q"
                      else "Y" in
          let grp := Cal.groupby_sum
                       (zip (Cal.to_period freq <$> dates)
                            (row_amount <$> filtered_expenses)) in
          match grp with
          | [] => Raise IndexError
          | _ :: _ => Ok (Some grp)
          end
      end
  end.

End Pandas.

End Tk.

(** * The outlier detector of [expense_tracker.py] in IEEE doubles *)

Module Tk64.

(** The number of elements of a vector, as a double. *)
Definition len (a : list float) : float :=
  PrimFloat.of_uint63 (Uint63.of_Z (Z.of_nat (length a))).

(** [np.add.reduce] on a vector of fewer than eight doubles: the
    elements are added one by one, from the left.  numpy adds longer
    vectors pairwise, in blocks; they are not modelled. *)
Definition sum (a : list float) : option float :=
  if (length a <? 8)%nat then Some (foldl PrimFloat.add 0%float a) else None.

(** [np.mean]: the sum divided by the number of elements. *)
Definition mean (a : list float) : option float :=
  s ← sum a; Some (PrimFloat.div s (len a)).

(** [np.std]: the root of the mean of the squares of the deviations
    from the mean. *)
Definition std (a : list float) : option float :=
  m ← mean a;
  let x := (λ v, PrimFloat.sub v m) <$> a in
  s ← sum ((λ d, PrimFloat.mul d d) <$> x);
  Some (PrimFloat.sqrt (PrimFloat.div s (len a))).

(** [detect_outliers] on the ids and the amounts of the records. *)
Definition detect_outliers (expenses : list (Z * float)) : option (gset Z) :=
  match expenses with
  | [] => Some ∅
  | _ :: _ =>
      let amounts := snd <$> expenses in
      mean ← mean amounts;
      std ← std amounts;
      Some (foldl (λ outlier_ids row,
                     if PrimFloat.ltb (PrimFloat.mul 2%float std)
                          (PrimFloat.abs (PrimFloat.sub row.2 mean))
                     then outlier_ids ∪ {[row.1]} else outlier_ids)
                  ∅ expenses)
  end.

End Tk64.

(** * [expense_tracker_streamlit.py] *)

Module St.

(** [df = df[mask]] under an [if]: the frame is narrowed when the
    argument is set and passed on as it is otherwise. *)
Definition narrow {A} (o : option A) (p : A → Expense → bool) (df : list Expense)
  : list Expense :=
  match o with
  | Some a => List.filter (p a) df
  | None => df
  end.

Section Frame.

(** The frame the script works on is the table with its date column
    converted by [pd.to_datetime] (line 149): [date_col r] is the cell of
    the record [r] in that column.  [timestamp_of d] is the timestamp
    pandas compares the column with when the bound is the text [d]; the
    script passes the [strftime] text of a picked day.  (A bound that
    pandas cannot read as a timestamp makes the comparison raise; the
    script passes none, and the model has none.) *)
Variable date_col : Expense → Cal.timestamp.
Variable timestamp_of : string → Cal.timestamp.

(** Python's [re] as pandas uses it in [str.contains(kw, case=False)]:
    the keyword is compiled once, with IGNORECASE, and searched in every
    description. *)
Variable regex : Type.
Variable re_compile : string → option regex.
Variable re_search : regex → string → bool.

(** [df['date'] >= start_date] and [df['date'] <= end_date]: comparisons
    of timestamps, false on NaT. *)
Definition date_ge (d : string) (r : Expense) : bool :=
  Cal.le (timestamp_of d) (date_col r).
Definition date_le (d : string) (r : Expense) : bool :=
  Cal.le (date_col r) (timestamp_of d).

Definition filter_expenses (df : list Expense) (c : Criteria) : res (list Expense) :=
  let df := narrow (truthy (start_date c)) date_ge df in
  let df := narrow (truthy (end_date c)) date_le df in
  let df := narrow (category_arg c) category_eq df in
  let df := narrow (min_amount c) amount_ge df in
  let df := narrow (max_amount c) amount_le df in
  match truthy (desc_keyword c) with
  | Some kw =>
      match re_compile kw with
      | Some re => Ok (List.filter (λ r, re_search re (row_description r)) df)
      | None => Raise ReError
      end
  | None => Ok df
  end.

(** The report block: nothing is drawn for ['None'] or an empty frame;
    otherwise the result is the series handed to [st.bar_chart].  The
    frame holds timestamps already, which [pd.to_datetime] leaves as
    they are. *)
Definition report (report_type : string) (filtered_df : list Expense)
  : option (list (Z * R)) :=
  if decide (report_type = "None") then None
  else match filtered_df with
  | [] => None
  | _ :: _ =>
      let freq := if decide (report_type = "Weekly") then "W"
                  else if decide (report_type = "Monthly") then "M"
                  else if decide (report_type = "Quarterly") then "Q"
                  else "Y" in
      Some (Cal.groupby_sum
              ((λ r, (Cal.to_period freq (date_col r), row_amount r)) <$> filtered_df))
  end.

End Frame.

Definition get_stats (df : list Expense) : gmap string value :=
  match df with
  | [] => ∅
  | _ :: _ =>
      let amount := row_amount <$> df in
      <["most_freq_cat" := Pd.mode0 (row_category <$> df)]>
      (<["var" := VFloat (Pd.var amount)]>
      (<["std" := VFloat (Pd.std amount)]>
      (<["max" := VFloat (Fin (Np.max amount))]>
      (<["min" := VFloat (Fin (Np.min amount))]>
      (<["median" := VFloat (Fin (Np.median amount))]>
      (<["average" := VFloat (Fin (Np.mean amount))]>
      (<["total" := VFloat (Fin (Np.sum amount))]> ∅)))))))
  end.

Definition detect_outliers (df : list Expense) : gset Z :=
  match df with
  | [] => ∅
  | _ :: _ =>
      let amount := row_amount <$> df in
      let mean := Fin (Np.mean amount) in
      let std := Pd.std amount in
      let outliers :=
        List.filter (λ r, fgt (Fin (row_amount r)) (fadd mean (fmul (Fin 2) std))
                          || flt (Fin (row_amount r)) (fsub mean (fmul (Fin 2) std)))
                    df in
      list_to_set (row_id <$> outliers)
  end.

(** The import block: the same loop over the uploaded frame. *)
Fixpoint import_rows (import_df : list Csv.FrameRow) : M unit :=
  match import_df with
  | [] => mret ()
  | row :: rest =>
      amount ← lift (Csv.py_float (Csv.Amount row));
      Db.add_expense amount (Csv.py_str (Csv.Category row)) (Csv.py_str (Csv.Date row))
        (match Csv.Description row with Some d => Csv.py_str d | None => "" end);;
      import_rows rest
  end.

Section Rerun.

(** [st.experimental_rerun()] as the [try] around it sees it: [Ok] where
    it ends the run of the script, [Raise e] where it raises an
    [Exception], as it does in a Streamlit that does not have the
    function. *)
Variable rerun : res unit.

(** One run of the import block: the messages it shows, in their order.
    [st.success] comes before [st.experimental_rerun()], inside the
    [try]. *)
Definition import_block (import_df : list Csv.FrameRow) (db : Store)
  : list dialog * Store :=
  match import_rows import_df db with
  | (Ok _, db') =>
      (Imported (length import_df)
         :: match rerun with Ok _ => [] | Raise e => [ImportError e] end,
       db')
  | (Raise e, db') => ([ImportError e], db')
  end.

End Rerun.

Definition export_filtered (filtered_df : list Expense) : list Csv.Line :=
  Csv.to_csv filtered_df.

(** One decimal digit as a character. *)
Definition digit_char (n : Z) : ascii := ascii_of_nat (Z.to_nat (48 + n)).

(** [date.strftime('%Y-%m-%d')] on a [datetime.date] with a year of four
    digits: year, month and day in four, two and two digits. *)
Definition strftime (t : Cal.date) : string :=
  string_of_list_ascii
    [digit_char (Cal.year t / 1000); digit_char (Cal.year t / 100 mod 10);
     digit_char (Cal.year t / 10 mod 10); digit_char (Cal.year t mod 10);
     "-"%char;
     digit_char (Cal.month t / 10); digit_char (Cal.month t mod 10);
     "-"%char;
     digit_char (Cal.day t / 10); digit_char (Cal.day t mod 10)].

(** What the sidebar shows after a submit. *)
Inductive notice : Type :=
| CategoryRequired    (* st.warning('Category required!') *)
| ExpenseUpdated      (* st.success('Expense updated!') *)
| ExpenseAdded.       (* st.success('Expense added!') *)

(** The body of [if submit:] in the sidebar form.  [edit_id] is the entry
    of the session state, [None] or an id; the result carries the notice
    and the entry the block leaves in the session state. *)
Definition sidebar_submit (edit_id : option Z) (amount : R) (category : string)
    (date : Cal.date) (description : string) : M (notice * option Z) :=
  if decide (category = "") then mret (CategoryRequired, edit_id)
  else match edit_id with
       | Some k =>
           if decide (k = 0%Z)
           then Db.add_expense (Fin amount) category (strftime date) description;;
                mret (ExpenseAdded, edit_id)
           else Db.update_expense k (Fin amount) category (strftime date) description;;
                mret (ExpenseUpdated, None)
       | None =>
           Db.add_expense (Fin amount) category (strftime date) description;;
           mret (ExpenseAdded, edit_id)
       end.

End St.

(** * Words of the specification and sample data *)

(** The caller is told of an error when the call ends in an exception;
    both functions return [None] otherwise. *)
Definition reports_error {A} (out : res A * Store) : Prop :=
  ∃ e, out.1 = Raise e.

Definition one_row : Store :=
  mkStore [mkExpense 1 12 "Food" "2024-01-15" "lunch"] 1.

(** A row the import can take: its [Amount] is a number. *)
Definition well_formed (row : Csv.FrameRow) : Prop :=
  ∃ x, Csv.Amount row = Csv.CNum x.

(** The record [e] carries what the row of the frame says. *)
Definition imported_as (row : Csv.FrameRow) (e : Expense) : Prop :=
  Csv.Amount row = Csv.CNum (row_amount e)
  ∧ row_category e = Csv.py_str (Csv.Category row)
  ∧ row_date e = Csv.py_str (Csv.Date row)
  ∧ row_description e =
      match Csv.Description row with Some d => Csv.py_str d | None => "" end.

Definition good_row : Csv.FrameRow :=
  Csv.mkFrameRow (Csv.CNum 5) (Csv.TText "Food") (Csv.TText "2024-01-01")
    (Some (Csv.TText "lunch")).

Definition bad_row : Csv.FrameRow :=
  Csv.mkFrameRow (Csv.CText "five") (Csv.TText "Food") (Csv.TText "2024-01-02")
    (Some (Csv.TText "dinner")).

(** A record without a description, as both forms let the user save it. *)
Definition no_note : Expense := mkExpense 1 10 "Food" "2024-01-01" "".

(** What export followed by import is to keep of a record. *)
Definition same_content (e e' : Expense) : Prop :=
  row_amount e' = row_amount e
  ∧ row_category e' = row_category e
  ∧ row_date e' = row_date e
  ∧ row_description e' = row_description e.

(** The outlier test of the specification, on the mean and the
    population standard deviation of the collection's amounts. *)
Definition is_outlier (l : list Expense) (e : Expense) : Prop :=
  Rabs (row_amount e - Np.mean (row_amount <$> l)) > 2 * Np.std (row_amount <$> l).

(** Six records, four of amount 0, one of 1 and one of 3. *)
Definition six : list Expense :=
  [mkExpense 1 0 "Food" "2024-01-01" "a"; mkExpense 2 0 "Food" "2024-01-02" "b";
   mkExpense 3 0 "Food" "2024-01-03" "c"; mkExpense 4 0 "Food" "2024-01-04" "d";
   mkExpense 5 1 "Food" "2024-01-05" "e"; mkExpense 6 3 "Food" "2024-01-06" "f"].

(** Two records, of amounts 1 and 3. *)
Definition two : list Expense :=
  [mkExpense 1 1 "Food" "2024-01-01" "a"; mkExpense 2 3 "Rent" "2024-01-02" "b"].

(** The filter of the specification.  A text criterion is given when it
    is present and not empty; an amount bound is given when it is present. *)
Definition given (o : option string) : option string :=
  match o with
  | Some s => if decide (s = "") then None else Some s
  | None => None
  end.

Fixpoint starts_with (kw d : string) : bool :=
  match kw, d with
  | EmptyString, _ => true
  | String _ _, EmptyString => false
  | String a kw', String b d' => Ascii.eqb a b && starts_with kw' d'
  end.

(** [kw] occurs in [d] as a substring. *)
Fixpoint occurs (kw d : string) : bool :=
  starts_with kw d
  || match d with
     | EmptyString => false
     | String _ d' => occurs kw d'
     end.

Definition contains_ci (kw d : string) : bool :=
  occurs (lower_string kw) (lower_string d).

Definition spec_matches (c : Criteria) (r : Expense) : bool :=
  match given (start_date c) with
  | Some d => String.leb d (row_date r)
  | None => true
  end
  && match given (end_date c) with
     | Some d => String.leb (row_date r) d
     | None => true
     end
  && match given (category c) with
     | Some k => bool_decide (k = "All") || bool_decide (row_category r = k)
     | None => true
     end
  && match min_amount c with
     | Some m => bool_decide (row_amount r >= m)
     | None => true
     end
  && match max_amount c with
     | Some m => bool_decide (row_amount r <= m)
     | None => true
     end
  && match given (desc_keyword c) with
     | Some kw => contains_ci kw (row_description r)
     | None => true
     end.

(** A keyword without the two characters SQL's LIKE reads as wildcards. *)
Fixpoint no_wildcard (kw : string) : bool :=
  match kw with
  | EmptyString => true
  | String ch kw' =>
      negb (Ascii.eqb ch "%") && negb (Ascii.eqb ch "_") && no_wildcard kw'
  end.

Definition plain_keyword (c : Criteria) : Prop :=
  ∀ kw, desc_keyword c = Some kw → no_wildcard kw = true.

Definition keyword (kw : string) : Criteria :=
  mkCriteria None None None None None (Some kw).

Definition fifty : Store :=
  mkStore [mkExpense 1 50 "Food" "2024-03-01" "50 dollars"] 1.

(** Filtering twice, and filtering once by two criteria sets. *)
Definition and_then {A B} (x : res A) (f : A → res B) : res B :=
  match x with
  | Ok a => f a
  | Raise e => Raise e
  end.

(** The tests of a criteria set on the fields other than the
    description, with the two date tests of the program at hand. *)
Definition fields_mask (ge le : string → Expense → bool) (c : Criteria) (r : Expense)
  : bool :=
  conjunct (truthy (start_date c)) ge r
  && conjunct (truthy (end_date c)) le r
  && conjunct (category_arg c) category_eq r
  && conjunct (min_amount c) amount_ge r
  && conjunct (max_amount c) amount_le r.

Section Selection.

Variable date_col : Expense → Cal.timestamp.
Variable timestamp_of : string → Cal.timestamp.
Variable regex : Type.
Variable re_compile : string → option regex.
Variable re_search : regex → string → bool.

(** The tests of the web filter on the fields other than the description. *)
Definition St_fields_mask : Criteria → Expense → bool :=
  fields_mask (St.date_ge date_col timestamp_of) (St.date_le date_col timestamp_of).

(** The test of a criteria set on the description, once its keyword is
    compiled. *)
Definition keyword_mask (c : Criteria) : res (Expense → bool) :=
  match truthy (desc_keyword c) with
  | Some kw =>
      match re_compile kw with
      | Some re => Ok (λ r, re_search re (row_description r))
      | None => Raise ReError
      end
  | None => Ok (λ _, true)
  end.

(** One pass over the frame that keeps the records passing every test
    of [A] and every test of [B]. *)
Definition filter_by_both (df : list Expense) (A B : Criteria) : res (list Expense) :=
  match keyword_mask A, keyword_mask B with
  | Ok a, Ok b =>
      Ok (List.filter (λ r, (St_fields_mask A r && a r) && (St_fields_mask B r && b r))
            df)
  | Raise e, _ => Raise e
  | _, Raise e => Raise e
  end.

End Selection.

(** The criteria set holding what [A] sets and, where [A] sets nothing,
    what [B] sets. *)
Definition combine (A B : Criteria) : Criteria :=
  mkCriteria
    (match truthy (start_date A) with Some d => Some d | None => start_date B end)
    (match truthy (end_date A) with Some d => Some d | None => end_date B end)
    (match category_arg A with Some k => Some k | None => category B end)
    (match min_amount A with Some m => Some m | None => min_amount B end)
    (match max_amount A with Some m => Some m | None => max_amount B end)
    (match truthy (desc_keyword A) with Some kw => Some kw | None => desc_keyword B end).

(** No field is set by both. *)
Definition compatible (A B : Criteria) : Prop :=
  (truthy (start_date A) = None ∨ truthy (start_date B) = None)
  ∧ (truthy (end_date A) = None ∨ truthy (end_date B) = None)
  ∧ (category_arg A = None ∨ category_arg B = None)
  ∧ (min_amount A = None ∨ min_amount B = None)
  ∧ (max_amount A = None ∨ max_amount B = None)
  ∧ (truthy (desc_keyword A) = None ∨ truthy (desc_keyword B) = None).

(** A stand-in for [re] in examples: every keyword compiles, to itself,
    and is searched as plain text up to ASCII case. *)
Definition literal_compile (kw : string) : option string := Some kw.
Definition literal_search (re d : string) : bool := contains_ci re d.

Definition in_march : Criteria :=
  mkCriteria (Some "2024-03-01") (Some "2024-03-31") None None None None.

Definition food_up_to_100 : Criteria :=
  mkCriteria None None (Some "Food") None (Some 100) (Some "doll").


(** Every date of the collection is canonical: a text [YYYY-MM-DD] that
    names a day of the years 1678 to 2261, or a text pandas reads as NaT. *)
Definition canonical_dates (l : list Expense) : Prop :=
  Forall (λ r, Cal.canonical (row_date r) = true) l.

(** A pandas that refuses every column that holds a text which is not
    canonical, for examples on canonical columns. *)
Definition refuses (col : list string) (s : string) : option Cal.timestamp := None.

(** The date column and the bounds of a frame whose texts are canonical,
    for examples. *)
Definition canonical_col (r : Expense) : Cal.timestamp :=
  match Cal.to_datetime (row_date r) with Some ts => ts | None => Cal.NaT end.
Definition canonical_bound (d : string) : Cal.timestamp :=
  match Cal.to_datetime d with Some ts => ts | None => Cal.NaT end.

(** A record as the import stores it for a row without a date. *)
Definition undated : Expense := mkExpense 3 7 "Food" "nan" "cash".

(** The double that Python reads from the text [2.778448436856347e-164],
    and three records of that amount. *)
Definition tiny : float := 0x1.999999999999ap-544%float.

Definition three_tiny : list (Z * float) :=
  [(1%Z, tiny); (2%Z, tiny); (3%Z, tiny)].

(** Two records, one of them without a date. *)
Definition two_dated : list Expense :=
  [undated; mkExpense 4 12 "Food" "2024-01-15" "a"].


(** The three records of the scenario in the specification. *)
Definition three : list Expense :=
  [mkExpense 1 10 "Food" "2024-01-01" ""; mkExpense 2 12 "Food" "2024-01-15" "";
   mkExpense 3 500 "Food" "2024-01-20" ""].

(** The state a store is in after any run of the two programs: no id
    twice, every id positive and not above the counter. *)
Definition well_kept (db : Store) : Prop :=
  NoDup (ids db) ∧ (0 ≤ seq db)%Z ∧ ∀ k, k ∈ ids db → (0 < k ≤ seq db)%Z.

Definition two_rows : Store :=
  mkStore [mkExpense 1 12 "Food" "2024-01-15" "lunch";
           mkExpense 4 30 "Rent" "2024-02-01" "flat"] 6.

(** The criteria set [c] with the keyword replaced. *)
Definition with_keyword (c : Criteria) (kw : string) : Criteria :=
  mkCriteria (start_date c) (end_date c) (category c) (min_amount c) (max_amount c)
    (Some kw).

(** A day of the calendar, and the order of the calendar on dates. *)
Definition calendar_date (t : Cal.date) : Prop :=
  (1 ≤ Cal.month t ≤ 12 ∧ 1 ≤ Cal.day t ≤ Cal.days_in_month (Cal.year t) (Cal.month t))%Z.

Definition earlier (t1 t2 : Cal.date) : Prop :=
  (Cal.year t1 < Cal.year t2
   ∨ (Cal.year t1 = Cal.year t2
      ∧ (Cal.month t1 < Cal.month t2
         ∨ (Cal.month t1 = Cal.month t2 ∧ Cal.day t1 < Cal.day t2))))%Z.

(** The days of a year that lie before the first of a month. *)
Definition days_before_month (lp : bool) (m : Z) : Z :=
  ((if (m <=? 1) then 0 else if (m =? 2) then 31
    else (if lp then 1 else 0)
         + (if (m =? 3) then 59 else if (m =? 4) then 90 else if (m =? 5) then 120
            else if (m =? 6) then 151 else if (m =? 7) then 181
            else if (m =? 8) then 212 else if (m =? 9) then 243
            else if (m =? 10) then 273 else if (m =? 11) then 304 else 334)))%Z.

Definition first_of_january (y : Z) : Z := Cal.days_from_civil (Cal.mkDate y 1 1).

(** Some categories, two of them equally frequent. *)
Definition bills : list Expense :=
  [mkExpense 1 40 "Rent" "2024-01-01" "a"; mkExpense 2 12 "Food" "2024-01-02" "b";
   mkExpense 3 40 "Rent" "2024-02-01" "c"; mkExpense 4 9 "Food" "2024-02-03" "d";
   mkExpense 5 3 "Bus" "2024-02-04" "e"].

(** The pandas frequency [report_period] groups by, and the period a
    record falls in when its date is read in the column [col]: none if
    the date is read as NaT or the conversion raises on it. *)
Definition report_freq (period : string) : string :=
  if decide (period = "W") then "W"
  else if decide (period = "M") then "M"
  else if decide (period = "Q") then "Q"
  else "Y".

Definition period_of (other : list string → string → option Cal.timestamp)
    (col : list string) (freq : string) (r : Expense) : option Z :=
  match Cal.reads other col (row_date r) with
  | Some ts => Cal.to_period freq ts
  | None => None
  end.

(** * Properties *)

(** ** Store lemmas *)

Lemma update_rows_absent (f : Expense → Expense) (k : Z) (l : list Expense) :
  k ∉ (row_id <$> l) →
  (λ r, if decide (row_id r = k) then f r else r) <$> l = l.
Proof.
  induction l as [|r l IH]; [done|].
  rewrite fmap_cons, not_elem_of_cons. intros [Hne Hl].
  cbn. rewrite decide_False by done. by rewrite IH.
Qed.

Lemma delete_rows_absent (k : Z) (l : list Expense) :
  k ∉ (row_id <$> l) → filter (λ r, row_id r ≠ k) l = l.
Proof.
  induction l as [|r l IH]; [done|].
  rewrite fmap_cons, not_elem_of_cons. intros [Hne Hl].
  rewrite filter_cons_True by done. by rewrite IH.
Qed.

(** ** Update and delete of an unknown id *)

(** C5, as stated, fails: with one row of id 1 in the store, the update
    and the delete of id 7 end without any error, as a successful call
    does. *)
Lemma unknown_id_not_reported :
  (7%Z ∉ ids one_row)
  ∧ ¬ reports_error (Db.update_expense 7 (Fin 3) "Rent" "2024-02-01" "" one_row)
  ∧ ¬ reports_error (Db.delete_expense 7 one_row).
Proof.
  split; [|split].
  - unfold ids, one_row; cbn. rewrite list_elem_of_singleton. lia.
  - intros [e He]. discriminate He.
  - intros [e He]. discriminate He.
Qed.

(** C5, amended: an update or a delete of an id that is not in the store
    returns normally and leaves the store as it was; and whatever the id,
    a delete, and an update with a numeric amount, return normally. *)
Theorem unknown_id_is_silent_noop (db : Store) (k : Z) (a : pyfloat)
    (c d s : string) :
  k ∉ ids db →
  Db.update_expense k a c d s db = (Ok (), db)
  ∧ Db.delete_expense k db = (Ok (), db)
  ∧ ∀ (k' : Z) (x : R),
      (Db.update_expense k' (Fin x) c d s db).1 = Ok ()
      ∧ (Db.delete_expense k' db).1 = Ok ().
Proof.
  intros Hk. destruct db as [l n]. unfold ids in Hk; cbn in Hk.
  split; [|split].
  - unfold Db.update_expense. destruct a as [x|].
    + cbn. by rewrite update_rows_absent.
    + by rewrite decide_False.
  - unfold Db.delete_expense; cbn. by rewrite delete_rows_absent.
  - done.
Qed.

Lemma unknown_id_is_silent_noop_witness :
  Db.update_expense 7 NaN "Rent" "2024-02-01" "" one_row = (Ok (), one_row)
  ∧ Db.delete_expense 7 one_row = (Ok (), one_row)
  ∧ ∀ (k' : Z) (x : R),
      (Db.update_expense k' (Fin x) "Rent" "2024-02-01" "" one_row).1 = Ok ()
      ∧ (Db.delete_expense k' one_row).1 = Ok ().
Proof.
  apply (unknown_id_is_silent_noop one_row 7 NaN "Rent" "2024-02-01" "").
  unfold ids, one_row; cbn. rewrite list_elem_of_singleton. lia.
Defined.

(** ** Import of a frame with a malformed row *)

Lemma import_rows_cons (row : Csv.FrameRow) (df : list Csv.FrameRow) (db : Store) :
  Tk.import_rows (row :: df) db =
  match Csv.py_float (Csv.Amount row) with
  | Raise e => (Raise e, db)
  | Ok a =>
      match Db.add_expense a (Csv.py_str (Csv.Category row))
              (Csv.py_str (Csv.Date row))
              (match Csv.Description row with
               | Some d => Csv.py_str d
               | None => ""
               end) db with
      | (Ok _, db') => Tk.import_rows df db'
      | (Raise e, db') => (Raise e, db')
      end
  end.
Proof.
  cbn. unfold mbind, M_bind, lift.
  destruct (Csv.py_float (Csv.Amount row)); reflexivity.
Qed.

Lemma St_import_rows (df : list Csv.FrameRow) : St.import_rows df = Tk.import_rows df.
Proof. induction df as [|row df IH]; [done|]. cbn. by rewrite IH. Qed.

(** When the loop raises, neither import goes on to what follows it in
    its [try]. *)
Lemma import_data_raise (float_of_text : string → res pyfloat)
    (min_amount max_amount : string) (rerun : res unit)
    (df : list Csv.FrameRow) (db db' : Store) (e : exn) :
  Tk.import_rows df db = (Raise e, db') →
  Tk.import_data float_of_text min_amount max_amount df db = (ImportError e, db')
  ∧ St.import_block rerun df db = ([ImportError e], db').
Proof.
  intros Heq.
  assert (St.import_rows df db = (Raise e, db')) as Hst
    by (by rewrite <- Heq, (St_import_rows df)).
  unfold Tk.import_data, St.import_block. by rewrite Heq, Hst.
Qed.

(** Either import leaves the store as its loop leaves it. *)
Lemma import_store (float_of_text : string → res pyfloat)
    (min_amount max_amount : string) (rerun : res unit)
    (df : list Csv.FrameRow) (db : Store) :
  (Tk.import_data float_of_text min_amount max_amount df db).2 = (Tk.import_rows df db).2
  ∧ (St.import_block rerun df db).2 = (Tk.import_rows df db).2.
Proof.
  assert (St.import_rows df db = Tk.import_rows df db) as Hst
    by (by rewrite (St_import_rows df)).
  unfold Tk.import_data, St.import_block. rewrite Hst.
  destruct (Tk.import_rows df db) as [[[]|e] db']; [|done].
  split; [|done]. by destruct (Tk.refresh _ _ _).
Qed.

(** The rows before the first malformed one are inserted one by one. *)
Lemma import_rows_good (good : list Csv.FrameRow) (db : Store) :
  Forall well_formed good →
  ∃ new n, Tk.import_rows good db = (Ok (), mkStore (rows db ++ new) n)
           ∧ Forall2 imported_as good new.
Proof.
  intros Hgood. revert db.
  induction Hgood as [|row good [x Hx] _ IH]; intros db.
  - exists [], (seq db). rewrite app_nil_r. by destruct db.
  - rewrite import_rows_cons, Hx. cbn.
    destruct (IH (mkStore
      (rows db ++ [mkExpense (Z.max (seq db) (max_rowid (rows db)) + 1) x
                     (Csv.py_str (Csv.Category row)) (Csv.py_str (Csv.Date row))
                     (match Csv.Description row with
                      | Some d => Csv.py_str d
                      | None => ""
                      end)])
      (Z.max (seq db) (max_rowid (rows db)) + 1))) as (new & n & Heq & Hnew).
    eexists (_ :: new), n. rewrite Heq. cbn. rewrite <- app_assoc. cbn.
    split; [reflexivity|]. constructor; [|done]. by repeat split.
Qed.

Lemma import_rows_app (l1 l2 : list Csv.FrameRow) (db : Store) :
  Tk.import_rows (l1 ++ l2) db =
  match Tk.import_rows l1 db with
  | (Ok _, db') => Tk.import_rows l2 db'
  | (Raise e, db') => (Raise e, db')
  end.
Proof.
  revert db. induction l1 as [|row l1 IH]; intros db; [done|].
  rewrite <- app_comm_cons, !import_rows_cons.
  destruct (Csv.py_float (Csv.Amount row)) as [a|e]; [|done].
  destruct (Db.add_expense _ _ _ _ db) as [[[]|e] db']; [apply IH|done].
Qed.

Lemma import_rows_bad (bad : Csv.FrameRow) (rest : list Csv.FrameRow) (db : Store) :
  ¬ well_formed bad → ∃ e, Tk.import_rows (bad :: rest) db = (Raise e, db).
Proof.
  intros Hbad. rewrite import_rows_cons.
  destruct (Csv.Amount bad) as [x|s|] eqn:Ha; cbn.
  - destruct Hbad. by exists x.
  - by exists ValueError.
  - by exists IntegrityError.
Qed.

(** C1, as stated, fails: a frame whose second row has the amount
    ["five"] leaves the record of its first row in the store, in either
    front-end, whatever the filter boxes hold and whatever a rerun would
    do. *)
Lemma rows_before_the_bad_one_stay :
  ¬ well_formed bad_row
  ∧ (∀ float_of_text min_amount max_amount,
       rows (Tk.import_data float_of_text min_amount max_amount
               [good_row; bad_row] empty_store).2 ≠ rows empty_store)
  ∧ (∀ float_of_text min_amount max_amount,
       Tk.import_data float_of_text min_amount max_amount [good_row; bad_row] empty_store
       = (ImportError ValueError,
          mkStore [mkExpense 1 5 "Food" "2024-01-01" "lunch"] 1))
  ∧ (∀ rerun,
       St.import_block rerun [good_row; bad_row] empty_store
       = ([ImportError ValueError],
          mkStore [mkExpense 1 5 "Food" "2024-01-01" "lunch"] 1)).
Proof.
  split; [|split; [|split]].
  - intros [x Hx]. discriminate Hx.
  - discriminate.
  - reflexivity.
  - reflexivity.
Qed.

(** C1, amended: the import stops at the first malformed row and reports
    the failure; the rows before it have been inserted and stay in the
    store, after the rows that were there, and nothing of the malformed
    row or of the rows behind it is inserted.  Both front-ends. *)
Theorem import_stops_at_first_bad_row
    (float_of_text : string → res pyfloat) (min_amount max_amount : string)
    (rerun : res unit)
    (good : list Csv.FrameRow) (bad : Csv.FrameRow) (rest : list Csv.FrameRow)
    (db : Store) :
  Forall well_formed good →
  ¬ well_formed bad →
  ∃ e new n,
    Tk.import_data float_of_text min_amount max_amount (good ++ bad :: rest) db
      = (ImportError e, mkStore (rows db ++ new) n)
    ∧ St.import_block rerun (good ++ bad :: rest) db
      = ([ImportError e], mkStore (rows db ++ new) n)
    ∧ Forall2 imported_as good new.
Proof.
  intros Hgood Hbad.
  destruct (import_rows_good good db Hgood) as (new & n & Heq & Hnew).
  destruct (import_rows_bad bad rest (mkStore (rows db ++ new) n) Hbad) as [e He].
  exists e, new, n.
  assert (Tk.import_rows (good ++ bad :: rest) db
          = (Raise e, mkStore (rows db ++ new) n)) as Hloop.
  { by rewrite import_rows_app, Heq, He. }
  destruct (import_data_raise float_of_text min_amount max_amount rerun _ _ _ _ Hloop)
    as [Htk Hst].
  done.
Qed.

Lemma import_stops_at_first_bad_row_witness :
  ∃ e new n,
    Tk.import_data (λ _, Raise ValueError) "" "ten"
        ([good_row] ++ bad_row :: [good_row]) empty_store
      = (ImportError e, mkStore (rows empty_store ++ new) n)
    ∧ St.import_block (Ok ()) ([good_row] ++ bad_row :: [good_row]) empty_store
      = ([ImportError e], mkStore (rows empty_store ++ new) n)
    ∧ Forall2 imported_as [good_row] new.
Proof.
  apply (import_stops_at_first_bad_row (λ _, Raise ValueError) "" "ten" (Ok ())
           [good_row] bad_row [good_row] empty_store).
  - constructor; [|constructor]. by exists 5.
  - intros [x Hx]. discriminate Hx.
Defined.

(** ** Export followed by import *)

Lemma read_text_plain (s : string) :
  s ∉ Csv.na_values → Csv.py_str (Csv.read_text s) = s.
Proof. intros Hs. unfold Csv.read_text. by rewrite decide_False. Qed.

Lemma read_csv_well_formed (l : list Expense) :
  Forall well_formed (Csv.read_csv (Csv.to_csv l)).
Proof.
  unfold Csv.read_csv, Csv.to_csv. rewrite <- list_fmap_compose.
  apply Forall_fmap, Forall_forall. intros e _. by exists (row_amount e).
Qed.

Lemma import_data_good (float_of_text : string → res pyfloat)
    (df : list Csv.FrameRow) (db : Store) :
  Forall well_formed df →
  ∃ new n, Tk.import_data float_of_text "" "" df db
             = (Imported (length df), mkStore (rows db ++ new) n)
           ∧ Forall2 imported_as df new.
Proof.
  intros Hdf. destruct (import_rows_good df db Hdf) as (new & n & Heq & Hnew).
  exists new, n. unfold Tk.import_data. by rewrite Heq.
Qed.

(** The part of the round trip that holds, with the amount boxes of the
    filter empty: the loop of the import of an exported file does not
    fail, it appends one record per exported row, each with the amount of
    its row, and with the category, date and description of its row
    wherever that text is not one pandas reads as missing. *)
Lemma export_then_import (float_of_text : string → res pyfloat)
    (filtered : list Expense) (db : Store) :
  ∃ new n,
    Tk.import_data float_of_text "" "" (Csv.read_csv (Tk.export_csv filtered)) db
      = (Imported (length filtered), mkStore (rows db ++ new) n)
    ∧ length new = length filtered
    ∧ Forall2 (λ e e',
         row_amount e' = row_amount e
         ∧ (row_category e ∉ Csv.na_values → row_category e' = row_category e)
         ∧ (row_date e ∉ Csv.na_values → row_date e' = row_date e)
         ∧ (row_description e ∉ Csv.na_values →
            row_description e' = row_description e)) filtered new.
Proof.
  destruct (import_data_good float_of_text _ db (read_csv_well_formed filtered))
    as (new & n & Heq & Hnew).
  exists new, n. unfold Tk.export_csv.
  unfold Csv.read_csv, Csv.to_csv in *. rewrite <- list_fmap_compose in *.
  rewrite length_fmap in Heq. split; [exact Heq|].
  rewrite Forall2_fmap_l in Hnew. split.
  - symmetry. by eapply Forall2_length.
  - eapply Forall2_impl; [exact Hnew|]. cbn.
    intros e e' (Ha & Hc & Hd & Hs). cbn in *.
    split; [congruence|].
    rewrite Hc, Hd, Hs. repeat split; apply read_text_plain.
Qed.

(** C9 fails on a record whose description is empty: the exported field
    is empty, pandas reads an empty field as a missing value, and [str]
    of that value is the text ["nan"], which the import stores. *)
Theorem empty_description_comes_back_as_nan :
  (∀ float_of_text,
     Tk.import_data float_of_text "" "" (Csv.read_csv (Tk.export_csv [no_note]))
       (mkStore [no_note] 1)
     = (Imported 1, mkStore [no_note; mkExpense 2 10 "Food" "2024-01-01" "nan"] 2))
  ∧ (∀ rerun,
       ∃ more,
         St.import_block rerun (Csv.read_csv (St.export_filtered [no_note]))
           (mkStore [no_note] 1)
         = (Imported 1 :: more,
            mkStore [no_note; mkExpense 2 10 "Food" "2024-01-01" "nan"] 2))
  ∧ ¬ same_content no_note (mkExpense 2 10 "Food" "2024-01-01" "nan").
Proof.
  split; [reflexivity|]. split; [intros rerun; eexists; reflexivity|].
  intros (_ & _ & _ & Hd). discriminate Hd.
Qed.

(** ** Statistics *)

Lemma sum_cons (x : R) (a : list R) : Np.sum (x :: a) = x + Np.sum a.
Proof. reflexivity. Qed.

Lemma sum_app (a b : list R) : Np.sum (a ++ b) = Np.sum a + Np.sum b.
Proof.
  induction a as [|x a IH].
  - change (Np.sum b = 0 + Np.sum b). lra.
  - rewrite <- app_comm_cons, !sum_cons, IH. lra.
Qed.

Lemma INR_length_pos {A} (x : A) (l : list A) : 0 < INR (length (x :: l)).
Proof. apply lt_0_INR. cbn. lia. Qed.

Lemma mean_times_n (a : list R) :
  a ≠ [] → Np.mean a * INR (length a) = Np.sum a.
Proof.
  destruct a as [|x a]; [done|]. intros _. unfold Np.mean. field.
  apply Rgt_not_eq, INR_length_pos.
Qed.

Lemma sqdev_nonneg (a : list R) : 0 <= Np.sqdev a.
Proof.
  unfold Np.sqdev. generalize (Np.mean a). intros m.
  induction a as [|x a IH].
  - change (0 <= 0). lra.
  - rewrite fmap_cons, sum_cons. cbv beta.
    pose proof (Rle_0_sqr (x - m)) as Hsq. unfold Rsqr in Hsq. lra.
Qed.

Lemma var_nonneg (a : list R) : 0 <= Np.var a.
Proof.
  unfold Np.var. destruct a as [|x a].
  - change (0 <= 0 / 0). unfold Rdiv. lra.
  - apply Rmult_le_pos; [apply sqdev_nonneg|].
    apply Rlt_le, Rinv_0_lt_compat, INR_length_pos.
Qed.

(** [np.var] divides the sum of squared deviations by the number of
    values, and [np.std] is its non-negative square root. *)
Lemma var_is_population (a : list R) :
  a ≠ [] → Np.var a * INR (length a) = Np.sqdev a.
Proof.
  destruct a as [|x a]; [done|]. intros _. unfold Np.var. field.
  apply Rgt_not_eq, INR_length_pos.
Qed.

Lemma std_is_root (a : list R) : 0 <= Np.std a ∧ Np.std a * Np.std a = Np.var a.
Proof.
  unfold Np.std. split; [apply sqrt_pos|]. apply sqrt_sqrt, var_nonneg.
Qed.

Lemma foldl_Rmin_le (x : R) (a : list R) :
  foldl Rmin x a <= x ∧ ∀ y, y ∈ a → foldl Rmin x a <= y.
Proof.
  revert x. induction a as [|z a IH]; intros x; cbn.
  - split; [lra|]. intros y Hy. by apply elem_of_nil in Hy.
  - destruct (IH (Rmin x z)) as [H1 H2]. split.
    + pose proof (Rmin_l x z). lra.
    + intros y [->|Hy]%elem_of_cons; [|by apply H2].
      pose proof (Rmin_r x z). lra.
Qed.

Lemma foldl_Rmin_in (x : R) (a : list R) : foldl Rmin x a ∈ x :: a.
Proof.
  revert x. induction a as [|z a IH]; intros x; cbn; [by left|].
  specialize (IH (Rmin x z)). apply elem_of_cons in IH as [IH|IH].
  - rewrite IH. unfold Rmin. destruct (Rle_dec x z); [by left|right; by left].
  - right; by right.
Qed.

Lemma foldl_Rmax_ge (x : R) (a : list R) :
  x <= foldl Rmax x a ∧ ∀ y, y ∈ a → y <= foldl Rmax x a.
Proof.
  revert x. induction a as [|z a IH]; intros x; cbn.
  - split; [lra|]. intros y Hy. by apply elem_of_nil in Hy.
  - destruct (IH (Rmax x z)) as [H1 H2]. split.
    + pose proof (Rmax_l x z). lra.
    + intros y [->|Hy]%elem_of_cons; [|by apply H2].
      pose proof (Rmax_r x z). lra.
Qed.

Lemma foldl_Rmax_in (x : R) (a : list R) : foldl Rmax x a ∈ x :: a.
Proof.
  revert x. induction a as [|z a IH]; intros x; cbn; [by left|].
  specialize (IH (Rmax x z)). apply elem_of_cons in IH as [IH|IH].
  - rewrite IH. unfold Rmax. destruct (Rle_dec x z); [right; by left|by left].
  - right; by right.
Qed.

(** [np.min] and [np.max] are the least and the greatest amount. *)
Lemma min_is_least (a : list R) :
  a ≠ [] → Np.min a ∈ a ∧ ∀ y, y ∈ a → Np.min a <= y.
Proof.
  destruct a as [|x a]; [done|]. intros _. split; [apply foldl_Rmin_in|].
  destruct (foldl_Rmin_le x a) as [H1 H2].
  intros y [->|Hy]%elem_of_cons; [exact H1|by apply H2].
Qed.

Lemma max_is_greatest (a : list R) :
  a ≠ [] → Np.max a ∈ a ∧ ∀ y, y ∈ a → y <= Np.max a.
Proof.
  destruct a as [|x a]; [done|]. intros _. split; [apply foldl_Rmax_in|].
  destruct (foldl_Rmax_ge x a) as [H1 H2].
  intros y [->|Hy]%elem_of_cons; [exact H1|by apply H2].
Qed.

#[local] Instance Rle_total : Total Rle.
Proof. intros x y. destruct (Rle_dec x y); [by left|right; lra]. Qed.

#[local] Instance Rle_trans : Transitive Rle.
Proof. intros x y z. apply Rle_trans. Qed.

(** [np.median] reads the middle of the amounts put in increasing order:
    the middle one, or the mean of the two middle ones. *)
Lemma median_is_middle (a : list R) :
  ∃ s, Sorted Rle s ∧ s ≡ₚ a
       ∧ Np.median a =
           if Nat.even (length a)
           then (nth (length a / 2 - 1) s 0 + nth (length a / 2) s 0) / 2
           else nth (length a / 2) s 0.
Proof.
  exists (merge_sort Rle a). split; [apply (Sorted_merge_sort Rle)|].
  split; [apply merge_sort_Permutation|reflexivity].
Qed.

(** The dictionary the desktop [get_stats] returns for a collection that
    is not empty. *)
Lemma Tk_get_stats_fields (set_order : list string → list string)
    (r : Expense) (l : list Expense) :
  let a := row_amount <$> r :: l in
  let stats := Tk.get_stats set_order (r :: l) in
  stats !! "total" = Some (VFloat (Fin (Np.sum a)))
  ∧ stats !! "average" = Some (VFloat (Fin (Np.mean a)))
  ∧ stats !! "median" = Some (VFloat (Fin (Np.median a)))
  ∧ stats !! "min" = Some (VFloat (Fin (Np.min a)))
  ∧ stats !! "max" = Some (VFloat (Fin (Np.max a)))
  ∧ stats !! "std" = Some (VFloat (Fin (Np.std a)))
  ∧ stats !! "var" = Some (VFloat (Fin (Np.var a))).
Proof.
  cbv zeta. unfold Tk.get_stats.
  repeat split;
    repeat (rewrite lookup_insert_ne by discriminate); by rewrite lookup_insert_eq.
Qed.

Lemma St_get_stats_fields (r : Expense) (l : list Expense) :
  let a := row_amount <$> r :: l in
  let stats := St.get_stats (r :: l) in
  stats !! "total" = Some (VFloat (Fin (Np.sum a)))
  ∧ stats !! "average" = Some (VFloat (Fin (Np.mean a)))
  ∧ stats !! "median" = Some (VFloat (Fin (Np.median a)))
  ∧ stats !! "min" = Some (VFloat (Fin (Np.min a)))
  ∧ stats !! "max" = Some (VFloat (Fin (Np.max a)))
  ∧ stats !! "std" = Some (VFloat (Pd.std a))
  ∧ stats !! "var" = Some (VFloat (Pd.var a)).
Proof.
  cbv zeta. unfold St.get_stats.
  repeat split;
    repeat (rewrite lookup_insert_ne by discriminate); by rewrite lookup_insert_eq.
Qed.

(** The desktop statistics are the ones C3 lists: sum, arithmetic mean,
    median, least and greatest amount, and the variance and standard
    deviation that divide by the number of amounts. *)
Lemma Tk_get_stats_population (set_order : list string → list string)
    (r : Expense) (l : list Expense) :
  let a := row_amount <$> r :: l in
  ∃ total average median lo hi std var,
    Tk.get_stats set_order (r :: l) !! "total" = Some (VFloat (Fin total))
    ∧ Tk.get_stats set_order (r :: l) !! "average" = Some (VFloat (Fin average))
    ∧ Tk.get_stats set_order (r :: l) !! "median" = Some (VFloat (Fin median))
    ∧ Tk.get_stats set_order (r :: l) !! "min" = Some (VFloat (Fin lo))
    ∧ Tk.get_stats set_order (r :: l) !! "max" = Some (VFloat (Fin hi))
    ∧ Tk.get_stats set_order (r :: l) !! "std" = Some (VFloat (Fin std))
    ∧ Tk.get_stats set_order (r :: l) !! "var" = Some (VFloat (Fin var))
    ∧ total = Np.sum a
    ∧ average * INR (length a) = total
    ∧ median = Np.median a
    ∧ (lo ∈ a ∧ ∀ y, y ∈ a → lo <= y)
    ∧ (hi ∈ a ∧ ∀ y, y ∈ a → y <= hi)
    ∧ var * INR (length a) = Np.sum ((λ x, (x - average) * (x - average)) <$> a)
    ∧ 0 <= std ∧ std * std = var.
Proof.
  intros a.
  destruct (Tk_get_stats_fields set_order r l) as (H1 & H2 & H3 & H4 & H5 & H6 & H7).
  exists (Np.sum a), (Np.mean a), (Np.median a), (Np.min a), (Np.max a),
    (Np.std a), (Np.var a).
  repeat (split; [assumption|]).
  split; [done|]. split; [by apply mean_times_n|]. split; [done|].
  split; [by apply min_is_least|]. split; [by apply max_is_greatest|].
  split; [by apply var_is_population|]. apply std_is_root.
Qed.

Lemma INR_2 : INR 2 = 2.
Proof. cbn. lra. Qed.

Lemma mean_two : Np.mean (row_amount <$> two) = 2.
Proof. unfold Np.mean, two. cbn -[INR]. rewrite INR_2. lra. Qed.

Lemma sqdev_two : Np.sqdev (row_amount <$> two) = 2.
Proof. unfold Np.sqdev. rewrite mean_two. cbn. lra. Qed.

(** C3 fails in the web front-end: pandas' [var] and [std] divide by
    [n - 1].  For the amounts 1 and 3 the dashboard shows the variance 2
    and the standard deviation [sqrt 2], where the population values, which
    the desktop front-end shows, are 1 and 1; for a single record it shows
    NaN. *)
Theorem St_get_stats_divides_by_n_minus_1 :
  St.get_stats two !! "var" = Some (VFloat (Fin 2))
  ∧ St.get_stats two !! "std" = Some (VFloat (Fin (sqrt 2)))
  ∧ Np.var (row_amount <$> two) = 1
  ∧ Np.std (row_amount <$> two) = 1
  ∧ (∀ set_order, Tk.get_stats set_order two !! "var" = Some (VFloat (Fin 1)))
  ∧ St.get_stats [no_note] !! "std" = Some (VFloat NaN).
Proof.
  assert (Pd.var (row_amount <$> two) = Fin 2) as Hv.
  { unfold Pd.var. rewrite decide_False by (cbn; lia).
    rewrite sqdev_two. f_equal. cbn. lra. }
  assert (Np.var (row_amount <$> two) = 1) as Hp.
  { unfold Np.var. rewrite sqdev_two. cbn -[INR]. rewrite INR_2. lra. }
  destruct (St_get_stats_fields (mkExpense 1 1 "Food" "2024-01-01" "a")
              [mkExpense 2 3 "Rent" "2024-01-02" "b"]) as (_ & _ & _ & _ & _ & Hs & Hvar).
  fold two in Hs, Hvar.
  split; [by rewrite Hvar, Hv|]. split.
  { rewrite Hs. unfold Pd.std. by rewrite Hv. }
  split; [exact Hp|]. split.
  { unfold Np.std. rewrite Hp. apply sqrt_1. }
  split.
  { intros so.
    destruct (Tk_get_stats_fields so (mkExpense 1 1 "Food" "2024-01-01" "a")
                [mkExpense 2 3 "Rent" "2024-01-02" "b"]) as (_ & _ & _ & _ & _ & _ & Hk).
    fold two in Hk. by rewrite Hk, Hp. }
  destruct (St_get_stats_fields no_note []) as (_ & _ & _ & _ & _ & Hn & _).
  rewrite Hn. reflexivity.
Qed.

(** C4: for the empty collection both [get_stats] return the empty
    dictionary: no key of it, statistic or other, has a value. *)
Theorem no_kpi_for_no_expenses (set_order : list string → list string) (key : string) :
  Tk.get_stats set_order [] = ∅
  ∧ St.get_stats [] = ∅
  ∧ Tk.get_stats set_order [] !! key = None
  ∧ St.get_stats [] !! key = None.
Proof.
  split; [reflexivity|]. split; [reflexivity|].
  split; apply lookup_empty.
Qed.

(** ** Outliers *)

(** The loop of the desktop detector adds the id of every row that
    passes the test, and nothing else. *)
Lemma outlier_loop (P : Expense → Prop) `{!∀ e, Decision (P e)}
    (l : list Expense) (acc : gset Z) (k : Z) :
  k ∈ foldl (λ ids row, if decide (P row) then ids ∪ {[row_id row]} else ids) acc l
  ↔ k ∈ acc ∨ ∃ e, e ∈ l ∧ row_id e = k ∧ P e.
Proof.
  revert acc. induction l as [|r l IH]; intros acc; cbn.
  - split; [by left|]. intros [Ha|(e & He & _)]; [done|]. by apply elem_of_nil in He.
  - rewrite IH. destruct (decide (P r)) as [Hr|Hr].
    + rewrite elem_of_union, elem_of_singleton. split.
      * intros [[Ha|Hb]|(e & He & Hk & HP)]; [by left| |].
        -- right. exists r. split; [by left|done].
        -- right. exists e. split; [by right|done].
      * intros [Ha|(e & [->|He]%elem_of_cons & Hk & HP)].
        -- left; by left.
        -- left; by right.
        -- right. by exists e.
    + split.
      * intros [Ha|(e & He & Hk & HP)]; [by left|].
        right. exists e. split; [by right|done].
      * intros [Ha|(e & [->|He]%elem_of_cons & Hk & HP)]; [by left|done|].
        right. by exists e.
Qed.

(** The desktop detector does what C2 says: it flags the ids of the
    records that pass the test on the mean and the population standard
    deviation, which are the values its [get_stats] reports. *)
Lemma Tk_detect_outliers_spec (set_order : list string → list string)
    (l : list Expense) (k : Z) :
  l ≠ [] →
  (k ∈ Tk.detect_outliers l ↔ ∃ e, e ∈ l ∧ row_id e = k ∧ is_outlier l e)
  ∧ Tk.get_stats set_order l !! "average"
    = Some (VFloat (Fin (Np.mean (row_amount <$> l))))
  ∧ Tk.get_stats set_order l !! "std"
    = Some (VFloat (Fin (Np.std (row_amount <$> l)))).
Proof.
  destruct l as [|r l]; [done|]. intros _. split.
  - unfold Tk.detect_outliers. cbv zeta.
    rewrite (outlier_loop (λ e, Rabs (row_amount e - Np.mean (row_amount <$> r :: l))
                                > 2 * Np.std (row_amount <$> r :: l))).
    unfold is_outlier. split; [|by right].
    intros [H|H]; [|done]. by apply not_elem_of_empty in H.
  - destruct (Tk_get_stats_fields set_order r l) as (_ & H2 & _ & _ & _ & H6 & _).
    by split.
Qed.

Lemma Tk_detect_outliers_subset (l : list Expense) (k : Z) :
  k ∈ Tk.detect_outliers l → k ∈ row_id <$> l.
Proof.
  destruct l as [|r l]; [by intros ?%not_elem_of_empty|].
  intros Hk.
  apply (Tk_detect_outliers_spec (λ c, c) (r :: l) k) in Hk as (e & He & <- & _); [|done].
  by apply list_elem_of_fmap_2.
Qed.

(** The web detector flags the ids of the rows its mask selects. *)
Lemma St_detect_outliers_elem (r : Expense) (l : list Expense) (k : Z) :
  let mean := Fin (Np.mean (row_amount <$> r :: l)) in
  let std := Pd.std (row_amount <$> r :: l) in
  k ∈ St.detect_outliers (r :: l)
  ↔ ∃ e, e ∈ r :: l ∧ row_id e = k
         ∧ (fgt (Fin (row_amount e)) (fadd mean (fmul (Fin 2) std))
            || flt (Fin (row_amount e)) (fsub mean (fmul (Fin 2) std))) = true.
Proof.
  cbv zeta. unfold St.detect_outliers. cbv zeta.
  rewrite elem_of_list_to_set, list_elem_of_fmap. split.
  - intros (e & -> & He). apply list_elem_of_In, filter_In in He as [He Hm].
    exists e. by rewrite list_elem_of_In.
  - intros (e & He & <- & Hm). exists e. split; [done|].
    apply list_elem_of_In, filter_In. by rewrite <- list_elem_of_In.
Qed.

Lemma sqrt_below (x c : R) : 0 <= x → 0 < c → x < c * c → sqrt x < c.
Proof.
  intros Hx Hc Hlt. rewrite <- (sqrt_square c) by lra.
  apply sqrt_lt_1_alt. lra.
Qed.

Lemma sqrt_above (x c : R) : 0 <= c → c * c < x → c < sqrt x.
Proof.
  intros Hc Hlt. rewrite <- (sqrt_square c) at 1 by lra.
  apply sqrt_lt_1_alt. nra.
Qed.

Lemma INR_6 : INR 6 = 6.
Proof. cbn. lra. Qed.

Lemma INR_5 : INR 5 = 5.
Proof. cbn. lra. Qed.

Lemma mean_six : Np.mean (row_amount <$> six) = 2 / 3.
Proof. unfold Np.mean, six. cbn -[INR]. rewrite INR_6. lra. Qed.

Lemma sqdev_six : Np.sqdev (row_amount <$> six) = 22 / 3.
Proof. unfold Np.sqdev. rewrite mean_six. cbn. lra. Qed.

Lemma std_six : Np.std (row_amount <$> six) < 7 / 6.
Proof.
  unfold Np.std. apply sqrt_below; [apply var_nonneg|lra|].
  unfold Np.var. rewrite sqdev_six. cbn -[INR]. rewrite INR_6. lra.
Qed.

Lemma pd_std_six : ∃ s, Pd.std (row_amount <$> six) = Fin s ∧ 7 / 6 < s.
Proof.
  exists (sqrt (22 / 15)). split.
  - unfold Pd.std, Pd.var. rewrite decide_False by (cbn; lia).
    rewrite sqdev_six. do 2 f_equal. cbn -[INR]. rewrite INR_5. lra.
  - apply sqrt_above; lra.
Qed.

(** C2 fails in the web front-end, by the defect of C3: its detector
    tests against pandas' [std], which divides by [n - 1].  Among the
    amounts 0, 0, 0, 0, 1, 3 the record of amount 3 is an outlier by the
    population standard deviation, and the desktop detector flags it; the
    web detector does not. *)
Theorem St_detect_outliers_misses_an_outlier :
  is_outlier six (mkExpense 6 3 "Food" "2024-01-06" "f")
  ∧ 6%Z ∈ Tk.detect_outliers six
  ∧ 6%Z ∉ St.detect_outliers six.
Proof.
  assert (is_outlier six (mkExpense 6 3 "Food" "2024-01-06" "f")) as Hout.
  { unfold is_outlier. rewrite mean_six. cbn [row_amount].
    pose proof std_six as Hs. rewrite Rabs_right by lra. lra. }
  split; [exact Hout|]. split.
  - apply (Tk_detect_outliers_spec (λ c, c) six 6); [done|].
    exists (mkExpense 6 3 "Food" "2024-01-06" "f").
    split; [|by split]. unfold six. set_solver.
  - unfold six at 1. rewrite St_detect_outliers_elem. fold six.
    destruct pd_std_six as (s & -> & Hs). rewrite mean_six.
    intros (e & He & Hid & Hm). unfold six in He.
    repeat (apply elem_of_cons in He as [->|He]); try discriminate Hid.
    + cbn in Hm. apply orb_true_iff in Hm as [Hm|Hm];
        apply bool_decide_eq_true in Hm; lra.
    + by apply elem_of_nil in He.
Qed.

(** ** No spread, no outlier *)

Lemma sum_constant (x : R) (a : list R) :
  (∀ y, y ∈ a → y = x) → Np.sum a = INR (length a) * x.
Proof.
  induction a as [|z a IH]; intros Ha.
  - change (0 = 0 * x). lra.
  - rewrite sum_cons, IH by (intros y Hy; apply Ha; by right).
    rewrite (Ha z) by (by left). rewrite length_cons, S_INR. lra.
Qed.

Lemma mean_constant (x : R) (a : list R) :
  a ≠ [] → (∀ y, y ∈ a → y = x) → Np.mean a = x.
Proof.
  intros Hne Ha. unfold Np.mean. rewrite (sum_constant x) by done.
  destruct a as [|z a]; [done|]. field. apply Rgt_not_eq, INR_length_pos.
Qed.

Lemma sqdev_constant (x : R) (a : list R) :
  a ≠ [] → (∀ y, y ∈ a → y = x) → Np.sqdev a = 0.
Proof.
  intros Hne Ha. unfold Np.sqdev. rewrite (mean_constant x) by done.
  rewrite (sum_constant 0); [lra|].
  intros y (z & -> & Hz)%list_elem_of_fmap. rewrite (Ha z Hz). lra.
Qed.

Lemma amounts_constant (x : R) (l : list Expense) :
  (∀ e, e ∈ l → row_amount e = x) → ∀ y, y ∈ row_amount <$> l → y = x.
Proof. intros Hl y (e & -> & He)%list_elem_of_fmap. by apply Hl. Qed.

(** X24: with the amounts taken as real numbers, in a collection that
    is not empty and whose records all have the same amount, neither
    detector flags anything. *)
Theorem no_spread_no_outlier (l : list Expense) (x : R) :
  l ≠ [] →
  (∀ e, e ∈ l → row_amount e = x) →
  Tk.detect_outliers l = ∅ ∧ St.detect_outliers l = ∅.
Proof.
  intros Hne Hl.
  assert (row_amount <$> l ≠ []) as Hne' by (by destruct l).
  pose proof (amounts_constant x l Hl) as Ha.
  pose proof (mean_constant x _ Hne' Ha) as Hmean.
  pose proof (sqdev_constant x _ Hne' Ha) as Hdev.
  split; apply set_eq; intros k; split;
    try (by intros ?%not_elem_of_empty).
  - intros Hk.
    apply (Tk_detect_outliers_spec (λ c, c) l k Hne) in Hk as (e & He & _ & Hout).
    unfold is_outlier, Np.std, Np.var in Hout.
    rewrite Hmean, Hdev, (Hl e He) in Hout.
    unfold Rdiv in Hout. rewrite Rmult_0_l, sqrt_0, Rminus_diag, Rabs_R0 in Hout. lra.
  - destruct l as [|r l]; [done|]. rewrite St_detect_outliers_elem.
    rewrite Hmean. intros (e & He & _ & Hm). rewrite (Hl e He) in Hm.
    unfold Pd.std, Pd.var in Hm. destruct (decide _) as [|_]; [done|].
    rewrite Hdev in Hm. unfold Rdiv in Hm. rewrite Rmult_0_l, sqrt_0 in Hm.
    cbn in Hm. apply orb_true_iff in Hm as [Hm|Hm];
      apply bool_decide_eq_true in Hm; lra.
Qed.

Lemma no_spread_no_outlier_witness :
  Tk.detect_outliers [no_note; mkExpense 2 10 "Rent" "2024-01-02" "flat"] = ∅
  ∧ St.detect_outliers [no_note; mkExpense 2 10 "Rent" "2024-01-02" "flat"] = ∅.
Proof.
  apply (no_spread_no_outlier [no_note; mkExpense 2 10 "Rent" "2024-01-02" "flat"] 10).
  - discriminate.
  - intros e He. apply elem_of_cons in He as [->|He]; [reflexivity|].
    apply list_elem_of_singleton in He as ->. reflexivity.
Defined.

(** C10 fails in binary floating point, in which the program computes.
    Of three records of the amount 2.778448436856347e-164 the desktop
    detector computes a mean one unit in the last place above the amount;
    the squares of the three deviations underflow to zero, so the standard
    deviation is 0.0, and the strict test flags all three records.  A
    single record of that amount is not flagged. *)
Theorem equal_amounts_are_flagged :
  Tk64.mean (snd <$> three_tiny) = Some 0x1.999999999999bp-544%float
  ∧ Tk64.std (snd <$> three_tiny) = Some 0%float
  ∧ Tk64.detect_outliers three_tiny = Some {[1%Z; 2%Z; 3%Z]}
  ∧ Tk64.detect_outliers [(1%Z, tiny)] = Some ∅.
Proof. repeat split; reflexivity. Qed.

(** ** The filter of the desktop front-end *)

Lemma occurs_spec (kw d : string) :
  occurs kw d = true ↔ ∃ pre post, d = pre ++ kw ++ post.
Proof.
  assert (∀ kw d, starts_with kw d = true ↔ ∃ post, d = kw ++ post) as Hsw.
  { clear. induction kw as [|a kw IH]; intros d; cbn.
    - split; [by exists d|done].
    - destruct d as [|b d].
      + split; [done|]. by intros [post Hp].
      + rewrite andb_true_iff, IH. split.
        * intros [Hab%Ascii.eqb_eq [post ->]]. exists post. by rewrite Hab.
        * intros [post [= -> ->]]. split; [apply Ascii.eqb_refl|by exists post]. }
  induction d as [|b d IH]; cbn; rewrite orb_true_iff, Hsw.
  - split.
    + intros [[post Hp]|]; [|done]. by exists "", post.
    + intros (pre & post & Hp). left. exists post.
      destruct pre; [done|discriminate Hp].
  - rewrite IH. split.
    + intros [[post Hp]|(pre & post & ->)]; [by exists "", post|].
      by exists (String b pre), post.
    + intros (pre & post & Hp). destruct pre as [|a pre].
      * left. by exists post.
      * right. injection Hp as -> ->. by exists pre, post.
Qed.

Lemma like_all (s : string) : like "%" s = true.
Proof. induction s as [|ch s IH]; [done|]. cbn in *. exact IH. Qed.

Lemma like_keyword_then_all (kw s : string) :
  no_wildcard kw = true →
  like (kw ++ "%") s = starts_with (lower_string kw) (lower_string s).
Proof.
  revert s. induction kw as [|ch kw IH]; intros s Hkw.
  - apply like_all.
  - cbn in Hkw. apply andb_true_iff in Hkw as [Hch Hkw].
    apply andb_true_iff in Hch as [H1%negb_true_iff H2%negb_true_iff].
    change (String ch kw ++ "%") with (String ch (kw ++ "%")).
    cbn -[Ascii.eqb]. rewrite H1, H2.
    destruct s as [|d s]; [done|]. cbn -[Ascii.eqb]. by rewrite IH.
Qed.

(** For a keyword without wildcards, the LIKE pattern of the query is
    containment up to ASCII case. *)
Lemma like_is_containment (kw d : string) :
  no_wildcard kw = true → like (like_pattern kw) d = contains_ci kw d.
Proof.
  intros Hkw. unfold like_pattern, contains_ci.
  change ("%" ++ kw ++ "%") with (String "%" (kw ++ "%")).
  induction d as [|ch d IH]; cbn.
  - by rewrite like_keyword_then_all.
  - cbn in IH. rewrite IH. by rewrite (like_keyword_then_all kw (String ch d)).
Qed.

(** C6 fails in the desktop front-end: the keyword ["50%"] selects the
    record with the description ["50 dollars"], which does not contain
    it.  The keyword is put into the LIKE pattern as it is, and its [%]
    acts as a wildcard.  The web front-end, where the keyword is searched
    by [re], returns no record there as soon as [re] does not find
    ["50%"] in ["50 dollars"]. *)
Theorem keyword_wildcards_match_more :
  Tk.get_filtered_expenses (keyword "50%") fifty = rows fifty
  ∧ contains_ci "50%" "50 dollars" = false
  ∧ Tk.get_filtered_expenses (keyword "50%") fifty
    ≠ List.filter (spec_matches (keyword "50%")) (rows fifty)
  ∧ ∀ (date_col : Expense → Cal.timestamp) (timestamp_of : string → Cal.timestamp)
      (regex : Type) (re_compile : string → option regex)
      (re_search : regex → string → bool) (re : regex),
      re_compile "50%" = Some re →
      re_search re "50 dollars" = false →
      St.filter_expenses date_col timestamp_of regex re_compile re_search
        (rows fifty) (keyword "50%") = Ok [].
Proof.
  split; [reflexivity|]. split; [reflexivity|]. split; [discriminate|].
  intros date_col timestamp_of regex re_compile re_search re Hre Hs.
  unfold St.filter_expenses, St.narrow, keyword, category_arg.
  cbn [start_date end_date category min_amount max_amount desc_keyword truthy].
  rewrite decide_False by done. rewrite Hre. unfold fifty.
  cbn [rows List.filter row_description]. by rewrite Hs.
Qed.

Lemma fields_mask_spec (c : Criteria) (r : Expense) (m : bool) :
  m = match given (desc_keyword c) with
      | Some kw => contains_ci kw (row_description r)
      | None => true
      end →
  fields_mask date_ge date_le c r && m = spec_matches c r.
Proof.
  intros ->. unfold fields_mask, spec_matches, conjunct, category_arg, given, truthy.
  do 4 f_equal.
  destruct (category c) as [k|]; [|done].
  destruct (decide (k = "")); [done|].
  destruct (decide (k = "All")) as [->|Hk]; [done|].
  by rewrite (bool_decide_eq_false_2 (k = "All")).
Qed.

Lemma where_clause_spec (c : Criteria) (r : Expense) :
  plain_keyword c → Tk.where_clause c r = spec_matches c r.
Proof.
  intros Hkw. rewrite <- (fields_mask_spec c r
    (conjunct (truthy (desc_keyword c)) Tk.description_like r)); [done|].
  unfold given, truthy, conjunct.
  destruct (desc_keyword c) as [kw|] eqn:Hc; [|done].
  destruct (decide (kw = "")); [done|].
  apply like_is_containment. by apply Hkw.
Qed.

(** ** The filter of the web front-end *)

Lemma filter_filter_andb {A} (f g : A → bool) (l : list A) :
  List.filter f (List.filter g l) = List.filter (λ x, g x && f x) l.
Proof.
  induction l as [|x l IH]; [done|]. cbn.
  destruct (g x); cbn; [|exact IH]. destruct (f x); by rewrite IH.
Qed.

Lemma narrow_conjunct {A} (o : option A) (p : A → Expense → bool) (df : list Expense) :
  St.narrow o p df = List.filter (conjunct o p) df.
Proof.
  destruct o as [a|]; [done|]. cbn.
  induction df as [|r df IH]; [done|]. cbn. by rewrite <- IH.
Qed.

Section FilterLaws.

Variable date_col : Expense → Cal.timestamp.
Variable timestamp_of : string → Cal.timestamp.
Variable regex : Type.
Variable re_compile : string → option regex.
Variable re_search : regex → string → bool.

#[local] Abbreviation filtered :=
  (St.filter_expenses date_col timestamp_of regex re_compile re_search).
#[local] Abbreviation kw_mask := (keyword_mask regex re_compile re_search).
#[local] Abbreviation web_mask := (St_fields_mask date_col timestamp_of).

(** The six steps of [filter_expenses] are one pass with the conjunction
    of their tests, unless the keyword does not compile. *)
Lemma filter_expenses_mask (df : list Expense) (c : Criteria) :
  filtered df c =
  match kw_mask c with
  | Ok m => Ok (List.filter (λ r, web_mask c r && m r) df)
  | Raise e => Raise e
  end.
Proof.
  unfold St.filter_expenses, keyword_mask. cbv zeta.
  rewrite !narrow_conjunct, !filter_filter_andb.
  destruct (truthy (desc_keyword c)) as [kw|].
  - destruct (re_compile kw) as [re|]; [|done].
    rewrite filter_filter_andb. f_equal. apply List.filter_ext. intros r.
    unfold St_fields_mask, fields_mask. by rewrite !andb_assoc.
  - f_equal. apply List.filter_ext. intros r. unfold St_fields_mask, fields_mask.
    by rewrite andb_true_r, !andb_assoc.
Qed.

Lemma keyword_mask_raise (c : Criteria) (e : exn) :
  kw_mask c = Raise e → e = ReError.
Proof.
  unfold keyword_mask. destruct (truthy (desc_keyword c)) as [kw|]; [|done].
  destruct (re_compile kw); [done|]. by intros [= <-].
Qed.

Lemma conjunct_combine (o1 o2 : option string) (p : string → Expense → bool)
    (r : Expense) :
  truthy o1 = None ∨ truthy o2 = None →
  conjunct (truthy (match truthy o1 with Some s => Some s | None => o2 end)) p r
  = conjunct (truthy o1) p r && conjunct (truthy o2) p r.
Proof.
  intros Hc. destruct o1 as [s1|]; cbn; [|done].
  destruct (decide (s1 = "")) as [->|Hs1]; cbn; [done|].
  rewrite decide_False by done. cbn.
  destruct Hc as [Hc| ->]; [|by rewrite andb_true_r].
  cbn in Hc. by rewrite decide_False in Hc.
Qed.

Lemma category_arg_combine (A B : Criteria) (r : Expense) :
  category_arg A = None ∨ category_arg B = None →
  conjunct (category_arg (combine A B)) category_eq r
  = conjunct (category_arg A) category_eq r && conjunct (category_arg B) category_eq r.
Proof.
  intros Hc. unfold category_arg at 1. cbn [combine category].
  destruct (category_arg A) as [k|] eqn:HA.
  - assert (truthy (Some k) = Some k ∧ k ≠ "All") as [Hk1 Hk2].
    { unfold category_arg in HA. destruct (truthy (category A)) as [k'|] eqn:Ht; [|done].
      destruct (decide (k' = "All")); [done|]. injection HA as ->.
      split; [|done]. unfold truthy in *. destruct (category A) as [k''|]; [|done].
      destruct (decide (k'' = "")); [done|]. injection Ht as ->.
      by rewrite decide_False. }
    rewrite Hk1, decide_False by done.
    destruct Hc as [Hc| ->]; [done|]. cbn. by rewrite andb_true_r.
  - fold (category_arg B). done.
Qed.

Lemma amount_combine (o1 o2 : option R) (p : R → Expense → bool) (r : Expense) :
  o1 = None ∨ o2 = None →
  conjunct (match o1 with Some m => Some m | None => o2 end) p r
  = conjunct o1 p r && conjunct o2 p r.
Proof.
  intros [->| ->]; [done|]. destruct o1; cbn; [by rewrite andb_true_r|done].
Qed.

Lemma fields_mask_combine (A B : Criteria) (r : Expense) :
  compatible A B →
  web_mask (combine A B) r = web_mask A r && web_mask B r.
Proof.
  intros (H1 & H2 & H3 & H4 & H5 & _). unfold St_fields_mask, fields_mask.
  rewrite category_arg_combine by done. cbn [combine start_date end_date min_amount max_amount].
  rewrite !conjunct_combine, !amount_combine by done.
  repeat match goal with |- context [conjunct ?o ?p r] =>
    generalize (conjunct o p r); intros ? end.
  repeat match goal with b : bool |- _ => destruct b end; reflexivity.
Qed.

(** C7: on every frame, filtering by [A] twice is filtering by [A] once;
    filtering by [A] and then by [B] is filtering by [B] and then by [A],
    and is one pass that applies the tests of both; and where [A] and [B]
    set different fields, it is one call with the criteria set that holds
    the fields of both. *)
Theorem filter_expenses_idempotent_commutative (df : list Expense) (A B : Criteria) :
  and_then (filtered df A) (λ df', filtered df' A) = filtered df A
  ∧ and_then (filtered df A) (λ df', filtered df' B)
    = and_then (filtered df B) (λ df', filtered df' A)
  ∧ and_then (filtered df A) (λ df', filtered df' B)
    = filter_by_both date_col timestamp_of regex re_compile re_search df A B
  ∧ (compatible A B →
     filtered df (combine A B)
     = and_then (filtered df A) (λ df', filtered df' B)).
Proof.
  assert (∀ A B, and_then (filtered df A) (λ df', filtered df' B)
                 = filter_by_both date_col timestamp_of regex re_compile re_search
                     df A B) as Hboth.
  { intros A' B'. rewrite filter_expenses_mask. unfold filter_by_both.
    destruct (kw_mask A') as [a|e] eqn:HA; [|done]. cbn.
    rewrite filter_expenses_mask.
    destruct (kw_mask B') as [b|e] eqn:HB; [|done].
    by rewrite filter_filter_andb. }
  split; [|split; [|split]].
  - rewrite Hboth, filter_expenses_mask. unfold filter_by_both.
    destruct (kw_mask A) as [a|e]; [|done].
    f_equal. apply List.filter_ext. intros r. by rewrite andb_diag.
  - rewrite !Hboth. unfold filter_by_both.
    destruct (kw_mask A) as [a|ea] eqn:HA, (kw_mask B) as [b|eb] eqn:HB;
      try done.
    + f_equal. apply List.filter_ext. intros r. apply andb_comm.
    + by rewrite (keyword_mask_raise A ea), (keyword_mask_raise B eb).
  - apply Hboth.
  - intros Hc. rewrite Hboth, filter_expenses_mask. unfold filter_by_both.
    destruct Hc as (H1 & H2 & H3 & H4 & H5 & H6).
    assert (compatible A B) as Hc by done.
    unfold keyword_mask. cbn [combine desc_keyword].
    destruct (truthy (desc_keyword A)) as [kwA|] eqn:HA.
    + assert (truthy (Some kwA) = Some kwA) as ->.
      { unfold truthy in *. destruct (desc_keyword A) as [k|]; [|done].
        destruct (decide (k = "")); [done|]. injection HA as ->.
        by rewrite decide_False. }
      destruct H6 as [H6| ->]; [done|].
      destruct (re_compile kwA) as [re|]; [|done].
      f_equal. apply List.filter_ext. intros r.
      rewrite fields_mask_combine by done.
      destruct (web_mask A r), (web_mask B r), (re_search re _); done.
    + destruct (truthy (desc_keyword B)) as [kwB|].
      * destruct (re_compile kwB) as [re|]; [|done].
        f_equal. apply List.filter_ext. intros r.
        rewrite fields_mask_combine by done.
        destruct (web_mask A r), (web_mask B r), (re_search re _); done.
      * f_equal. apply List.filter_ext. intros r.
        rewrite fields_mask_combine by done.
        destruct (web_mask A r), (web_mask B r); done.
Qed.

End FilterLaws.

(** X23: for criteria whose keyword, if any, has neither [%] nor [_],
    the desktop filter returns exactly the records of the store, in the
    order of the store, for which all given predicates hold, with the
    dates compared as text; a text criterion that is empty counts as not
    given, the sentinel of the category is ['All'], and case is ASCII
    case. *)
Theorem filter_returns_the_matching_records (c : Criteria) (db : Store) :
  plain_keyword c →
  Tk.get_filtered_expenses c db = List.filter (spec_matches c) (rows db).
Proof.
  intros Hkw. unfold Tk.get_filtered_expenses. apply List.filter_ext.
  intros r. by apply where_clause_spec.
Qed.

Lemma filter_returns_the_matching_records_witness :
  Tk.get_filtered_expenses food_up_to_100 fifty
  = List.filter (spec_matches food_up_to_100) (rows fifty).
Proof.
  apply (filter_returns_the_matching_records food_up_to_100 fifty).
  intros kw [= <-]. reflexivity.
Defined.

Lemma filter_expenses_idempotent_commutative_witness :
  and_then
    (St.filter_expenses canonical_col canonical_bound string literal_compile
       literal_search (rows fifty) in_march)
    (λ df', St.filter_expenses canonical_col canonical_bound string literal_compile
              literal_search df' in_march)
  = St.filter_expenses canonical_col canonical_bound string literal_compile
      literal_search (rows fifty) in_march
  ∧ St.filter_expenses canonical_col canonical_bound string literal_compile
      literal_search (rows fifty) (combine in_march food_up_to_100)
    = and_then
        (St.filter_expenses canonical_col canonical_bound string literal_compile
           literal_search (rows fifty) in_march)
        (λ df', St.filter_expenses canonical_col canonical_bound string
                  literal_compile literal_search df' food_up_to_100).
Proof.
  destruct (filter_expenses_idempotent_commutative canonical_col canonical_bound
              string literal_compile literal_search
              (rows fifty) in_march food_up_to_100) as (H1 & _ & _ & H4).
  split; [exact H1|]. apply H4.
  repeat split; (by left) || (by right).
Defined.

(** ** The period report *)



(** The groups of a report come in increasing order of their period, one
    group per period. *)
Lemma add_to_group_keys (k : Z) (a : R) (g : list (Z * R)) :
  Sorted Z.lt (fst <$> g) →
  Sorted Z.lt (fst <$> Cal.add_to_group k a g)
  ∧ ∀ k0, (∀ k', k' ∈ fst <$> g → (k0 < k')%Z) → (k0 < k)%Z →
          ∀ k', k' ∈ fst <$> Cal.add_to_group k a g → (k0 < k')%Z.
Proof.
  induction g as [|[k' t] g IH]; intros Hs; cbn.
  - split; [by repeat constructor|].
    intros k0 _ Hk k1 ->%list_elem_of_singleton. done.
  - cbn in Hs. apply Sorted_inv in Hs as [Hs Hhd].
    destruct (decide (k < k')%Z) as [Hlt|Hge]; [|destruct (decide (k = k')) as [->|Hne]]; cbn.
    + split.
      * constructor; [by constructor|]. by constructor.
      * intros k0 Hall Hk k1 [->|Hin]%elem_of_cons; [done|by apply Hall].
    + split; [by constructor|]. intros k0 Hall _. exact Hall.
    + destruct (IH Hs) as [IH1 IH2]. split.
      * constructor; [exact IH1|].
        assert (∀ k1, k1 ∈ fst <$> Cal.add_to_group k a g → (k' < k1)%Z) as Hall.
        { apply IH2; [|lia]. intros k1 Hk1.
          clear -Hs Hhd Hk1. revert k' Hhd.
          induction (fst <$> g) as [|x xs IHx]; intros k' Hhd;
            [by apply elem_of_nil in Hk1|].
          apply HdRel_inv in Hhd. apply elem_of_cons in Hk1 as [->|Hk1]; [done|].
          apply Sorted_inv in Hs as [Hs Hx]. etrans; [exact Hhd|].
          by apply IHx. }
        destruct (fst <$> Cal.add_to_group k a g) as [|x xs]; constructor.
        apply Hall. by left.
      * intros k0 Hall Hk k1 [->|Hin]%elem_of_cons.
        -- apply Hall. by left.
        -- apply IH2; [|done|done]. intros k2 Hk2. apply Hall. by right.
Qed.

Lemma groupby_sum_sorted (keyed : list (option Z * R)) :
  Sorted Z.lt (fst <$> Cal.groupby_sum keyed).
Proof.
  unfold Cal.groupby_sum.
  assert (∀ g, Sorted Z.lt (fst <$> g) →
               Sorted Z.lt
                 (fst <$> foldl (λ g (ka : option Z * R),
                                   match ka.1 with
                                   | Some k => Cal.add_to_group k ka.2 g
                                   | None => g
                                   end) g keyed))
    as Hgen.
  { induction keyed as [|[[k|] a] keyed IH]; intros g Hg; [done| |].
    - cbn. apply IH. by apply add_to_group_keys.
    - cbn. by apply IH. }
  apply Hgen. constructor.
Qed.

Lemma add_to_group_elem (k : Z) (a : R) (g : list (Z * R)) (k' : Z) :
  k' ∈ fst <$> Cal.add_to_group k a g ↔ k' = k ∨ k' ∈ fst <$> g.
Proof.
  induction g as [|[k0 t] g IH]; cbn.
  - rewrite list_elem_of_singleton. split; [by left|]. intros [?|?%elem_of_nil]; done.
  - destruct (decide (k < k0)%Z); [|destruct (decide (k = k0)) as [->|]]; cbn.
    + by rewrite elem_of_cons.
    + rewrite elem_of_cons. split; [intros [?|?]; [by left|right; by right]|].
      intros [?|?]; [by left|done].
    + rewrite !elem_of_cons, IH. split.
      * intros [?|[?|?]]; [right; by left|by left|right; by right].
      * intros [?|[?|?]]; [right; by left|by left|right; by right].
Qed.

Lemma add_to_group_entry (k : Z) (a : R) (g : list (Z * R)) (k' : Z) :
  Np.sum (snd <$> filter (λ kt, kt.1 = k') (Cal.add_to_group k a g))
  = Np.sum (snd <$> filter (λ kt, kt.1 = k') g) + (if decide (k' = k) then a else 0).
Proof.
  induction g as [|[k0 t] g IH]; cbn [Cal.add_to_group].
  - rewrite filter_cons, filter_nil. cbn [fst].
    destruct (decide (k = k')) as [->|Hk].
    + rewrite decide_True by done. rewrite fmap_cons, sum_cons. cbn. lra.
    + rewrite decide_False by done. cbn. lra.
  - destruct (decide (k < k0)%Z); [|destruct (decide (k = k0)) as [->|]].
    + rewrite (filter_cons _ (k, a)). cbn [fst].
      destruct (decide (k = k')) as [->|Hk].
      * rewrite decide_True by done. rewrite fmap_cons, sum_cons. cbn [snd]. lra.
      * rewrite decide_False by done. lra.
    + rewrite !filter_cons. cbn [fst].
      destruct (decide (k0 = k')) as [->|Hk].
      * rewrite decide_True by done. rewrite !fmap_cons, !sum_cons. cbn [snd]. lra.
      * rewrite decide_False by done. lra.
    + rewrite !filter_cons. cbn [fst].
      destruct (decide (k0 = k')) as [->|Hk].
      * rewrite !fmap_cons, !sum_cons, IH. lra.
      * rewrite IH. lra.
Qed.

Lemma groupby_sum_groups (keyed : list (option Z * R)) (k : Z) :
  (k ∈ fst <$> Cal.groupby_sum keyed ↔ ∃ a, (Some k, a) ∈ keyed)
  ∧ Np.sum (snd <$> filter (λ kt, kt.1 = k) (Cal.groupby_sum keyed))
    = Np.sum (snd <$> filter (λ ka, ka.1 = Some k) keyed).
Proof.
  unfold Cal.groupby_sum.
  assert (∀ g,
    (k ∈ fst <$> foldl (λ g (ka : option Z * R),
                          match ka.1 with
                          | Some k => Cal.add_to_group k ka.2 g
                          | None => g
                          end) g keyed
     ↔ k ∈ fst <$> g ∨ ∃ a, (Some k, a) ∈ keyed)
    ∧ Np.sum (snd <$> filter (λ kt, kt.1 = k)
                (foldl (λ g (ka : option Z * R),
                          match ka.1 with
                          | Some k => Cal.add_to_group k ka.2 g
                          | None => g
                          end) g keyed))
      = Np.sum (snd <$> filter (λ kt, kt.1 = k) g)
        + Np.sum (snd <$> filter (λ ka, ka.1 = Some k) keyed)) as Hgen.
  { induction keyed as [|[[k0|] a] keyed IH]; intros g; cbn [foldl fst snd].
    - split.
      + split; [by left|]. intros [?|[a Ha]]; [done|]. by apply elem_of_nil in Ha.
      + rewrite filter_nil. change (Np.sum (snd <$> [])) with 0. lra.
    - destruct (IH (Cal.add_to_group k0 a g)) as [IH1 IH2]. split.
      + rewrite IH1, add_to_group_elem. split.
        * intros [[->|?]|[a' Ha']]; [right; exists a; by left|by left|].
          right. exists a'. by right.
        * intros [?|[a' [[= -> ->]|Ha']%elem_of_cons]].
          -- left; by right.
          -- left; by left.
          -- right. by exists a'.
      + rewrite IH2, add_to_group_entry, (filter_cons _ (Some k0, a)). cbn [fst].
        destruct (decide (k = k0)) as [->|Hk].
        * rewrite decide_True by done. rewrite fmap_cons, sum_cons. cbn [snd]. lra.
        * rewrite decide_False by congruence. lra.
    - destruct (IH g) as [IH1 IH2]. split.
      + rewrite IH1. split.
        * intros [?|[a' Ha']]; [by left|]. right. exists a'. by right.
        * intros [?|[a' [[=]|Ha']%elem_of_cons]]; [by left|]. right. by exists a'.
      + rewrite IH2, (filter_cons _ (None, a)). cbn [fst].
        by rewrite decide_False by done. }
  destruct (Hgen []) as [H1 H2]. split.
  - rewrite H1. split; [|by right]. intros [?%elem_of_nil|?]; done.
  - rewrite H2, filter_nil. change (Np.sum (snd <$> [])) with 0. lra.
Qed.

Lemma sorted_keys_NoDup (g : list (Z * R)) : Sorted Z.lt (fst <$> g) → NoDup (fst <$> g).
Proof.
  intros Hs. apply Sorted_StronglySorted in Hs; [|intros x y z; lia].
  induction Hs as [|x xs _ IH Hx]; constructor; [|done].
  intros Hin. rewrite Forall_forall in Hx. specialize (Hx _ Hin). lia.
Qed.

Lemma no_entry (g : list (Z * R)) (k : Z) :
  k ∉ fst <$> g → filter (λ kt, kt.1 = k) g = [].
Proof.
  induction g as [|[k0 t0] g IH]; [done|].
  rewrite fmap_cons, not_elem_of_cons. cbn [fst]. intros [Hk Hg].
  rewrite filter_cons. cbn [fst]. rewrite decide_False by done. by apply IH.
Qed.

Lemma single_entry (g : list (Z * R)) (k : Z) (t : R) :
  NoDup (fst <$> g) → (k, t) ∈ g → filter (λ kt, kt.1 = k) g = [(k, t)].
Proof.
  induction g as [|[k0 t0] g IH]; intros Hnd Hin; [by apply elem_of_nil in Hin|].
  rewrite fmap_cons in Hnd. apply NoDup_cons in Hnd as [Hk0 Hnd].
  rewrite filter_cons. cbn [fst] in *. apply elem_of_cons in Hin as [[= -> ->]|Hin].
  - rewrite decide_True by done. f_equal. by apply no_entry.
  - assert (k0 ≠ k) as Hne.
    { intros ->. apply Hk0. apply list_elem_of_fmap. by exists (k, t). }
    rewrite decide_False by done. by apply IH.
Qed.


Section Report.

Variable other : list string → string → option Cal.timestamp.

Lemma to_datetimes_reads (col : list string) (dates : list Cal.timestamp) :
  Cal.to_datetimes other col = Ok dates →
  Forall2 (λ s t, Cal.reads other col s = Some t) col dates.
Proof.
  unfold Cal.to_datetimes. destruct (mapM _ col) as [ts|] eqn:Hm; [|done].
  intros [= <-]. by apply mapM_Some_1.
Qed.

(** The keys the report groups by are the periods of the records. *)
Lemma keyed_of_records (col : list string) (freq : string) (l : list Expense)
    (dates : list Cal.timestamp) :
  Forall2 (λ s t, Cal.reads other col s = Some t) (row_date <$> l) dates →
  zip (Cal.to_period freq <$> dates) (row_amount <$> l)
  = (λ r, (period_of other col freq r, row_amount r)) <$> l.
Proof.
  revert dates. induction l as [|r l IH]; intros dates Hd.
  - by destruct dates.
  - rewrite fmap_cons in Hd.
    apply Forall2_cons_inv_l in Hd as (t & dates' & Ht & Hd & ->).
    cbn. unfold period_of at 1. rewrite Ht. f_equal. by apply IH.
Qed.

Lemma report_period_groups (period : string) (l : list Expense) (grp : list (Z * R)) :
  Tk.report_period other period l = Ok (Some grp) →
  grp = Cal.groupby_sum
          ((λ r, (period_of other (row_date <$> l) (report_freq period) r, row_amount r))
             <$> l).
Proof.
  unfold Tk.report_period. destruct l as [|r0 l0]; [done|].
  destruct (Cal.to_datetimes other (row_date <$> r0 :: l0)) as [dates|] eqn:Hd; [|done].
  fold (report_freq period). cbv zeta.
  rewrite (keyed_of_records _ _ _ dates (to_datetimes_reads _ _ Hd)).
  destruct (Cal.groupby_sum _); [done|]. by intros [= <-].
Qed.


End Report.



(** ** The definitions at work *)

Example like_is_case_blind : like (like_pattern "LUN") "Team lunch" = true.
Proof. reflexivity. Qed.

Example like_underscore : like (like_pattern "l_nch") "Team launch" = false
                          ∧ like (like_pattern "l_nch") "Team lunch" = true.
Proof. split; reflexivity. Qed.

Example like_needs_the_keyword : like (like_pattern "rent") "Team lunch" = false.
Proof. reflexivity. Qed.

Example leap_day : Cal.to_datetime "2024-02-29" = Some (Cal.At (Cal.mkDate 2024 2 29) 0)
                   ∧ Cal.iso "2023-02-29" = None
                   ∧ Cal.canonical "2024-2-29" = false
                   ∧ Cal.to_datetime "nan" = Some Cal.NaT.
Proof. repeat split; reflexivity. Qed.

(** A column with a text that is not canonical is read as pandas reads
    it, whatever that is. *)
Example other_spellings (other : list string → string → option Cal.timestamp) :
  Cal.reads other ["2024-01-15"; "2024-2-29"] "2024-01-15"
  = other ["2024-01-15"; "2024-2-29"] "2024-01-15"
  ∧ Cal.reads other ["2024-01-15"; "nan"] "2024-01-15"
    = Some (Cal.At (Cal.mkDate 2024 1 15) 0).
Proof. split; reflexivity. Qed.

Example epoch : Cal.days_from_civil (Cal.mkDate 1970 1 1) = 0%Z
                ∧ Cal.days_from_civil (Cal.mkDate 2024 1 1) = 19723%Z.
Proof. split; reflexivity. Qed.

(** 2024-01-07 was a Sunday: it closes the week that 2024-01-08 leaves. *)
Example week_ends_on_sunday :
  Cal.ordinal "W" (Cal.mkDate 2024 1 1) = Cal.ordinal "W" (Cal.mkDate 2024 1 7)
  ∧ Cal.ordinal "W" (Cal.mkDate 2024 1 8) = (Cal.ordinal "W" (Cal.mkDate 2024 1 7) + 1)%Z.
Proof. split; reflexivity. Qed.

Example quarters : Cal.ordinal "Q" (Cal.mkDate 2024 3 31) = 216%Z
                   ∧ Cal.ordinal "Q" (Cal.mkDate 2024 4 1) = 217%Z.
Proof. split; reflexivity. Qed.

Example monthly_report (other : list string → string → option Cal.timestamp) :
  Tk.report_period other "M"
    [mkExpense 1 12 "Food" "2024-02-15" "a"; mkExpense 2 3 "Food" "2024-01-01" "b";
     mkExpense 3 5 "Rent" "2024-02-20" "c"]
  = Ok (Some [(648%Z, 3); (649%Z, 12 + 5)]).
Proof. reflexivity. Qed.

(** Where no date is read as a day there is no bar, and the desktop
    program raises where the web program draws an empty chart. *)
Example nothing_to_draw (other : list string → string → option Cal.timestamp) :
  Tk.report_period other "M" [undated] = Raise IndexError
  ∧ St.report canonical_col "Monthly" [undated] = Some [].
Proof. split; reflexivity. Qed.

(** The first week of 1970 has the ordinal 1. *)
Example first_week : Cal.ordinal "W" (Cal.mkDate 1970 1 1) = 1%Z.
Proof. reflexivity. Qed.

Example ids_grow : Db.add_expense (Fin 4) "Food" "2024-01-16" "tea" one_row
  = (Ok (), mkStore (rows one_row ++ [mkExpense 2 4 "Food" "2024-01-16" "tea"]) 2).
Proof. reflexivity. Qed.

(** A rowid is not handed out twice, also after the last row is gone. *)
Example ids_are_not_reused :
  (_ ← Db.delete_expense 1; Db.add_expense (Fin 4) "Food" "2024-01-16" "tea") one_row
  = (Ok (), mkStore [mkExpense 2 4 "Food" "2024-01-16" "tea"] 2).
Proof. reflexivity. Qed.

(** The scenario of the specification: mean 174, and no record flagged. *)
Example scenario_of_three :
  Np.mean (row_amount <$> three) = 174
  ∧ Tk.detect_outliers three = ∅.
Proof.
  assert (INR 3 = 3) as H3 by (cbn; lra).
  assert (Np.mean (row_amount <$> three) = 174) as Hmean.
  { unfold Np.mean, three. cbn -[INR]. rewrite H3. lra. }
  assert (163 < Np.std (row_amount <$> three)) as Hstd.
  { unfold Np.std. apply sqrt_above; [lra|].
    unfold Np.var, Np.sqdev. rewrite Hmean. cbn -[INR]. rewrite H3. lra. }
  split; [exact Hmean|]. apply set_eq. intros k.
  split; [|by intros ?%not_elem_of_empty].
  intros Hk. apply (Tk_detect_outliers_spec (λ c, c) three k) in Hk; [|done].
  destruct Hk as (e & He & _ & Hout). unfold is_outlier in Hout.
  rewrite Hmean in Hout. unfold three in He.
  repeat (apply elem_of_cons in He as [->|He]);
    [| | |by apply elem_of_nil in He]; cbn [row_amount] in Hout.
  - rewrite Rabs_left in Hout by lra. lra.
  - rewrite Rabs_left in Hout by lra. lra.
  - rewrite Rabs_right in Hout by lra. lra.
Qed.

(** * Further properties of the code *)

Open Scope list_scope.

(** ** The store keeps its ids apart *)

Lemma max_rowid_le (l : list Expense) (n : Z) :
  (0 ≤ n)%Z → (∀ k, k ∈ row_id <$> l → (k ≤ n)%Z) → (max_rowid l ≤ n)%Z.
Proof.
  intros Hn. unfold max_rowid. induction l as [|r l IH]; intros Hl; cbn; [done|].
  apply Z.max_lub.
  - apply Hl. by left.
  - apply IH. intros k Hk. apply Hl. by right.
Qed.

Lemma next_id (db : Store) :
  well_kept db → (Z.max (seq db) (max_rowid (rows db)) + 1 = seq db + 1)%Z.
Proof.
  intros (_ & Hseq & Hids). f_equal. apply Z.max_l.
  apply max_rowid_le; [done|]. intros k Hk. by apply Hids.
Qed.

Lemma add_expense_fin (db : Store) (a : R) (c d s : string) :
  well_kept db →
  Db.add_expense (Fin a) c d s db
  = (Ok (), mkStore (rows db ++ [mkExpense (seq db + 1) a c d s]) (seq db + 1)).
Proof. intros Hdb. unfold Db.add_expense. by rewrite (next_id db Hdb). Qed.

Lemma ids_update (k : Z) (f : Expense → Expense) (l : list Expense) :
  (∀ r, row_id (f r) = row_id r) →
  row_id <$> ((λ r, if decide (row_id r = k) then f r else r) <$> l) = row_id <$> l.
Proof.
  intros Hf. rewrite <- list_fmap_compose. apply list_fmap_ext.
  intros i r _. cbn. by destruct (decide (row_id r = k)).
Qed.

Lemma add_expense_well_kept (a : pyfloat) (c d s : string) (db : Store) :
  well_kept db → well_kept (Db.add_expense a c d s db).2.
Proof.
  intros Hdb. destruct a as [x|]; [|exact Hdb].
  rewrite add_expense_fin by done. destruct Hdb as (Hnd & Hseq & Hids).
  unfold well_kept, ids in *. cbn. rewrite fmap_app. cbn.
  split; [|split; [lia|]].
  - apply NoDup_app. split; [done|]. split; [|apply NoDup_singleton].
    intros k Hk ->%list_elem_of_singleton. specialize (Hids _ Hk). lia.
  - intros k [Hk| ->%list_elem_of_singleton]%elem_of_app; [|lia].
    specialize (Hids _ Hk). lia.
Qed.

Lemma update_expense_well_kept (k : Z) (a : pyfloat) (c d s : string) (db : Store) :
  well_kept db → well_kept (Db.update_expense k a c d s db).2.
Proof.
  intros Hdb. destruct a as [x|]; cbn.
  - unfold well_kept, ids in *. cbn. by rewrite ids_update.
  - by destruct (decide _).
Qed.

Lemma delete_expense_well_kept (k : Z) (db : Store) :
  well_kept db → well_kept (Db.delete_expense k db).2.
Proof.
  intros (Hnd & Hseq & Hids). unfold well_kept, ids in *. cbn.
  split; [|split; [done|]].
  - refine (sublist_NoDup _ (row_id <$> rows db) Hnd _).
    apply fmap_sublist, sublist_filter.
  - intros j (r & -> & [_ Hr]%list_elem_of_filter)%list_elem_of_fmap.
    apply Hids. by apply list_elem_of_fmap_2.
Qed.

Lemma import_rows_well_kept (df : list Csv.FrameRow) (db : Store) :
  well_kept db → well_kept (Tk.import_rows df db).2.
Proof.
  revert db. induction df as [|row df IH]; intros db Hdb; [done|].
  rewrite import_rows_cons. destruct (Csv.py_float (Csv.Amount row)) as [a|e]; [|done].
  pose proof (add_expense_well_kept a (Csv.py_str (Csv.Category row))
    (Csv.py_str (Csv.Date row))
    (match Csv.Description row with Some d => Csv.py_str d | None => "" end)
    db Hdb) as Hadd.
  destruct (Db.add_expense _ _ _ _ db) as [[[]|e] db']; [by apply IH|done].
Qed.

(** X1: no operation of either program brings an id into the store
    twice or lets an id pass the AUTOINCREMENT counter: the empty store is
    in that state, and an insert, an update, a delete and an import keep
    a store in it, whether they succeed or raise. *)
Theorem store_stays_well_kept (db : Store) :
  well_kept db →
  well_kept empty_store
  ∧ (∀ a c d s, well_kept (Db.add_expense a c d s db).2)
  ∧ (∀ k a c d s, well_kept (Db.update_expense k a c d s db).2)
  ∧ (∀ k, well_kept (Db.delete_expense k db).2)
  ∧ (∀ float_of_text min_amount max_amount df,
       well_kept (Tk.import_data float_of_text min_amount max_amount df db).2)
  ∧ (∀ rerun df, well_kept (St.import_block rerun df db).2).
Proof.
  intros Hdb. split; [|split; [|split; [|split; [|split]]]].
  - split; [constructor|]. split; [done|]. intros k Hk. by apply elem_of_nil in Hk.
  - intros. by apply add_expense_well_kept.
  - intros. by apply update_expense_well_kept.
  - intros. by apply delete_expense_well_kept.
  - intros float_of_text min_amount max_amount df.
    destruct (import_store float_of_text min_amount max_amount (Ok ()) df db) as [-> _].
    by apply import_rows_well_kept.
  - intros rerun df.
    destruct (import_store (λ _, Raise ValueError) "" "" rerun df db) as [_ ->].
    by apply import_rows_well_kept.
Qed.

Lemma two_rows_well_kept : well_kept two_rows.
Proof.
  unfold well_kept, ids, two_rows. cbn. split; [|split; [lia|]].
  - apply NoDup_cons. split; [|apply NoDup_singleton].
    rewrite list_elem_of_singleton. lia.
  - intros k [->|Hk]%elem_of_cons; [lia|].
    apply list_elem_of_singleton in Hk as ->. lia.
Qed.

Lemma store_stays_well_kept_witness :
  well_kept empty_store
  ∧ (∀ a c d s, well_kept (Db.add_expense a c d s two_rows).2)
  ∧ (∀ k a c d s, well_kept (Db.update_expense k a c d s two_rows).2)
  ∧ (∀ k, well_kept (Db.delete_expense k two_rows).2)
  ∧ (∀ float_of_text min_amount max_amount df,
       well_kept (Tk.import_data float_of_text min_amount max_amount df two_rows).2)
  ∧ (∀ rerun df, well_kept (St.import_block rerun df two_rows).2).
Proof. apply (store_stays_well_kept two_rows). apply two_rows_well_kept. Defined.

Lemma get_filtered_expenses_all (db : Store) :
  Tk.get_filtered_expenses no_criteria db = rows db.
Proof.
  unfold Tk.get_filtered_expenses. induction (rows db) as [|r l IH]; [done|].
  cbn. by rewrite IH.
Qed.

(** X2: on a store in the state of X1, an insert with a numeric amount
    succeeds and appends one record that carries the arguments and the id
    one above the counter; that id was in no row before, the unfiltered
    read returns the old rows followed by the new record, and the id is the
    same whichever row was deleted just before: ids are not handed out
    twice. *)
Theorem insert_appends_with_a_fresh_id (db : Store) (a : R) (c d s : string) :
  well_kept db →
  Db.add_expense (Fin a) c d s db
    = (Ok (), mkStore (rows db ++ [mkExpense (seq db + 1) a c d s]) (seq db + 1))
  ∧ ((seq db + 1)%Z ∉ ids db)
  ∧ Tk.get_filtered_expenses no_criteria (Db.add_expense (Fin a) c d s db).2
    = (rows db ++ [mkExpense (seq db + 1) a c d s])%list
  ∧ ∀ k, (Db.add_expense (Fin a) c d s (Db.delete_expense k db).2).2
         = mkStore (rows (Db.delete_expense k db).2 ++ [mkExpense (seq db + 1) a c d s])
                   (seq db + 1).
Proof.
  intros Hdb. pose proof (add_expense_fin db a c d s Hdb) as Hadd.
  split; [exact Hadd|]. split; [|split].
  - intros Hk. destruct Hdb as (_ & _ & Hids). specialize (Hids _ Hk). lia.
  - by rewrite get_filtered_expenses_all, Hadd.
  - intros k. rewrite add_expense_fin by (by apply delete_expense_well_kept). done.
Qed.

Lemma insert_appends_with_a_fresh_id_witness :
  Db.add_expense (Fin 9) "Food" "2024-02-03" "tea" two_rows
    = (Ok (), mkStore (rows two_rows ++ [mkExpense (seq two_rows + 1) 9 "Food" "2024-02-03" "tea"])
                      (seq two_rows + 1))
  ∧ ((seq two_rows + 1)%Z ∉ ids two_rows)
  ∧ Tk.get_filtered_expenses no_criteria
      (Db.add_expense (Fin 9) "Food" "2024-02-03" "tea" two_rows).2
    = (rows two_rows ++ [mkExpense (seq two_rows + 1) 9 "Food" "2024-02-03" "tea"])%list
  ∧ ∀ k, (Db.add_expense (Fin 9) "Food" "2024-02-03" "tea"
            (Db.delete_expense k two_rows).2).2
         = mkStore (rows (Db.delete_expense k two_rows).2
                      ++ [mkExpense (seq two_rows + 1) 9 "Food" "2024-02-03" "tea"])
                   (seq two_rows + 1).
Proof.
  apply (insert_appends_with_a_fresh_id two_rows 9 "Food" "2024-02-03" "tea").
  apply two_rows_well_kept.
Defined.

Lemma NoDup_ids_middle (l1 l2 : list Expense) (r : Expense) :
  NoDup (row_id <$> l1 ++ r :: l2) →
  (row_id r ∉ row_id <$> l1) ∧ (row_id r ∉ row_id <$> l2).
Proof.
  rewrite fmap_app, fmap_cons. intros (_ & H1 & H2)%NoDup_app.
  apply NoDup_cons in H2 as [H2 _]. split; [|done].
  intros Hr. apply (H1 _ Hr). by left.
Qed.

(** X3: where no id occurs twice, an update with a numeric amount
    rewrites the four fields of the row that has the id, in its place,
    and changes no other row and not the counter. *)
Theorem update_rewrites_one_row (db : Store) (l1 l2 : list Expense) (r : Expense)
    (a : R) (c d s : string) :
  NoDup (ids db) →
  rows db = l1 ++ r :: l2 →
  Db.update_expense (row_id r) (Fin a) c d s db
  = (Ok (), mkStore (l1 ++ mkExpense (row_id r) a c d s :: l2) (seq db)).
Proof.
  intros Hnd Hrows. unfold ids in Hnd. rewrite Hrows in Hnd.
  destruct (NoDup_ids_middle l1 l2 r Hnd) as [H1 H2].
  unfold Db.update_expense. rewrite Hrows, fmap_app, fmap_cons.
  rewrite !update_rows_absent by done. by rewrite decide_True.
Qed.

Lemma update_rewrites_one_row_witness :
  Db.update_expense 4 (Fin 31) "Rent" "2024-02-02" "flat, March" two_rows
  = (Ok (), mkStore ([mkExpense 1 12 "Food" "2024-01-15" "lunch"]
                       ++ mkExpense 4 31 "Rent" "2024-02-02" "flat, March" :: [])
                    (seq two_rows)).
Proof.
  apply (update_rewrites_one_row two_rows [mkExpense 1 12 "Food" "2024-01-15" "lunch"] []
           (mkExpense 4 30 "Rent" "2024-02-01" "flat") 31 "Rent" "2024-02-02"
           "flat, March").
  - apply two_rows_well_kept.
  - reflexivity.
Defined.

(** X4: a delete leaves no row with the id behind, and a second delete
    of the id changes nothing; where no id occurs twice, it takes out the
    one row that has the id and keeps the others in their order. *)
Theorem delete_takes_one_row_out (db : Store) (k : Z) :
  (k ∉ ids (Db.delete_expense k db).2)
  ∧ Db.delete_expense k (Db.delete_expense k db).2 = Db.delete_expense k db
  ∧ ∀ l1 l2 r,
      NoDup (ids db) → rows db = l1 ++ r :: l2 → row_id r = k →
      Db.delete_expense k db = (Ok (), mkStore (l1 ++ l2) (seq db)).
Proof.
  assert (k ∉ ids (Db.delete_expense k db).2) as Hgone.
  { unfold ids. cbn.
    intros (r & -> & [Hr _]%list_elem_of_filter)%list_elem_of_fmap. done. }
  split; [exact Hgone|]. split.
  - unfold Db.delete_expense. cbn. do 2 f_equal. by apply delete_rows_absent.
  - intros l1 l2 r Hnd Hrows <-. unfold ids in Hnd. rewrite Hrows in Hnd.
    destruct (NoDup_ids_middle l1 l2 r Hnd) as [H1 H2].
    unfold Db.delete_expense. rewrite Hrows, filter_app, filter_cons_False by (by intros []).
    by rewrite !delete_rows_absent.
Qed.

Lemma delete_takes_one_row_out_witness :
  (4%Z ∉ ids (Db.delete_expense 4 two_rows).2)
  ∧ Db.delete_expense 4 (Db.delete_expense 4 two_rows).2 = Db.delete_expense 4 two_rows
  ∧ Db.delete_expense 4 two_rows
    = (Ok (), mkStore ([mkExpense 1 12 "Food" "2024-01-15" "lunch"] ++ []) (seq two_rows)).
Proof.
  destruct (delete_takes_one_row_out two_rows 4) as (H1 & H2 & H3).
  split; [exact H1|]. split; [exact H2|].
  apply (H3 [mkExpense 1 12 "Food" "2024-01-15" "lunch"] []
            (mkExpense 4 30 "Rent" "2024-02-01" "flat")).
  - apply two_rows_well_kept.
  - reflexivity.
  - reflexivity.
Defined.

(** X5: the list of categories has no category twice and holds exactly
    the categories of the rows of the store. *)
Theorem get_all_categories_distinct (db : Store) (c : string) :
  NoDup (Db.get_all_categories db)
  ∧ (c ∈ Db.get_all_categories db ↔ ∃ r, r ∈ rows db ∧ row_category r = c).
Proof.
  unfold Db.get_all_categories. split; [apply NoDup_remove_dups|].
  rewrite elem_of_remove_dups, list_elem_of_fmap. split.
  - intros (r & -> & Hr). by exists r.
  - intros (r & Hr & <-). by exists r.
Qed.

(** ** The keyword of the desktop filter *)

Lemma like_star (p s : string) :
  like (String "%" p) s
  = like p s || match s with
                | EmptyString => false
                | String _ s' => like (String "%" p) s'
                end.
Proof. by destruct s. Qed.

Lemma like_star_skip (p : string) (ch : ascii) (s : string) :
  like (String "%" p) s = true → like (String "%" p) (String ch s) = true.
Proof. intros Hs. rewrite like_star, Hs. apply orb_true_r. Qed.

Lemma like_star_here (p s : string) :
  like p s = true → like (String "%" p) s = true.
Proof. intros Hs. by rewrite like_star, Hs. Qed.

Lemma like_keyword_prefix (kw s : string) :
  starts_with (lower_string kw) (lower_string s) = true →
  like (kw ++ "%")%string s = true.
Proof.
  revert s. induction kw as [|ch kw IH]; intros s Hs; [apply like_all|].
  destruct s as [|d s]; [done|]. cbn in Hs.
  apply andb_true_iff in Hs as [Hch Hs]. specialize (IH s Hs).
  change (String ch kw ++ "%")%string with (String ch (kw ++ "%"))%string.
  destruct (Ascii.eqb ch "%") eqn:H1.
  - apply Ascii.eqb_eq in H1 as ->.
    by apply like_star_skip, like_star_here.
  - cbn -[Ascii.eqb]. rewrite H1. destruct (Ascii.eqb ch "_"); [done|].
    by rewrite Hch, IH.
Qed.

Lemma like_finds_the_keyword (kw d : string) :
  contains_ci kw d = true → like (like_pattern kw) d = true.
Proof.
  unfold contains_ci, like_pattern.
  change ("%" ++ kw ++ "%")%string with (String "%" (kw ++ "%"))%string.
  induction d as [|ch d IH]; cbn [lower_string occurs]; intros Hd.
  - apply like_star_here, like_keyword_prefix.
    by rewrite orb_false_r in Hd.
  - apply orb_true_iff in Hd as [Hd|Hd].
    + by apply like_star_here, like_keyword_prefix.
    + by apply like_star_skip, IH.
Qed.

(** X6: whatever the keyword, the desktop filter returns every record
    of the store that passes the tests of the criteria with the keyword
    read as plain text: the pattern characters of a keyword add records to
    the result and take none away. *)
Theorem wildcards_only_add_records (c : Criteria) (db : Store) (r : Expense) :
  r ∈ List.filter (spec_matches c) (rows db) → r ∈ Tk.get_filtered_expenses c db.
Proof.
  unfold Tk.get_filtered_expenses.
  rewrite !list_elem_of_In, !filter_In. intros [Hr Hm]. split; [done|].
  rewrite <- (fields_mask_spec c r
    (match given (desc_keyword c) with
     | Some kw => contains_ci kw (row_description r)
     | None => true
     end) eq_refl) in Hm.
  apply andb_true_iff in Hm as [Hf Hk]. unfold fields_mask in Hf.
  unfold Tk.where_clause. rewrite Hf. cbn.
  change truthy with given. destruct (given (desc_keyword c)) as [kw|]; [|done].
  by apply like_finds_the_keyword.
Qed.

Lemma wildcards_only_add_records_witness :
  mkExpense 1 50 "Food" "2024-03-01" "50 dollars"
  ∈ Tk.get_filtered_expenses (keyword "DOLL") fifty.
Proof.
  apply (wildcards_only_add_records (keyword "DOLL") fifty).
  apply list_elem_of_In. left. reflexivity.
Defined.

Lemma lower_wildcards (ch : ascii) :
  Ascii.eqb (lower ch) "%" = Ascii.eqb ch "%"
  ∧ Ascii.eqb (lower ch) "_" = Ascii.eqb ch "_"
  ∧ lower (lower ch) = lower ch.
Proof.
  destruct ch as [[] [] [] [] [] [] [] []]; repeat split; reflexivity.
Qed.

Lemma like_lower (p s : string) :
  like p s = like (lower_string p) (lower_string s).
Proof.
  revert s. induction p as [|ch p IH]; intros s; [by destruct s|].
  destruct (lower_wildcards ch) as (H1 & H2 & H3).
  destruct (Ascii.eqb ch "%") eqn:Hp.
  - apply Ascii.eqb_eq in Hp as ->. change (lower_string (String "%" p))
      with (String "%" (lower_string p)).
    induction s as [|d s IHs]; rewrite like_star, (like_star (lower_string p)).
    + cbn. by rewrite (IH "")%string.
    + cbn [lower_string]. by rewrite IHs, (IH (String d s)).
  - cbn -[Ascii.eqb]. rewrite H1, Hp, H2.
    destruct (Ascii.eqb ch "_"); destruct s as [|d s]; cbn -[Ascii.eqb]; try done.
    destruct (lower_wildcards d) as (_ & _ & H3').
    by rewrite H3, H3', IH.
Qed.

Lemma lower_string_empty (s : string) : lower_string s = ""%string → s = ""%string.
Proof. by destruct s. Qed.

Lemma lower_string_app (s t : string) :
  lower_string (s ++ t)%string = (lower_string s ++ lower_string t)%string.
Proof.
  induction s as [|ch s IH]; [done|].
  change (String ch s ++ t)%string with (String ch (s ++ t))%string.
  cbn [lower_string]. rewrite IH. reflexivity.
Qed.

(** X7: the desktop filter does not look at the ASCII case of the
    keyword: two criteria sets that differ only in the case of the letters
    of their keyword select the same records. *)
Theorem keyword_case_is_ignored (c : Criteria) (kw1 kw2 : string) (db : Store) :
  lower_string kw1 = lower_string kw2 →
  Tk.get_filtered_expenses (with_keyword c kw1) db
  = Tk.get_filtered_expenses (with_keyword c kw2) db.
Proof.
  intros Hkw. unfold Tk.get_filtered_expenses. apply List.filter_ext. intros r.
  unfold Tk.where_clause, category_arg. cbn [with_keyword start_date end_date
    category min_amount max_amount desc_keyword]. f_equal. cbn [truthy].
  destruct (decide (kw1 = ""%string)) as [->|H1].
  { symmetry in Hkw. apply lower_string_empty in Hkw as ->. done. }
  destruct (decide (kw2 = ""%string)) as [->|H2].
  { apply lower_string_empty in Hkw. done. }
  cbn. unfold Tk.description_like, like_pattern.
  rewrite (like_lower (_ ++ kw1 ++ _)%string), (like_lower (_ ++ kw2 ++ _)%string).
  by rewrite !lower_string_app, Hkw.
Qed.

Lemma keyword_case_is_ignored_witness :
  Tk.get_filtered_expenses (with_keyword in_march "Dollars") fifty
  = Tk.get_filtered_expenses (with_keyword in_march "dOLLARS") fifty.
Proof.
  apply (keyword_case_is_ignored in_march "Dollars" "dOLLARS" fifty). reflexivity.
Defined.

(** ** The filter after a change of the store *)

(** X8: the desktop filter follows the store.  After a delete it returns
    what it returned before without the rows of that id; after an insert
    with a numeric amount into a store in the state of X1 it returns what
    it returned before, followed by the new record if that passes the
    criteria. *)
Theorem filter_follows_the_store (c : Criteria) (db : Store) :
  (∀ k, Tk.get_filtered_expenses c (Db.delete_expense k db).2
        = filter (λ r, row_id r ≠ k) (Tk.get_filtered_expenses c db))
  ∧ (well_kept db →
     ∀ a cat d s,
       Tk.get_filtered_expenses c (Db.add_expense (Fin a) cat d s db).2
       = Tk.get_filtered_expenses c db
         ++ (if Tk.where_clause c (mkExpense (seq db + 1) a cat d s)
             then [mkExpense (seq db + 1) a cat d s] else [])).
Proof.
  split.
  - intros k. unfold Tk.get_filtered_expenses. cbn.
    induction (rows db) as [|r l IH]; [done|].
    rewrite filter_cons. cbn [List.filter].
    destruct (decide (row_id r ≠ k)) as [Hr|Hr]; cbn [List.filter];
      destruct (Tk.where_clause c r); rewrite ?filter_cons, ?IH; try done.
    + by rewrite decide_True.
    + by rewrite decide_False.
  - intros Hdb a cat d s. rewrite add_expense_fin by done.
    unfold Tk.get_filtered_expenses. cbn. rewrite List.filter_app. cbn.
    by destruct (Tk.where_clause c _).
Qed.

Lemma filter_follows_the_store_witness :
  Tk.get_filtered_expenses in_march (Db.add_expense (Fin 9) "Food" "2024-03-03" "tea"
                                       two_rows).2
  = Tk.get_filtered_expenses in_march two_rows
    ++ (if Tk.where_clause in_march (mkExpense (seq two_rows + 1) 9 "Food" "2024-03-03" "tea")
        then [mkExpense (seq two_rows + 1) 9 "Food" "2024-03-03" "tea"] else []).
Proof.
  destruct (filter_follows_the_store in_march two_rows) as [_ Hadd].
  apply Hadd. apply two_rows_well_kept.
Defined.

(** ** Dates as text *)

Lemma digit_order (a b : ascii) (va vb : Z) :
  Cal.digit a = Some va → Cal.digit b = Some vb →
  (0 ≤ va ≤ 9)%Z ∧ (0 ≤ vb ≤ 9)%Z ∧ Ascii.compare a b = (va ?= vb)%Z.
Proof.
  unfold Cal.digit, Ascii.compare, nat_of_ascii. intros Hva Hvb.
  destruct (_ && _) eqn:Ha in Hva; [|done]. injection Hva as <-.
  destruct (_ && _) eqn:Hb in Hvb; [|done]. injection Hvb as <-.
  apply andb_true_iff in Ha as [Ha1 Ha2], Hb as [Hb1 Hb2].
  apply Nat.leb_le in Ha1, Ha2, Hb1, Hb2.
  split; [lia|]. split; [lia|].
  destruct (N.compare_spec (N_of_ascii a) (N_of_ascii b)) as [Heq|Hlt|Hgt];
    symmetry.
  - rewrite Heq. apply Z.compare_refl.
  - apply Z.compare_lt_iff. lia.
  - apply Z.compare_gt_iff. lia.
Qed.

(** What [iso] reads as a date: four digits, two digits and two digits
    between hyphens, spelling a day of the calendar. *)
Lemma iso_inv (s : string) (t : Cal.date) :
  Cal.iso s = Some t →
  ∃ c1 c2 c3 c4 c5 c6 c7 c8 v1 v2 v3 v4 v5 v6 v7 v8,
    s = String c1 (String c2 (String c3 (String c4 (String "-"
          (String c5 (String c6 (String "-" (String c7 (String c8 "")))))))))
    ∧ Cal.digit c1 = Some v1 ∧ Cal.digit c2 = Some v2 ∧ Cal.digit c3 = Some v3
    ∧ Cal.digit c4 = Some v4 ∧ Cal.digit c5 = Some v5 ∧ Cal.digit c6 = Some v6
    ∧ Cal.digit c7 = Some v7 ∧ Cal.digit c8 = Some v8
    ∧ t = Cal.mkDate (10 * (10 * (10 * (10 * 0 + v1) + v2) + v3) + v4)
                     (10 * (10 * 0 + v5) + v6) (10 * (10 * 0 + v7) + v8)
    ∧ calendar_date t.
Proof.
  unfold Cal.iso.
  do 10 (destruct s as [|? s]; [done|]). destruct s; [|done].
  cbn [list_ascii_of_string].
  destruct (Ascii.eqb a3 "-") eqn:H1; [|done].
  destruct (Ascii.eqb a6 "-") eqn:H2; [|done].
  apply Ascii.eqb_eq in H1 as ->, H2 as ->. cbn -[Cal.digit Cal.days_in_month].
  destruct (Cal.digit a) as [v1|] eqn:E1; [|done].
  destruct (Cal.digit a0) as [v2|] eqn:E2; [|done].
  destruct (Cal.digit a1) as [v3|] eqn:E3; [|done].
  destruct (Cal.digit a2) as [v4|] eqn:E4; [|done].
  cbn -[Cal.digit Cal.days_in_month].
  destruct (Cal.digit a4) as [v5|] eqn:E5; [|done].
  destruct (Cal.digit a5) as [v6|] eqn:E6; [|done].
  cbn -[Cal.digit Cal.days_in_month].
  destruct (Cal.digit a7) as [v7|] eqn:E7; [|done].
  destruct (Cal.digit a8) as [v8|] eqn:E8; [|done].
  cbn -[Cal.digit Cal.days_in_month Z.mul Z.add Z.leb].
  destruct (_ && _) eqn:Hv; [|done]. intros [= <-].
  exists a, a0, a1, a2, a4, a5, a7, a8, v1, v2, v3, v4, v5, v6, v7, v8.
  repeat (apply andb_true_iff in Hv as [Hv ?]).
  repeat match goal with H : (_ <=? _)%Z = true |- _ => apply Z.leb_le in H end.
  unfold calendar_date. cbn [Cal.year Cal.month Cal.day].
  repeat split; try done; lia.
Qed.

(** The text order of two dates is the order of their years, months and
    days. *)
Lemma text_order_of_dates (s1 s2 : string) (t1 t2 : Cal.date) :
  Cal.iso s1 = Some t1 →
  Cal.iso s2 = Some t2 →
  String.leb s1 s2 = true ↔ ¬ earlier t2 t1.
Proof.
  intros (a1 & a2 & a3 & a4 & a5 & a6 & a7 & a8 & v1 & v2 & v3 & v4 & v5 & v6 & v7 & v8
          & -> & A1 & A2 & A3 & A4 & A5 & A6 & A7 & A8 & -> & _)%iso_inv.
  intros (b1 & b2 & b3 & b4 & b5 & b6 & b7 & b8 & w1 & w2 & w3 & w4 & w5 & w6 & w7 & w8
          & -> & B1 & B2 & B3 & B4 & B5 & B6 & B7 & B8 & -> & _)%iso_inv.
  destruct (digit_order _ _ _ _ A1 B1) as (? & ? & E1).
  destruct (digit_order _ _ _ _ A2 B2) as (? & ? & E2).
  destruct (digit_order _ _ _ _ A3 B3) as (? & ? & E3).
  destruct (digit_order _ _ _ _ A4 B4) as (? & ? & E4).
  destruct (digit_order _ _ _ _ A5 B5) as (? & ? & E5).
  destruct (digit_order _ _ _ _ A6 B6) as (? & ? & E6).
  destruct (digit_order _ _ _ _ A7 B7) as (? & ? & E7).
  destruct (digit_order _ _ _ _ A8 B8) as (? & ? & E8).
  unfold String.leb, earlier. cbn [String.compare Cal.year Cal.month Cal.day].
  rewrite E1, E2, E3, E4, E5, E6, E7, E8.
  change (Ascii.compare "-" "-") with Eq. cbv iota.
  destruct (Z.compare_spec v1 w1); [|split; [lia|done]|split; [done|lia]].
  destruct (Z.compare_spec v2 w2); [|split; [lia|done]|split; [done|lia]].
  destruct (Z.compare_spec v3 w3); [|split; [lia|done]|split; [done|lia]].
  destruct (Z.compare_spec v4 w4); [|split; [lia|done]|split; [done|lia]].
  destruct (Z.compare_spec v5 w5); [|split; [lia|done]|split; [done|lia]].
  destruct (Z.compare_spec v6 w6); [|split; [lia|done]|split; [done|lia]].
  destruct (Z.compare_spec v7 w7); [|split; [lia|done]|split; [done|lia]].
  destruct (Z.compare_spec v8 w8); split; (done || lia).
Qed.

Lemma one_of_twelve (m : Z) :
  (1 ≤ m ≤ 12)%Z →
  m = 1%Z ∨ m = 2%Z ∨ m = 3%Z ∨ m = 4%Z ∨ m = 5%Z ∨ m = 6%Z ∨ m = 7%Z ∨ m = 8%Z
  ∨ m = 9%Z ∨ m = 10%Z ∨ m = 11%Z ∨ m = 12%Z.
Proof. lia. Qed.

Lemma first_of_march (y : Z) :
  Cal.days_from_civil (Cal.mkDate y 3 1)
  = (first_of_january y + 59 + if Cal.leap y then 1 else 0)%Z.
Proof.
  unfold first_of_january, Cal.days_from_civil, Cal.leap. cbn.
  destruct (y mod 4 =? 0)%Z eqn:E1, (y mod 100 =? 0)%Z eqn:E2,
    (y mod 400 =? 0)%Z eqn:E3; cbn;
    rewrite ?Z.eqb_eq, ?Z.eqb_neq in *; Z.div_mod_to_equations; lia.
Qed.

(** The day number of a date is the day number of the first of January
    of its year, plus the days of the months before it, plus its day. *)
Lemma days_in_parts (y m d : Z) :
  (1 ≤ m ≤ 12)%Z →
  Cal.days_from_civil (Cal.mkDate y m d)
  = (first_of_january y + days_before_month (Cal.leap y) m + (d - 1))%Z.
Proof.
  intros Hm. destruct (Z.le_gt_cases m 2) as [Hjf|Hmar].
  - unfold first_of_january, Cal.days_from_civil. cbn [Cal.year Cal.month Cal.day].
    assert (m = 1 ∨ m = 2)%Z as [-> | ->] by lia; cbn; Z.div_mod_to_equations; lia.
  - pose proof (first_of_march y) as H3. revert H3.
    unfold Cal.days_from_civil. cbn [Cal.year Cal.month Cal.day].
    generalize (first_of_january y). intros j.
    replace (m <=? 2)%Z with false by (symmetry; apply Z.leb_gt; lia).
    change (3 <=? 2)%Z with false. cbv iota.
    generalize (y / 400 * 146097
                + ((y - y / 400 * 400) * 365 + (y - y / 400 * 400) / 4
                   - (y - y / 400 * 400) / 100))%Z.
    intros base.
    destruct (one_of_twelve m Hm)
      as [->|[->|[->|[->|[->|[->|[->|[->|[->|[->|[->| ->]]]]]]]]]]];
      try lia; destruct (Cal.leap y); cbn; Z.div_mod_to_equations; lia.
Qed.

Lemma next_first_of_january (y : Z) :
  first_of_january (y + 1) = (first_of_january y + if Cal.leap y then 366 else 365)%Z.
Proof.
  unfold first_of_january, Cal.days_from_civil, Cal.leap. cbn.
  replace (y + 1 - 1)%Z with y by lia.
  destruct (y mod 4 =? 0)%Z eqn:E1, (y mod 100 =? 0)%Z eqn:E2,
    (y mod 400 =? 0)%Z eqn:E3; cbn;
    rewrite ?Z.eqb_eq, ?Z.eqb_neq in *; Z.div_mod_to_equations; lia.
Qed.

Lemma later_first_of_january (y : Z) (n : nat) :
  (first_of_january y + 365 * Z.of_nat n ≤ first_of_january (y + Z.of_nat n))%Z.
Proof.
  induction n as [|n IH].
  - replace (y + Z.of_nat 0)%Z with y by lia. lia.
  - replace (y + Z.of_nat (S n))%Z with (y + Z.of_nat n + 1)%Z by lia.
    rewrite next_first_of_january. destruct (Cal.leap _); lia.
Qed.

Lemma month_fits (lp : bool) (y m : Z) :
  (1 ≤ m ≤ 12)%Z → Cal.leap y = lp →
  (0 ≤ days_before_month lp m
   ∧ days_before_month lp m + Cal.days_in_month y m ≤ (if lp then 366 else 365)
   ∧ ∀ m', m < m' ≤ 12 →
       days_before_month lp m + Cal.days_in_month y m ≤ days_before_month lp m')%Z.
Proof.
  intros Hm Hlp. unfold Cal.days_in_month. rewrite Hlp.
  destruct (one_of_twelve m Hm)
    as [->|[->|[->|[->|[->|[->|[->|[->|[->|[->|[->| ->]]]]]]]]]]];
    (split; [by destruct lp|]); (split; [by destruct lp|]);
    intros m' Hm';
    assert (1 ≤ m' ≤ 12)%Z as Hm12 by lia;
    destruct (one_of_twelve m' Hm12)
      as [->|[->|[->|[->|[->|[->|[->|[->|[->|[->|[->| ->]]]]]]]]]]];
    try lia; by destruct lp.
Qed.

Lemma earlier_days (t1 t2 : Cal.date) :
  calendar_date t1 → calendar_date t2 → earlier t1 t2 →
  (Cal.days_from_civil t1 < Cal.days_from_civil t2)%Z.
Proof.
  destruct t1 as [y1 m1 d1], t2 as [y2 m2 d2]. unfold calendar_date, earlier. cbn.
  intros [Hm1 Hd1] [Hm2 Hd2] He. rewrite !days_in_parts by done.
  destruct (month_fits (Cal.leap y1) y1 m1 Hm1 eq_refl) as (H1a & H1b & H1c).
  destruct (month_fits (Cal.leap y2) y2 m2 Hm2 eq_refl) as (H2a & H2b & H2c).
  destruct He as [Hy|[-> [Hm| [-> Hd]]]].
  - pose proof (later_first_of_january (y1 + 1) (Z.to_nat (y2 - (y1 + 1)))) as Hj.
    replace (y1 + 1 + Z.of_nat (Z.to_nat (y2 - (y1 + 1))))%Z with y2 in Hj by lia.
    rewrite next_first_of_january in Hj. destruct (Cal.leap y1); lia.
  - specialize (H1c m2). lia.
  - lia.
Qed.

Lemma iso_calendar (s : string) (t : Cal.date) : Cal.iso s = Some t → calendar_date t.
Proof.
  intros (?&?&?&?&?&?&?&?&?&?&?&?&?&?&?&?&?&?&?&?&?&?&?&?&?&?&Ct)%iso_inv. exact Ct.
Qed.

(** The order of the calendar is the order of the day numbers. *)
Lemma calendar_order (t1 t2 : Cal.date) :
  calendar_date t1 → calendar_date t2 →
  ¬ earlier t2 t1 ↔ (Cal.days_from_civil t1 ≤ Cal.days_from_civil t2)%Z.
Proof.
  intros C1 C2. split.
  - intros Hn.
    destruct (decide (Cal.days_from_civil t1 ≤ Cal.days_from_civil t2)%Z) as [|Hgt];
      [done|]. destruct Hn.
    destruct t1 as [y1 m1 d1], t2 as [y2 m2 d2]. unfold earlier. cbn.
    destruct (Z.lt_trichotomy y2 y1) as [?|[->|Hy]]; [by left| |].
    + destruct (Z.lt_trichotomy m2 m1) as [?|[->|Hm]]; [right; split; [done|by left]| |].
      * destruct (Z.lt_trichotomy d2 d1) as [?|[->|Hd]].
        -- right. split; [done|]. right. by split.
        -- lia.
        -- pose proof (earlier_days (Cal.mkDate y1 m1 d1) (Cal.mkDate y1 m1 d2) C1 C2)
             as He. unfold earlier in He. cbn in He. lia.
      * pose proof (earlier_days (Cal.mkDate y1 m1 d1) (Cal.mkDate y1 m2 d2) C1 C2)
          as He. unfold earlier in He. cbn in He. lia.
    + pose proof (earlier_days (Cal.mkDate y1 m1 d1) (Cal.mkDate y2 m2 d2) C1 C2)
        as He. unfold earlier in He. cbn in He. lia.
  - intros Hle He. pose proof (earlier_days t2 t1 C2 C1 He). lia.
Qed.

(** X9: the date tests of the desktop filter, [date >= ?] and
    [date <= ?], compare text, and on dates written [YYYY-MM-DD], in any
    year of four digits, the order of the text is the order of the days: a
    record passes the test of a start date exactly when its day is not
    before that day, and the test of an end date exactly when its day is
    not after that day. *)
Theorem date_tests_follow_the_calendar (bound : string) (r : Expense)
    (tb tr : Cal.date) :
  Cal.iso bound = Some tb →
  Cal.iso (row_date r) = Some tr →
  (date_ge bound r = true ↔ (Cal.days_from_civil tb ≤ Cal.days_from_civil tr)%Z)
  ∧ (date_le bound r = true ↔ (Cal.days_from_civil tr ≤ Cal.days_from_civil tb)%Z).
Proof.
  intros Hb Hr.
  pose proof (iso_calendar _ _ Hb) as Cb. pose proof (iso_calendar _ _ Hr) as Cr.
  unfold date_ge, date_le. split.
  - rewrite (text_order_of_dates bound (row_date r) tb tr) by done.
    by apply calendar_order.
  - rewrite (text_order_of_dates (row_date r) bound tr tb) by done.
    by apply calendar_order.
Qed.

Lemma date_tests_follow_the_calendar_witness :
  (date_ge "2024-02-29" (mkExpense 1 50 "Food" "2024-03-01" "50 dollars") = true
   ↔ (Cal.days_from_civil (Cal.mkDate 2024 2 29)
      ≤ Cal.days_from_civil (Cal.mkDate 2024 3 1))%Z)
  ∧ (date_le "2024-02-29" (mkExpense 1 50 "Food" "2024-03-01" "50 dollars") = true
     ↔ (Cal.days_from_civil (Cal.mkDate 2024 3 1)
        ≤ Cal.days_from_civil (Cal.mkDate 2024 2 29))%Z).
Proof.
  apply (date_tests_follow_the_calendar "2024-02-29"
           (mkExpense 1 50 "Food" "2024-03-01" "50 dollars")
           (Cal.mkDate 2024 2 29) (Cal.mkDate 2024 3 1)); reflexivity.
Defined.

(** The filter with an end date in the year 0999, outside the years of a
    timestamp, still compares as the calendar does. *)
Example early_years :
  Cal.iso "0999-12-31" = Some (Cal.mkDate 999 12 31)
  ∧ date_le "0999-12-31" (mkExpense 1 50 "Food" "1000-01-01" "") = false.
Proof. split; reflexivity. Qed.

(** ** The statistics between the least and the greatest amount *)

Lemma sum_between (lo hi : R) (a : list R) :
  (∀ y, y ∈ a → lo <= y <= hi) →
  INR (length a) * lo <= Np.sum a <= INR (length a) * hi.
Proof.
  induction a as [|x a IH]; intros Ha.
  - change (0 * lo <= 0 <= 0 * hi). lra.
  - rewrite sum_cons, length_cons, S_INR.
    assert (lo <= x <= hi) by (apply Ha; by left).
    assert (INR (length a) * lo <= Np.sum a <= INR (length a) * hi)
      by (apply IH; intros y Hy; apply Ha; by right).
    lra.
Qed.

Lemma mean_between (lo hi : R) (a : list R) :
  a ≠ [] → (∀ y, y ∈ a → lo <= y <= hi) → lo <= Np.mean a <= hi.
Proof.
  intros Hne Ha. pose proof (sum_between lo hi a Ha) as Hs.
  rewrite <- (mean_times_n a Hne) in Hs.
  destruct a as [|x a]; [done|]. pose proof (INR_length_pos x a) as Hn.
  split; nra.
Qed.

Lemma sorted_nth_in (a : list R) (i : nat) :
  (i < length a)%nat → nth i (merge_sort Rle a) 0 ∈ a.
Proof.
  intros Hi.
  assert (nth i (merge_sort Rle a) 0 ∈ merge_sort Rle a) as Hin.
  { apply list_elem_of_In, nth_In.
    by rewrite (Permutation_length (merge_sort_Permutation Rle a)). }
  revert Hin. generalize (nth i (merge_sort Rle a) 0). intros x Hx.
  by rewrite (merge_sort_Permutation Rle a) in Hx.
Qed.

Lemma median_between (lo hi : R) (a : list R) :
  a ≠ [] → (∀ y, y ∈ a → lo <= y <= hi) → lo <= Np.median a <= hi.
Proof.
  intros Hne Ha. unfold Np.median.
  assert (0 < length a)%nat as Hn by (destruct a; [done|cbn; lia]).
  assert (length a / 2 < length a)%nat as H2 by (apply Nat.div_lt; lia).
  pose proof (Ha _ (sorted_nth_in a (length a / 2) H2)) as Hhi.
  destruct (Nat.even (length a)); [|done].
  assert (length a / 2 - 1 < length a)%nat as H1 by lia.
  pose proof (Ha _ (sorted_nth_in a (length a / 2 - 1) H1)) as Hlo. lra.
Qed.

(** X10: for a collection that is not empty, both [get_stats] report the
    same total, average, median, least and greatest amount, and the average
    and the median lie between the least and the greatest amount. *)
Theorem average_and_median_between_min_and_max
    (set_order : list string → list string) (l : list Expense) :
  l ≠ [] →
  ∃ total average median lo hi,
    Tk.get_stats set_order l !! "total" = Some (VFloat (Fin total))
    ∧ St.get_stats l !! "total" = Some (VFloat (Fin total))
    ∧ Tk.get_stats set_order l !! "average" = Some (VFloat (Fin average))
    ∧ St.get_stats l !! "average" = Some (VFloat (Fin average))
    ∧ Tk.get_stats set_order l !! "median" = Some (VFloat (Fin median))
    ∧ St.get_stats l !! "median" = Some (VFloat (Fin median))
    ∧ Tk.get_stats set_order l !! "min" = Some (VFloat (Fin lo))
    ∧ St.get_stats l !! "min" = Some (VFloat (Fin lo))
    ∧ Tk.get_stats set_order l !! "max" = Some (VFloat (Fin hi))
    ∧ St.get_stats l !! "max" = Some (VFloat (Fin hi))
    ∧ lo <= average <= hi
    ∧ lo <= median <= hi.
Proof.
  destruct l as [|r l]; [done|]. intros _.
  destruct (Tk_get_stats_fields set_order r l) as (T1 & T2 & T3 & T4 & T5 & _).
  destruct (St_get_stats_fields r l) as (S1 & S2 & S3 & S4 & S5 & _).
  cbv zeta in *. set (a := row_amount <$> r :: l) in *.
  exists (Np.sum a), (Np.mean a), (Np.median a), (Np.min a), (Np.max a).
  repeat (split; [assumption|]).
  assert (a ≠ []) as Hne by done.
  destruct (min_is_least a Hne) as [_ Hmin].
  destruct (max_is_greatest a Hne) as [_ Hmax].
  assert (∀ y, y ∈ a → Np.min a <= y <= Np.max a) as Hb by (split; auto).
  split; [by apply mean_between|by apply median_between].
Qed.

Lemma average_and_median_between_min_and_max_witness :
  ∃ total average median lo hi,
    Tk.get_stats (λ cats, cats) six !! "total" = Some (VFloat (Fin total))
    ∧ St.get_stats six !! "total" = Some (VFloat (Fin total))
    ∧ Tk.get_stats (λ cats, cats) six !! "average" = Some (VFloat (Fin average))
    ∧ St.get_stats six !! "average" = Some (VFloat (Fin average))
    ∧ Tk.get_stats (λ cats, cats) six !! "median" = Some (VFloat (Fin median))
    ∧ St.get_stats six !! "median" = Some (VFloat (Fin median))
    ∧ Tk.get_stats (λ cats, cats) six !! "min" = Some (VFloat (Fin lo))
    ∧ St.get_stats six !! "min" = Some (VFloat (Fin lo))
    ∧ Tk.get_stats (λ cats, cats) six !! "max" = Some (VFloat (Fin hi))
    ∧ St.get_stats six !! "max" = Some (VFloat (Fin hi))
    ∧ lo <= average <= hi
    ∧ lo <= median <= hi.
Proof.
  apply (average_and_median_between_min_and_max (λ cats, cats) six). discriminate.
Defined.

(** ** The order of the records does not matter *)

#[local] Instance Rle_antisym : AntiSymm (=) Rle.
Proof. intros x y Hxy Hyx. lra. Qed.

Lemma sum_perm (a b : list R) : a ≡ₚ b → Np.sum a = Np.sum b.
Proof.
  induction 1 as [|x a b _ IH|x y a|a b c _ IH1 _ IH2]; rewrite ?sum_cons.
  - done.
  - by rewrite IH.
  - lra.
  - by rewrite IH1.
Qed.

Lemma mean_perm (a b : list R) : a ≡ₚ b → Np.mean a = Np.mean b.
Proof.
  intros Hab. unfold Np.mean. by rewrite (sum_perm a b Hab), (Permutation_length Hab).
Qed.

Lemma sqdev_perm (a b : list R) : a ≡ₚ b → Np.sqdev a = Np.sqdev b.
Proof.
  intros Hab. unfold Np.sqdev. rewrite (mean_perm a b Hab).
  apply sum_perm. by apply fmap_Permutation.
Qed.

Lemma var_perm (a b : list R) : a ≡ₚ b → Np.var a = Np.var b.
Proof.
  intros Hab. unfold Np.var. by rewrite (sqdev_perm a b Hab), (Permutation_length Hab).
Qed.

Lemma median_perm (a b : list R) : a ≡ₚ b → Np.median a = Np.median b.
Proof.
  intros Hab. unfold Np.median. rewrite (Permutation_length Hab).
  assert (merge_sort Rle a = merge_sort Rle b) as ->; [|done].
  apply (Sorted_unique Rle); [apply (Sorted_merge_sort Rle)..|].
  by rewrite !merge_sort_Permutation.
Qed.

Lemma min_perm (a b : list R) : a ≡ₚ b → Np.min a = Np.min b.
Proof.
  intros Hab. destruct a as [|x a].
  { apply Permutation_nil_l in Hab as ->. done. }
  assert (b ≠ []) as Hb.
  { intros ->. by apply Permutation_nil_r in Hab. }
  destruct (min_is_least (x :: a)) as [Ha1 Ha2]; [done|].
  destruct (min_is_least b Hb) as [Hb1 Hb2].
  apply Rle_antisym.
  - apply Ha2. by rewrite Hab.
  - apply Hb2. by rewrite <- Hab.
Qed.

Lemma max_perm (a b : list R) : a ≡ₚ b → Np.max a = Np.max b.
Proof.
  intros Hab. destruct a as [|x a].
  { apply Permutation_nil_l in Hab as ->. done. }
  assert (b ≠ []) as Hb.
  { intros ->. by apply Permutation_nil_r in Hab. }
  destruct (max_is_greatest (x :: a)) as [Ha1 Ha2]; [done|].
  destruct (max_is_greatest b Hb) as [Hb1 Hb2].
  apply Rle_antisym.
  - apply Hb2. by rewrite <- Hab.
  - apply Ha2. by rewrite Hab.
Qed.

Lemma pd_var_perm (a b : list R) : a ≡ₚ b → Pd.var a = Pd.var b.
Proof.
  intros Hab. unfold Pd.var. by rewrite (sqdev_perm a b Hab), (Permutation_length Hab).
Qed.

Lemma perm_nonempty {A} (x : A) (l l' : list A) :
  x :: l ≡ₚ l' → ∃ y l'', l' = y :: l''.
Proof.
  destruct l' as [|y l'']; [|by eauto]. by intros ?%Permutation_nil_r.
Qed.

(** X11: the statistics and the outliers do not depend on the order of
    the records: for two collections with the same records in any order,
    either [get_stats] reports the same total, average, median, least and
    greatest amount, standard deviation and variance, and either detector
    flags the same ids. *)
Theorem order_of_records_does_not_matter
    (set_order : list string → list string) (l l' : list Expense) :
  l ≡ₚ l' →
  (∀ key, key ≠ "most_freq_cat"%string →
     Tk.get_stats set_order l !! key = Tk.get_stats set_order l' !! key)
  ∧ (∀ key, key ≠ "most_freq_cat"%string →
       St.get_stats l !! key = St.get_stats l' !! key)
  ∧ Tk.detect_outliers l = Tk.detect_outliers l'
  ∧ St.detect_outliers l = St.detect_outliers l'.
Proof.
  intros Hl. destruct l as [|r l].
  { apply Permutation_nil_l in Hl as ->. done. }
  destruct (perm_nonempty r l l' Hl) as (r' & l'' & ->).
  assert (row_amount <$> r :: l ≡ₚ row_amount <$> r' :: l'') as Ha
    by (by apply fmap_Permutation).
  split; [|split; [|split]].
  - intros key Hkey. unfold Tk.get_stats. cbv zeta.
    rewrite !(lookup_insert_ne _ "most_freq_cat"%string key) by done.
    by rewrite (var_perm _ _ Ha), (max_perm _ _ Ha), (min_perm _ _ Ha),
      (median_perm _ _ Ha), (mean_perm _ _ Ha), (sum_perm _ _ Ha);
      unfold Np.std; rewrite (var_perm _ _ Ha).
  - intros key Hkey. unfold St.get_stats. cbv zeta.
    rewrite !(lookup_insert_ne _ "most_freq_cat"%string key) by done.
    by rewrite (max_perm _ _ Ha), (min_perm _ _ Ha),
      (median_perm _ _ Ha), (mean_perm _ _ Ha), (sum_perm _ _ Ha);
      unfold Pd.std; rewrite (pd_var_perm _ _ Ha).
  - apply set_eq. intros k.
    rewrite !(λ l H, proj1 (Tk_detect_outliers_spec (λ c, c) l k H)) by done.
    unfold is_outlier, Np.std. rewrite (mean_perm _ _ Ha), (var_perm _ _ Ha).
    split; intros (e & He & Hout); exists e; (split; [|done]).
    + by rewrite <- Hl.
    + by rewrite Hl.
  - apply set_eq. intros k. rewrite !St_detect_outliers_elem.
    unfold Pd.std. rewrite (mean_perm _ _ Ha), (pd_var_perm _ _ Ha).
    split; intros (e & He & Hout); exists e; (split; [|done]).
    + by rewrite <- Hl.
    + by rewrite Hl.
Qed.

Lemma order_of_records_does_not_matter_witness :
  (∀ key, key ≠ "most_freq_cat"%string →
     Tk.get_stats (λ cats, cats) three !! key
     = Tk.get_stats (λ cats, cats) (reverse three) !! key)
  ∧ (∀ key, key ≠ "most_freq_cat"%string →
       St.get_stats three !! key = St.get_stats (reverse three) !! key)
  ∧ Tk.detect_outliers three = Tk.detect_outliers (reverse three)
  ∧ St.detect_outliers three = St.detect_outliers (reverse three).
Proof.
  apply (order_of_records_does_not_matter (λ cats, cats) three (reverse three)).
  symmetry. apply reverse_Permutation.
Defined.

(** ** The two standard deviations *)

Lemma pd_var_fin (a : list R) :
  (2 ≤ length a)%nat →
  Pd.var a = Fin (Np.sqdev a / INR (length a - 1))
  ∧ Pd.std a = Fin (sqrt (Np.sqdev a / INR (length a - 1)))
  ∧ Np.var a <= Np.sqdev a / INR (length a - 1)
  ∧ Np.sqdev a / INR (length a - 1) * INR (length a - 1) = Np.var a * INR (length a).
Proof.
  intros Hn. unfold Pd.std, Pd.var. rewrite decide_False by lia.
  split; [done|]. split; [done|].
  pose proof (sqdev_nonneg a) as Hs.
  assert (0 < INR (length a - 1)) as H1 by (apply lt_0_INR; lia).
  assert (INR (length a) = INR (length a - 1) + 1) as Hn1.
  { rewrite <- S_INR. f_equal. lia. }
  unfold Np.var. rewrite Hn1. split.
  - unfold Rdiv. apply Rmult_le_compat_l; [done|].
    apply Rinv_le_contravar; lra.
  - field. lra.
Qed.

(** X12: for two records or more, the variance the web dashboard shows
    is the variance the desktop dashboard shows times [n / (n - 1)], and
    neither it nor the standard deviation is below the desktop's. *)
Theorem web_variance_is_the_sample_variance
    (set_order : list string → list string) (l : list Expense) :
  (2 ≤ length l)%nat →
  ∃ vt st vs ss,
    Tk.get_stats set_order l !! "var" = Some (VFloat (Fin vt))
    ∧ Tk.get_stats set_order l !! "std" = Some (VFloat (Fin st))
    ∧ St.get_stats l !! "var" = Some (VFloat (Fin vs))
    ∧ St.get_stats l !! "std" = Some (VFloat (Fin ss))
    ∧ vs * INR (length l - 1) = vt * INR (length l)
    ∧ vt <= vs
    ∧ st <= ss.
Proof.
  intros Hn. destruct l as [|r l]; [cbn in Hn; lia|].
  destruct (Tk_get_stats_fields set_order r l) as (_ & _ & _ & _ & _ & T6 & T7).
  destruct (St_get_stats_fields r l) as (_ & _ & _ & _ & _ & S6 & S7).
  cbv zeta in *. set (a := row_amount <$> r :: l) in *.
  assert (length a = length (r :: l)) as Hlen by (unfold a; by rewrite length_fmap).
  destruct (pd_var_fin a) as (Hv & Hs & Hle & Heq); [lia|].
  rewrite Hv in S7. rewrite Hs in S6. rewrite Hlen in *.
  exists (Np.var a), (Np.std a), (Np.sqdev a / INR (length (r :: l) - 1)),
    (sqrt (Np.sqdev a / INR (length (r :: l) - 1))).
  do 4 (split; [assumption|]). split; [exact Heq|]. split; [exact Hle|].
  unfold Np.std. by apply sqrt_le_1_alt.
Qed.

Lemma web_variance_is_the_sample_variance_witness :
  ∃ vt st vs ss,
    Tk.get_stats (λ cats, cats) two !! "var" = Some (VFloat (Fin vt))
    ∧ Tk.get_stats (λ cats, cats) two !! "std" = Some (VFloat (Fin st))
    ∧ St.get_stats two !! "var" = Some (VFloat (Fin vs))
    ∧ St.get_stats two !! "std" = Some (VFloat (Fin ss))
    ∧ vs * INR (length two - 1) = vt * INR (length two)
    ∧ vt <= vs
    ∧ st <= ss.
Proof.
  apply (web_variance_is_the_sample_variance (λ cats, cats) two). cbn. lia.
Defined.

(** ** What the detectors flag *)

Lemma abs_gt_root (d v : R) : 0 <= v → Rabs d > 2 * sqrt v → d * d > 4 * v.
Proof.
  intros Hv Hd. pose proof (sqrt_pos v) as Hs. pose proof (sqrt_sqrt v Hv) as Hss.
  assert (Rabs d * Rabs d = d * d) as <-.
  { unfold Rabs. destruct (Rcase_abs d); lra. }
  nra.
Qed.

#[local] Instance is_outlier_dec (l : list Expense) (e : Expense) :
  Decision (is_outlier l e).
Proof. unfold is_outlier. apply _. Defined.

(** The set the desktop loop builds. *)
Lemma Tk_detect_outliers_set (l : list Expense) :
  l ≠ [] →
  Tk.detect_outliers l = list_to_set (row_id <$> filter (is_outlier l) l).
Proof.
  intros Hl. apply set_eq. intros k.
  rewrite (proj1 (Tk_detect_outliers_spec (λ c, c) l k Hl)).
  rewrite elem_of_list_to_set, list_elem_of_fmap. split.
  - intros (e & He & <- & Hout). exists e. split; [done|].
    by apply list_elem_of_filter.
  - intros (e & -> & [Hout He]%list_elem_of_filter). by exists e.
Qed.

Lemma St_flags_are_Tk_flags (l : list Expense) :
  St.detect_outliers l ⊆ Tk.detect_outliers l.
Proof.
  destruct l as [|r l]; [done|]. intros k.
  rewrite St_detect_outliers_elem.
  intros (e & He & <- & Hm).
  apply (Tk_detect_outliers_spec (λ c, c) (r :: l) (row_id e)); [done|].
  exists e. split; [done|]. split; [done|].
  set (a := row_amount <$> r :: l) in *.
  destruct (decide (length a ≤ 1)%nat) as [H1|H1].
  { unfold Pd.std, Pd.var in Hm. rewrite decide_True in Hm by done. done. }
  destruct (pd_var_fin a) as (_ & Hs & Hle & _); [lia|]. rewrite Hs in Hm.
  unfold is_outlier. fold a.
  assert (Np.std a <= sqrt (Np.sqdev a / INR (length a - 1))) as Hstd.
  { unfold Np.std. by apply sqrt_le_1_alt. }
  pose proof (sqrt_pos (Np.var a)) as Hpos. fold (Np.std a) in Hpos.
  cbn [fgt flt fadd fsub fmul] in Hm.
  apply orb_true_iff in Hm as [Hm|Hm]; apply bool_decide_eq_true in Hm.
  - rewrite Rabs_right by lra. lra.
  - rewrite Rabs_left by lra. lra.
Qed.

(** X13: whatever the collection, an id the web detector flags is
    flagged by the desktop detector too. *)
Theorem web_outliers_are_desktop_outliers (l : list Expense) :
  St.detect_outliers l ⊆ Tk.detect_outliers l.
Proof. apply St_flags_are_Tk_flags. Qed.

Lemma sum_filter_le (f : Expense → R) (P : Expense → Prop) `{!∀ e, Decision (P e)}
    (l : list Expense) :
  (∀ e, 0 <= f e) → Np.sum (f <$> filter P l) <= Np.sum (f <$> l).
Proof.
  intros Hf. induction l as [|e l IH]; [apply Rle_refl|].
  rewrite filter_cons, fmap_cons, sum_cons. specialize (Hf e).
  destruct (decide (P e)); rewrite ?fmap_cons, ?sum_cons; lra.
Qed.

Lemma sum_above (f : Expense → R) (c : R) (l : list Expense) :
  (∀ e, e ∈ l → f e > c) →
  INR (length l) * c <= Np.sum (f <$> l)
  ∧ (l ≠ [] → INR (length l) * c < Np.sum (f <$> l)).
Proof.
  induction l as [|e l IH]; intros Hl.
  - split; [|done]. change (0 * c <= 0). lra.
  - rewrite fmap_cons, sum_cons, length_cons, S_INR.
    assert (f e > c) by (apply Hl; by left).
    destruct IH as [IH _]; [intros e' He'; apply Hl; by right|].
    split; [|intros _]; lra.
Qed.

Lemma size_list_to_set_le (ks : list Z) :
  (size (list_to_set ks : gset Z) ≤ length ks)%nat.
Proof.
  induction ks as [|k ks IH]; [by rewrite list_to_set_nil, size_empty|].
  rewrite list_to_set_cons, size_union_alt, size_singleton. cbn.
  pose proof (subseteq_size (list_to_set ks ∖ {[k]}) (list_to_set ks : gset Z)) as Hs.
  assert (list_to_set ks ∖ {[k]} ⊆ (list_to_set ks : gset Z)) as Hsub
    by (by intros x [Hx _]%elem_of_difference).
  specialize (Hs Hsub). lia.
Qed.

(** Fewer than a quarter of the records lie more than two population
    standard deviations from the mean. *)
Lemma fewer_than_a_quarter (l : list Expense) :
  l ≠ [] → (4 * length (filter (is_outlier l) l) < length l)%nat.
Proof.
  intros Hne. set (a := row_amount <$> l).
  set (g := λ e : Expense, (row_amount e - Np.mean a) * (row_amount e - Np.mean a)).
  set (F := filter (is_outlier l) l).
  assert (0 < length l)%nat as Hn by (destruct l; [done|cbn; lia]).
  destruct (decide (F = [])) as [->|HF]; [cbn; lia|].
  assert (Np.sqdev a = Np.sum (g <$> l)) as Hsq.
  { unfold Np.sqdev, a. by rewrite <- list_fmap_compose. }
  assert (Np.sum (g <$> F) <= Np.sum (g <$> l)) as Hle.
  { apply sum_filter_le. intros e. unfold g.
    pose proof (Rle_0_sqr (row_amount e - Np.mean a)) as H. by unfold Rsqr in H. }
  destruct (sum_above g (4 * Np.var a) F) as [_ Hgt].
  { intros e [Hout _]%list_elem_of_filter. unfold g.
    apply abs_gt_root; [apply var_nonneg|exact Hout]. }
  specialize (Hgt HF).
  assert (a ≠ []) as Ha by (unfold a; by destruct l).
  pose proof (var_is_population a Ha) as Hvar.
  assert (length a = length l) as Hlen by (unfold a; by rewrite length_fmap).
  rewrite Hlen in Hvar. pose proof (var_nonneg a) as Hv0.
  assert (0 < INR (length l)) as HnR by (by apply lt_0_INR).
  assert (0 < INR (length F)) as HkR.
  { apply lt_0_INR. destruct F; [done|cbn; lia]. }
  assert (INR (4 * length F) < INR (length l)) as Hlt.
  { rewrite mult_INR. change (INR 4) with (INR 3 + 1). change (INR 3) with (INR 2 + 1).
    change (INR 2) with (1 + 1).
    assert (0 < Np.var a) as Hvpos by nra. nra. }
  by apply INR_lt in Hlt.
Qed.

(** X14: a detector never flags a quarter of a collection or more: four
    times the number of flagged ids is below the number of records, so no
    record of a collection of up to four records is ever flagged. *)
Theorem outliers_are_fewer_than_a_quarter (l : list Expense) :
  l ≠ [] →
  (4 * size (Tk.detect_outliers l) < length l)%nat
  ∧ (4 * size (St.detect_outliers l) < length l)%nat
  ∧ ((length l ≤ 4)%nat → Tk.detect_outliers l = ∅ ∧ St.detect_outliers l = ∅).
Proof.
  intros Hne. pose proof (fewer_than_a_quarter l Hne) as Hq.
  assert (size (Tk.detect_outliers l) ≤ length (filter (is_outlier l) l))%nat as Htk.
  { rewrite Tk_detect_outliers_set by done.
    etrans; [apply size_list_to_set_le|]. by rewrite length_fmap. }
  pose proof (subseteq_size _ _ (St_flags_are_Tk_flags l)) as Hst.
  split; [lia|]. split; [lia|]. intros H4.
  split; apply leibniz_equiv, size_empty_inv; lia.
Qed.

Lemma outliers_are_fewer_than_a_quarter_witness :
  (4 * size (Tk.detect_outliers three) < length three)%nat
  ∧ (4 * size (St.detect_outliers three) < length three)%nat
  ∧ ((length three ≤ 4)%nat
     → Tk.detect_outliers three = ∅ ∧ St.detect_outliers three = ∅).
Proof. apply (outliers_are_fewer_than_a_quarter three). discriminate. Defined.

(** ** The most frequent category *)

Lemma foldl_max_key (key : string → nat) (x : string) (l : list string) :
  let best := foldl (λ best c, if (key best <? key c)%nat then c else best) x l in
  best ∈ x :: l ∧ ∀ y, y ∈ x :: l → (key y ≤ key best)%nat.
Proof.
  cbv zeta. revert x. induction l as [|c l IH]; intros x; cbn [foldl].
  - split; [by left|]. by intros y ->%list_elem_of_singleton.
  - destruct (key x <? key c)%nat eqn:Hlt.
    + apply Nat.ltb_lt in Hlt. destruct (IH c) as [H1 H2]. split.
      * by right.
      * intros y [->|Hy]%elem_of_cons; [|by apply H2].
        etrans; [|apply H2; by left]. lia.
    + apply Nat.ltb_ge in Hlt. destruct (IH x) as [H1 H2]. split.
      * apply elem_of_cons in H1 as [->|H1]; [by left|right; by right].
      * intros y [->|[->|Hy]%elem_of_cons]%elem_of_cons.
        -- apply H2. by left.
        -- etrans; [exact Hlt|]. apply H2. by left.
        -- apply H2. by right.
Qed.

(** X15: whatever the order in which Python iterates over the set of
    the categories, the category the desktop dashboard shows as most
    frequent is a category of the collection, and no category of the
    collection occurs in more records. *)
Theorem most_freq_cat_is_most_frequent
    (set_order : list string → list string) (l : list Expense) :
  l ≠ [] →
  (∀ c, c ∈ set_order (row_category <$> l) ↔ c ∈ row_category <$> l) →
  ∃ c, Tk.get_stats set_order l !! "most_freq_cat" = Some (VStr c)
       ∧ c ∈ row_category <$> l
       ∧ ∀ c', c' ∈ row_category <$> l →
           (count (row_category <$> l) c' ≤ count (row_category <$> l) c)%nat.
Proof.
  intros Hne Hset. destruct l as [|r l]; [done|].
  unfold Tk.get_stats. cbv zeta. rewrite lookup_insert_eq.
  set (cats := row_category <$> r :: l) in *. unfold Tk.most_freq_cat.
  destruct (set_order cats) as [|x xs] eqn:Hxs.
  { assert (row_category r ∈ cats) as Hr by (by left).
    apply Hset in Hr. by apply elem_of_nil in Hr. }
  destruct (foldl_max_key (count cats) x xs) as [H1 H2]. cbv zeta in *.
  eexists. split; [reflexivity|]. split.
  - by apply Hset.
  - intros c' Hc'. apply H2. by apply Hset.
Qed.

Lemma most_freq_cat_is_most_frequent_witness :
  ∃ c, Tk.get_stats remove_dups bills !! "most_freq_cat" = Some (VStr c)
       ∧ c ∈ row_category <$> bills
       ∧ ∀ c', c' ∈ row_category <$> bills →
           (count (row_category <$> bills) c' ≤ count (row_category <$> bills) c)%nat.
Proof.
  apply (most_freq_cat_is_most_frequent remove_dups bills).
  - discriminate.
  - intros c. apply elem_of_remove_dups.
Defined.

Lemma ascii_compare_lt (a b : ascii) :
  Ascii.compare a b = Lt ↔ (N_of_ascii a < N_of_ascii b)%N.
Proof. unfold Ascii.compare. apply N.compare_lt_iff. Qed.

Lemma ascii_compare_eq (a b : ascii) : Ascii.compare a b = Eq ↔ a = b.
Proof.
  split; [apply Ascii.compare_eq_iff|]. intros ->. unfold Ascii.compare.
  apply N.compare_refl.
Qed.

Lemma string_compare_lt_trans (s1 s2 s3 : string) :
  String.compare s1 s2 = Lt → String.compare s2 s3 = Lt → String.compare s1 s3 = Lt.
Proof.
  revert s2 s3. induction s1 as [|a s1 IH]; intros [|b s2] [|c s3]; cbn; try done.
  destruct (Ascii.compare a b) eqn:Hab; [|clear IH|done];
    destruct (Ascii.compare b c) eqn:Hbc; try done.
  - apply ascii_compare_eq in Hab as ->, Hbc as ->.
    rewrite (proj2 (ascii_compare_eq c c) eq_refl). apply IH.
  - apply ascii_compare_eq in Hab as ->. by rewrite Hbc.
  - apply ascii_compare_eq in Hbc as ->. by rewrite Hab.
  - apply ascii_compare_lt in Hab, Hbc.
    assert (Ascii.compare a c = Lt) as ->; [|done].
    apply ascii_compare_lt. by apply (N.lt_trans _ (N_of_ascii b)).
Qed.

Lemma string_compare_refl (s : string) : String.compare s s = Eq.
Proof.
  induction s as [|a s IH]; [done|]. cbn.
  by rewrite (proj2 (ascii_compare_eq a a) eq_refl).
Qed.

Lemma string_not_ltb (s1 s2 : string) :
  String.ltb s1 s2 = false ↔ String.leb s2 s1 = true.
Proof.
  unfold String.ltb, String.leb. rewrite (String.compare_antisym s1 s2).
  destruct (String.compare s2 s1); cbn; split; done.
Qed.

Lemma string_leb_trans (s1 s2 s3 : string) :
  String.leb s1 s2 = true → String.leb s2 s3 = true → String.leb s1 s3 = true.
Proof.
  unfold String.leb.
  destruct (String.compare s1 s2) eqn:E12; [|
    destruct (String.compare s2 s3) eqn:E23|done]; try done.
  - apply String.compare_eq_iff in E12 as ->. done.
  - apply String.compare_eq_iff in E23 as ->. by rewrite E12.
  - by rewrite (string_compare_lt_trans s1 s2 s3).
Qed.

Lemma not_beats (cats : list string) (a b : string) :
  Pd.beats cats a b = false
  ↔ (count cats a < count cats b)%nat
    ∨ (count cats a = count cats b ∧ String.leb b a = true).
Proof.
  unfold Pd.beats.
  rewrite orb_false_iff, andb_false_iff, Nat.ltb_ge, Nat.eqb_neq, string_not_ltb.
  split.
  - intros [Hle [Hne|Hs]]; [left; lia|].
    destruct (decide (count cats a = count cats b)); [by right|left; lia].
  - intros [Hlt|[Heq Hs]]; (split; [lia|]); [left; lia|by right].
Qed.

Lemma not_beats_trans (cats : list string) (c1 c2 c3 : string) :
  Pd.beats cats c1 c2 = false → Pd.beats cats c2 c3 = false →
  Pd.beats cats c1 c3 = false.
Proof.
  rewrite !not_beats. intros [H12|[E12 L12]] [H23|[E23 L23]]; try (left; lia).
  right. split; [lia|]. by apply (string_leb_trans c3 c2 c1).
Qed.

Lemma beats_asym (cats : list string) (a b : string) :
  Pd.beats cats a b = true → Pd.beats cats b a = false.
Proof.
  intros Hab. apply not_beats. revert Hab. unfold Pd.beats.
  rewrite orb_true_iff, andb_true_iff, Nat.ltb_lt, Nat.eqb_eq.
  intros [Hlt|[Heq Hs]]; [by left|]. right. split; [done|].
  unfold String.ltb in Hs. unfold String.leb.
  by destruct (String.compare a b).
Qed.

Lemma foldl_beats (cats : list string) (x : string) (l : list string) :
  let best := foldl (λ best c, if Pd.beats cats c best then c else best) x l in
  best ∈ x :: l ∧ ∀ y, y ∈ x :: l → Pd.beats cats y best = false.
Proof.
  cbv zeta. revert x. induction l as [|c l IH]; intros x; cbn [foldl].
  - split; [by left|]. intros y ->%list_elem_of_singleton.
    apply not_beats. right. split; [done|].
    unfold String.leb. by rewrite string_compare_refl.
  - destruct (Pd.beats cats c x) eqn:Hb.
    + destruct (IH c) as [H1 H2]. split; [by right|].
      intros y [->|Hy]%elem_of_cons; [|by apply H2].
      apply (not_beats_trans cats x c); [by apply beats_asym|].
      apply H2. by left.
    + destruct (IH x) as [H1 H2]. split.
      * apply elem_of_cons in H1 as [->|H1]; [by left|right; by right].
      * intros y [->|[->|Hy]%elem_of_cons]%elem_of_cons.
        -- apply H2. by left.
        -- apply (not_beats_trans cats c x); [done|]. apply H2. by left.
        -- apply H2. by right.
Qed.

Lemma count_perm (cats cats' : list string) (c : string) :
  cats ≡ₚ cats' → count cats c = count cats' c.
Proof. intros Hp. unfold count. by rewrite Hp. Qed.

(** What [mode0] returns is the one category that no category beats. *)
Lemma mode0_spec (cats : list string) :
  cats ≠ [] →
  ∃ c, Pd.mode0 cats = VStr c ∧ c ∈ cats
       ∧ ∀ c', c' ∈ cats →
           (count cats c' ≤ count cats c)%nat
           ∧ (count cats c' = count cats c → String.leb c c' = true).
Proof.
  destruct cats as [|x l]; [done|]. intros _. unfold Pd.mode0.
  destruct (foldl_beats (x :: l) x l) as [H1 H2]. cbv zeta in *.
  eexists. split; [reflexivity|]. split; [exact H1|].
  intros c' Hc'. specialize (H2 c' Hc'). apply not_beats in H2.
  destruct H2 as [Hlt|[Heq Hle]]; split; (lia || done).
Qed.

(** X16: the category the web dashboard shows as most frequent is a
    category of the collection that occurs in the most records, and among
    the categories that occur as often it is the first in the order of
    text; so it does not depend on the order of the records, and the whole
    dictionary of [get_stats] does not. *)
Theorem mode_is_most_frequent_and_first (l l' : list Expense) :
  l ≠ [] →
  l ≡ₚ l' →
  (∃ c, St.get_stats l !! "most_freq_cat" = Some (VStr c)
        ∧ c ∈ row_category <$> l
        ∧ ∀ c', c' ∈ row_category <$> l →
            (count (row_category <$> l) c' ≤ count (row_category <$> l) c)%nat
            ∧ (count (row_category <$> l) c' = count (row_category <$> l) c →
               String.leb c c' = true))
  ∧ St.get_stats l = St.get_stats l'.
Proof.
  intros Hne Hl. destruct l as [|r l]; [done|].
  destruct (perm_nonempty r l l' Hl) as (r' & l'' & ->).
  set (cats := row_category <$> r :: l). set (cats' := row_category <$> r' :: l'').
  assert (cats ≡ₚ cats') as Hc by (by apply fmap_Permutation).
  destruct (mode0_spec cats) as (c & Hm & Hin & Hbest); [done|].
  destruct (mode0_spec cats') as (c' & Hm' & Hin' & Hbest'); [done|].
  split.
  - exists c. unfold St.get_stats. cbv zeta. rewrite lookup_insert_eq.
    fold cats. by rewrite Hm.
  - assert (c = c') as Hcc.
    { assert (c' ∈ cats) as Hc1 by (by rewrite Hc).
      assert (c ∈ cats') as Hc2 by (by rewrite <- Hc).
      destruct (Hbest c' Hc1) as [Hle1 Hs1]. destruct (Hbest' c Hc2) as [Hle2 Hs2].
      rewrite <- !(count_perm cats cats' _ Hc) in *.
      apply String.leb_antisym; [apply Hs1|apply Hs2]; lia. }
    assert (row_amount <$> r :: l ≡ₚ row_amount <$> r' :: l'') as Ha
      by (by apply fmap_Permutation).
    unfold St.get_stats. cbv zeta. fold cats cats'. rewrite Hm, Hm', Hcc.
    rewrite (max_perm _ _ Ha), (min_perm _ _ Ha), (median_perm _ _ Ha),
      (mean_perm _ _ Ha), (sum_perm _ _ Ha). unfold Pd.std.
    by rewrite (pd_var_perm _ _ Ha).
Qed.

Lemma mode_is_most_frequent_and_first_witness :
  (∃ c, St.get_stats bills !! "most_freq_cat" = Some (VStr c)
        ∧ c ∈ row_category <$> bills
        ∧ ∀ c', c' ∈ row_category <$> bills →
            (count (row_category <$> bills) c' ≤ count (row_category <$> bills) c)%nat
            ∧ (count (row_category <$> bills) c' = count (row_category <$> bills) c →
               String.leb c c' = true))
  ∧ St.get_stats bills = St.get_stats (reverse bills).
Proof.
  apply (mode_is_most_frequent_and_first bills (reverse bills)).
  - discriminate.
  - symmetry. apply reverse_Permutation.
Defined.

Example mode_of_bills : Pd.mode0 (row_category <$> bills) = VStr "Food".
Proof. reflexivity. Qed.

(** ** The groups of the period report *)

Section Groups.

Variable other : list string → string → option Cal.timestamp.
Variable col : list string.

Lemma filter_keyed (freq : string) (k : Z) (l : list Expense) :
  snd <$> filter (λ ka : option Z * R, ka.1 = Some k)
            ((λ r, (period_of other col freq r, row_amount r)) <$> l)
  = row_amount <$> filter (λ r, period_of other col freq r = Some k) l.
Proof.
  induction l as [|r l IH]; [done|].
  rewrite fmap_cons, !filter_cons. cbn [fst].
  destruct (decide (period_of other col freq r = Some k)); [|done].
  by rewrite !fmap_cons, IH.
Qed.

Lemma groups_of_records (freq : string) (l : list Expense) (k : Z) (t : R) :
  (k, t) ∈ Cal.groupby_sum ((λ r, (period_of other col freq r, row_amount r)) <$> l) ↔
  (∃ r, r ∈ l ∧ period_of other col freq r = Some k)
  ∧ t = Np.sum (row_amount <$> filter (λ r, period_of other col freq r = Some k) l).
Proof.
  pose proof (groupby_sum_sorted
                ((λ r, (period_of other col freq r, row_amount r)) <$> l))
    as Hsorted.
  destruct (groupby_sum_groups
              ((λ r, (period_of other col freq r, row_amount r)) <$> l) k)
    as [Hkeys Hsum].
  rewrite (filter_keyed freq k l) in Hsum.
  assert ((∃ a, (Some k, a) ∈ (λ r, (period_of other col freq r, row_amount r)) <$> l)
          ↔ ∃ r, r ∈ l ∧ period_of other col freq r = Some k) as Hrec.
  { split.
    - intros (a & (r & [= Hk _] & Hr)%list_elem_of_fmap). by exists r.
    - intros (r & Hr & Hk). exists (row_amount r). apply list_elem_of_fmap.
      exists r. by rewrite Hk. }
  rewrite <- Hrec, <- Hkeys, <- Hsum.
  generalize dependent
    (Cal.groupby_sum ((λ r, (period_of other col freq r, row_amount r)) <$> l)).
  intros g Hsorted _ _. split.
  - intros Hin. split.
    + apply list_elem_of_fmap. by exists (k, t).
    + rewrite (single_entry g k t (sorted_keys_NoDup _ Hsorted) Hin).
      rewrite fmap_cons, sum_cons. cbn. change (foldr Rplus 0 []) with 0. lra.
  - intros [(kt & Hk & Hin)%list_elem_of_fmap ->]. destruct kt as [k' t']. cbn in Hk.
    subst k'. rewrite (single_entry g k t' (sorted_keys_NoDup _ Hsorted) Hin).
    rewrite fmap_cons, sum_cons. cbn. change (foldr Rplus 0 []) with 0.
    by replace (t' + 0) with t' by lra.
Qed.

End Groups.

(** X17: when the period report is drawn, it has one bar for every period
    that some record falls in and no other bar, the bars come in increasing
    order of their period, and the height of a bar is the sum of the
    amounts of the records of its period.  Records whose date pandas reads
    as NaT fall in no period. *)
Theorem report_has_one_bar_per_period
    (other : list string → string → option Cal.timestamp)
    (period : string) (l : list Expense) (grp : list (Z * R)) :
  Tk.report_period other period l = Ok (Some grp) →
  Sorted Z.lt (fst <$> grp)
  ∧ ∀ k t,
      (k, t) ∈ grp ↔
      (∃ r, r ∈ l ∧ period_of other (row_date <$> l) (report_freq period) r = Some k)
      ∧ t = Np.sum (row_amount
                      <$> filter (λ r, period_of other (row_date <$> l)
                                         (report_freq period) r = Some k) l).
Proof.
  intros ->%report_period_groups. split; [apply groupby_sum_sorted|].
  intros k t. apply groups_of_records.
Qed.

Lemma report_has_one_bar_per_period_witness :
  Sorted Z.lt (fst <$> [(648%Z, 12)])
  ∧ ∀ k t,
      (k, t) ∈ [(648%Z, 12)] ↔
      (∃ r, r ∈ [undated; mkExpense 4 12 "Food" "2024-01-15" "a"]
            ∧ period_of refuses
                (row_date <$> [undated; mkExpense 4 12 "Food" "2024-01-15" "a"])
                (report_freq "M") r = Some k)
      ∧ t = Np.sum (row_amount
                      <$> filter (λ r, period_of refuses
                                         (row_date <$> [undated;
                                            mkExpense 4 12 "Food" "2024-01-15" "a"])
                                         (report_freq "M") r = Some k)
                            [undated; mkExpense 4 12 "Food" "2024-01-15" "a"]).
Proof.
  apply (report_has_one_bar_per_period refuses "M"
           [undated; mkExpense 4 12 "Food" "2024-01-15" "a"] [(648%Z, 12)]).
  reflexivity.
Defined.

(** ** The bars of a report come in the order of time *)

Lemma ordinal_mono (freq : string) (t1 t2 : Cal.date) :
  calendar_date t1 → calendar_date t2 → ¬ earlier t2 t1 →
  (Cal.ordinal freq t1 ≤ Cal.ordinal freq t2)%Z.
Proof.
  intros C1 C2 Hn.
  assert (Cal.days_from_civil t1 ≤ Cal.days_from_civil t2)%Z as Hdays.
  { destruct (Z.eq_dec (Cal.year t1) (Cal.year t2)) as [Hy|Hy];
      [destruct (Z.eq_dec (Cal.month t1) (Cal.month t2)) as [Hm|Hm];
       [destruct (Z.eq_dec (Cal.day t1) (Cal.day t2)) as [Hd|Hd]|]|].
    1: { destruct t1, t2. cbn in Hy, Hm, Hd. subst. lia. }
    all: assert (earlier t1 t2) as He by (unfold earlier in *; lia).
    all: pose proof (earlier_days t1 t2 C1 C2 He); lia. }
  destruct t1 as [y1 m1 d1], t2 as [y2 m2 d2].
  unfold calendar_date, earlier in *. cbn in C1, C2, Hn.
  unfold Cal.ordinal. cbn [Cal.year Cal.month Cal.day].
  repeat case_decide.
  - apply Z.add_le_mono_r, Z.div_le_mono; lia.
  - lia.
  - Z.div_mod_to_equations; lia.
  - lia.
Qed.

(** X18: whatever the period of the report, of two records whose dates
    are written [YYYY-MM-DD] and are read as the days they spell, the
    record whose date does not come after the other's in the order of the
    stored text is never counted in a later bar: on such dates the bars
    stand in the order of time. *)
Theorem bars_stand_in_the_order_of_time (freq : string) (r1 r2 : Expense)
    (t1 t2 : Cal.date) (time1 time2 k1 k2 : Z) :
  Cal.iso (row_date r1) = Some t1 →
  Cal.iso (row_date r2) = Some t2 →
  String.leb (row_date r1) (row_date r2) = true →
  Cal.to_period freq (Cal.At t1 time1) = Some k1 →
  Cal.to_period freq (Cal.At t2 time2) = Some k2 →
  (k1 ≤ k2)%Z.
Proof.
  intros H1 H2 Hle [= <-] [= <-].
  apply ordinal_mono; [by eapply iso_calendar..|].
  by apply (text_order_of_dates (row_date r1) (row_date r2) t1 t2 H1 H2).
Qed.

Lemma bars_stand_in_the_order_of_time_witness : (2830 ≤ 2831)%Z.
Proof.
  apply (bars_stand_in_the_order_of_time "W"
           (mkExpense 1 12 "Food" "2024-03-24" "a")
           (mkExpense 2 30 "Rent" "2024-03-25" "b")
           (Cal.mkDate 2024 3 24) (Cal.mkDate 2024 3 25) 0 0 2830 2831); reflexivity.
Defined.

(** ** Import of a frame whose amounts are all numbers *)

Lemma import_rows_numbers (df : list Csv.FrameRow) (db : Store) :
  well_kept db → Forall well_formed df →
  ∃ new,
    Tk.import_rows df db
      = (Ok (), mkStore (rows db ++ new) (seq db + Z.of_nat (length df)))
    ∧ Forall2 imported_as df new
    ∧ ∀ i e, new !! i = Some e → row_id e = (seq db + 1 + Z.of_nat i)%Z.
Proof.
  intros Hdb Hdf. revert db Hdb.
  induction Hdf as [|row df [x Hx] _ IH]; intros db Hdb.
  - exists []. cbn. rewrite app_nil_r, Z.add_0_r. by destruct db.
  - rewrite import_rows_cons, Hx. cbn [Csv.py_float].
    pose proof (add_expense_well_kept (Fin x) (Csv.py_str (Csv.Category row))
      (Csv.py_str (Csv.Date row))
      (match Csv.Description row with Some d => Csv.py_str d | None => "" end)
      db Hdb) as Hkept.
    rewrite add_expense_fin in Hkept |- * by done. cbn [snd] in Hkept.
    destruct (IH _ Hkept) as (new & Heq & Hnew & Hids). cbn [rows seq] in Heq, Hids.
    eexists (_ :: new). rewrite Heq. rewrite <- app_assoc. cbn [app length].
    split; [f_equal; f_equal; lia|]. split.
    + constructor; [|done]. by repeat split.
    + intros [|i] e; cbn.
      * intros [= <-]. cbn. lia.
      * intros He. rewrite (Hids i e He). lia.
Qed.

(** X19: when every amount of the frame is a number, the import of
    either front-end stores every row: it appends one record per row in
    the order of the frame, each with what its row says, and numbers them
    on from the counter of the store.  The desktop program then reports
    the number of rows, unless the text of an amount box of the filter is
    no number: then it reports that error, with every row stored.  The web
    program shows the number of rows before it asks for a rerun. *)
Theorem import_of_numbers_takes_every_row
    (float_of_text : string → res pyfloat) (min_amount max_amount : string)
    (rerun : res unit) (df : list Csv.FrameRow) (db : Store) :
  well_kept db →
  Forall well_formed df →
  ∃ new,
    (Tk.import_data float_of_text min_amount max_amount df db).2
      = mkStore (rows db ++ new) (seq db + Z.of_nat (length df))
    ∧ (St.import_block rerun df db).2
      = mkStore (rows db ++ new) (seq db + Z.of_nat (length df))
    ∧ Forall2 imported_as df new
    ∧ (∀ i e, new !! i = Some e → row_id e = (seq db + 1 + Z.of_nat i)%Z)
    ∧ (Tk.import_data float_of_text min_amount max_amount df db).1
      = match Tk.refresh float_of_text min_amount max_amount with
        | Ok _ => Imported (length df)
        | Raise e => ImportError e
        end
    ∧ (St.import_block rerun df db).1
      = Imported (length df)
          :: match rerun with Ok _ => [] | Raise e => [ImportError e] end.
Proof.
  intros Hdb Hdf.
  destruct (import_rows_numbers df db Hdb Hdf) as (new & Heq & Hnew & Hids).
  exists new.
  assert (St.import_rows df db
          = (Ok (), mkStore (rows db ++ new) (seq db + Z.of_nat (length df)))) as Hst
    by (by rewrite <- Heq, (St_import_rows df)).
  unfold Tk.import_data, St.import_block. rewrite Heq, Hst.
  by destruct (Tk.refresh float_of_text min_amount max_amount).
Qed.

Lemma import_of_numbers_takes_every_row_witness :
  ∃ new,
    (Tk.import_data (λ _, Raise ValueError) "" "ten" [good_row; good_row] two_rows).2
      = mkStore (rows two_rows ++ new)
          (seq two_rows + Z.of_nat (length [good_row; good_row]))
    ∧ (St.import_block (Raise AttributeError) [good_row; good_row] two_rows).2
      = mkStore (rows two_rows ++ new)
          (seq two_rows + Z.of_nat (length [good_row; good_row]))
    ∧ Forall2 imported_as [good_row; good_row] new
    ∧ (∀ i e, new !! i = Some e → row_id e = (seq two_rows + 1 + Z.of_nat i)%Z)
    ∧ (Tk.import_data (λ _, Raise ValueError) "" "ten" [good_row; good_row] two_rows).1
      = match Tk.refresh (λ _, Raise ValueError) "" "ten" with
        | Ok _ => Imported (length [good_row; good_row])
        | Raise e => ImportError e
        end
    ∧ (St.import_block (Raise AttributeError) [good_row; good_row] two_rows).1
      = Imported (length [good_row; good_row])
          :: match Raise AttributeError : res unit with
             | Ok _ => []
             | Raise e => [ImportError e]
             end.
Proof.
  apply (import_of_numbers_takes_every_row (λ _, Raise ValueError) "" "ten"
           (Raise AttributeError) [good_row; good_row] two_rows).
  - exact two_rows_well_kept.
  - repeat constructor; by exists 5.
Defined.

(** With the text [ten] in the box of the greatest amount, the import of
    a good frame ends in the error box, and its rows are stored. *)
Example import_error_after_a_full_import :
  Tk.import_data (λ _, Raise ValueError) "" "ten" [good_row] empty_store
  = (ImportError ValueError, mkStore [mkExpense 1 5 "Food" "2024-01-01" "lunch"] 1).
Proof. reflexivity. Qed.

(** ** Dates written by the sidebar form *)

Lemma digit_digit_char (n : Z) :
  (0 ≤ n ≤ 9)%Z → Cal.digit (St.digit_char n) = Some n.
Proof.
  intros Hn.
  assert (n = 0 ∨ n = 1 ∨ n = 2 ∨ n = 3 ∨ n = 4 ∨ n = 5 ∨ n = 6 ∨ n = 7 ∨ n = 8
          ∨ n = 9)%Z as [->|[->|[->|[->|[->|[->|[->|[->|[->| ->]]]]]]]]] by lia;
    reflexivity.
Qed.

Lemma number_two (a b : Z) :
  (0 ≤ a ≤ 9)%Z → (0 ≤ b ≤ 9)%Z →
  Cal.number [St.digit_char a; St.digit_char b] = Some (10 * a + b)%Z.
Proof.
  intros Ha Hb. unfold Cal.number. cbn [foldl].
  rewrite !digit_digit_char by done. cbn. f_equal; lia.
Qed.

Lemma number_four (a b c d : Z) :
  (0 ≤ a ≤ 9)%Z → (0 ≤ b ≤ 9)%Z → (0 ≤ c ≤ 9)%Z → (0 ≤ d ≤ 9)%Z →
  Cal.number [St.digit_char a; St.digit_char b; St.digit_char c; St.digit_char d]
  = Some (1000 * a + 100 * b + 10 * c + d)%Z.
Proof.
  intros Ha Hb Hc Hd. unfold Cal.number. cbn [foldl].
  rewrite !digit_digit_char by done. cbn. f_equal; lia.
Qed.

Lemma days_in_month_le (y m : Z) : (Cal.days_in_month y m ≤ 31)%Z.
Proof. unfold Cal.days_in_month. repeat case_match; lia. Qed.

Lemma strftime_iso (t : Cal.date) :
  calendar_date t →
  (0 ≤ Cal.year t ≤ 9999)%Z →
  Cal.iso (St.strftime t) = Some t.
Proof.
  destruct t as [y m d]. unfold calendar_date. cbn [Cal.year Cal.month Cal.day].
  intros [Hm Hd] Hy. pose proof (days_in_month_le y m) as H31.
  unfold Cal.iso, St.strftime. cbn [Cal.year Cal.month Cal.day].
  cbn [string_of_list_ascii list_ascii_of_string].
  change (Ascii.eqb "-" "-") with true. cbn [andb].
  rewrite number_four, !number_two by (Z.div_mod_to_equations; lia).
  cbn [mbind option_bind].
  replace (1000 * (y / 1000) + 100 * (y / 100 mod 10) + 10 * (y / 10 mod 10)
           + y mod 10)%Z with y by (Z.div_mod_to_equations; lia).
  replace (10 * (m / 10) + m mod 10)%Z with m by (Z.div_mod_to_equations; lia).
  replace (10 * (d / 10) + d mod 10)%Z with d by (Z.div_mod_to_equations; lia).
  replace ((1 <=? m) && (m <=? 12) && (1 <=? d)
           && (d <=? Cal.days_in_month y m))%Z with true; [done|].
  symmetry. rewrite !andb_true_iff, !Z.leb_le. lia.
Qed.

Lemma strftime_to_datetime (t : Cal.date) :
  calendar_date t →
  (1678 ≤ Cal.year t ≤ 2261)%Z →
  Cal.to_datetime (St.strftime t) = Some (Cal.At t 0).
Proof.
  intros Ht Hy. unfold Cal.to_datetime. rewrite decide_False.
  2: { unfold Cal.nat_strings, St.strftime. cbn [string_of_list_ascii]. intros Hin.
       repeat (apply elem_of_cons in Hin as [Hin|Hin]; [discriminate Hin|]).
       by apply elem_of_nil in Hin. }
  rewrite strftime_iso by (done || lia).
  replace ((1678 <=? Cal.year t) && (Cal.year t <=? 2261))%Z with true; [done|].
  symmetry. rewrite andb_true_iff, !Z.leb_le. lia.
Qed.

(** X20: the text the sidebar form stores for the day picked in it is
    read back by pandas as the midnight of that very day, for every day
    of the calendar in the years a timestamp holds. *)
Theorem sidebar_dates_are_read_back (t : Cal.date) :
  calendar_date t →
  (1678 ≤ Cal.year t ≤ 2261)%Z →
  Cal.to_datetime (St.strftime t) = Some (Cal.At t 0).
Proof. apply strftime_to_datetime. Qed.

Lemma sidebar_dates_are_read_back_witness :
  Cal.to_datetime (St.strftime (Cal.mkDate 2024 2 29))
  = Some (Cal.At (Cal.mkDate 2024 2 29) 0).
Proof.
  apply (sidebar_dates_are_read_back (Cal.mkDate 2024 2 29)).
  - unfold calendar_date. cbn [Cal.year Cal.month Cal.day].
    change (Cal.days_in_month 2024 2) with 29%Z. lia.
  - cbn. lia.
Defined.

(** What a submit of the sidebar form does to the store: nothing, one
    record more, or the fields of the records of one id rewritten. *)
Lemma sidebar_submit_store (edit_id : option Z) (amount : R)
    (category description : string) (date : Cal.date) (db : Store) :
  ∃ out db',
    St.sidebar_submit edit_id amount category date description db = (Ok out, db')
    ∧ (category = "" → db' = db)
    ∧ ∀ r, r ∈ rows db' →
        r ∈ rows db
        ∨ (category ≠ "" ∧ row_amount r = amount ∧ row_category r = category
           ∧ row_date r = St.strftime date ∧ row_description r = description).
Proof.
  unfold St.sidebar_submit. destruct (decide (category = "")) as [Hc|Hc].
  { exists (St.CategoryRequired, edit_id), db. split; [done|]. split; [done|].
    intros r Hr. by left. }
  assert (∃ out db',
    (Db.add_expense (Fin amount) category (St.strftime date) description;;
     mret (St.ExpenseAdded, edit_id)) db = (Ok out, db')
    ∧ (category = "" → db' = db)
    ∧ ∀ r, r ∈ rows db' →
        r ∈ rows db
        ∨ (category ≠ "" ∧ row_amount r = amount ∧ row_category r = category
           ∧ row_date r = St.strftime date ∧ row_description r = description))
    as Hadd.
  { eexists _, _. split; [reflexivity|]. split; [done|]. cbn.
    intros r [Hr| ->%list_elem_of_singleton]%elem_of_app; [by left|by right]. }
  destruct edit_id as [k|]; [|exact Hadd].
  destruct (decide (k = 0%Z)) as [Hk|Hk]; [exact Hadd|].
  eexists _, _. split; [reflexivity|]. split; [done|]. cbn.
  intros r (r0 & -> & Hr0)%list_elem_of_fmap.
  destruct (decide (row_id r0 = k)); [by right|by left].
Qed.

(** pandas reads a column of canonical texts, in whatever order they
    come and whatever it does with other spellings. *)
Lemma canonical_column (other : list string → string → option Cal.timestamp)
    (col : list string) :
  Forall (λ s, Cal.canonical s = true) col →
  ∃ dates, Cal.to_datetimes other col = Ok dates.
Proof.
  intros Hcol. unfold Cal.to_datetimes.
  destruct (mapM_is_Some_2 (Cal.reads other col) col) as [dates ->];
    [|by exists dates].
  assert (forallb Cal.canonical col = true) as Hall.
  { apply forallb_forall. intros s Hs. rewrite Forall_forall in Hcol.
    apply Hcol. by apply list_elem_of_In. }
  eapply Forall_impl; [exact Hcol|]. intros s Hs. cbn.
  unfold Cal.reads. rewrite Hall. unfold Cal.canonical in Hs.
  by destruct (Cal.to_datetime s).
Qed.

(** X21: a submit of the sidebar form never fails, and without a
    category it leaves the store as it is.  When the picked day lies in
    the years 1678 to 2261 and every date of the store is canonical
    before the submit, every date is canonical after it, and
    [pd.to_datetime] reads the date column of the table, in any order of
    its rows, whatever pandas does with other spellings: the script gets
    past line 149. *)
Theorem sidebar_keeps_the_dates_readable (edit_id : option Z) (amount : R)
    (category description : string) (date : Cal.date) (db : Store) :
  ∃ out db',
    St.sidebar_submit edit_id amount category date description db = (Ok out, db')
    ∧ (category = "" → db' = db)
    ∧ (calendar_date date →
       (1678 ≤ Cal.year date ≤ 2261)%Z →
       canonical_dates (rows db) →
       canonical_dates (rows db')
       ∧ ∀ other col, col ≡ₚ row_date <$> rows db' →
           ∃ dates, Cal.to_datetimes other col = Ok dates).
Proof.
  destruct (sidebar_submit_store edit_id amount category description date db)
    as (out & db' & Heq & Hnone & Hrows).
  exists out, db'. split; [exact Heq|]. split; [exact Hnone|].
  intros Hdate Hyear Hdb.
  assert (canonical_dates (rows db')) as Hdb'.
  { unfold canonical_dates in *. rewrite Forall_forall in Hdb |- *.
    intros r [Hr|(_ & _ & _ & Hd & _)]%Hrows; [by apply Hdb|].
    unfold Cal.canonical. by rewrite Hd, strftime_to_datetime. }
  split; [exact Hdb'|]. intros other col Hcol. apply canonical_column.
  rewrite Hcol. by apply Forall_fmap.
Qed.

Lemma sidebar_keeps_the_dates_readable_witness :
  canonical_dates
    (rows (St.sidebar_submit (Some 4%Z) 25 "Rent" (Cal.mkDate 2024 2 29) "flat"
             two_rows).2)
  ∧ ∀ other, ∃ dates,
      Cal.to_datetimes other
        (row_date <$> rows (St.sidebar_submit (Some 4%Z) 25 "Rent"
                              (Cal.mkDate 2024 2 29) "flat" two_rows).2)
      = Ok dates.
Proof.
  destruct (sidebar_keeps_the_dates_readable (Some 4%Z) 25 "Rent" "flat"
              (Cal.mkDate 2024 2 29) two_rows) as (out & db' & Heq & _ & Hkeep).
  rewrite Heq. cbn [snd]. destruct Hkeep as [Hcan Hread].
  - unfold calendar_date. cbn [Cal.year Cal.month Cal.day].
    change (Cal.days_in_month 2024 2) with 29%Z. lia.
  - cbn. lia.
  - unfold canonical_dates, two_rows. cbn [rows]. repeat constructor.
  - split; [exact Hcan|]. intros other. by apply Hread.
Defined.

(** ** The two programs draw the same reports *)

(** X22: on the same records, when the date column of the web frame
    holds what pandas reads from the dates of these records, the report
    types of the web program give the series that the report buttons of
    the desktop program give.  The programs differ where the series has no
    entry, every date being NaT: the desktop program raises from the bar
    plot, the web program hands the empty series to its chart.  For no
    records neither draws. *)
Theorem both_programs_draw_the_same_report
    (other : list string → string → option Cal.timestamp)
    (date_col : Expense → Cal.timestamp) (l : list Expense)
    (report_type period : string) :
  (∀ r, r ∈ l → Cal.reads other (row_date <$> l) (row_date r) = Some (date_col r)) →
  (report_type, period)
    ∈ [("Weekly", "W"); ("Monthly", "M"); ("Quarterly", "Q"); ("Yearly", "Y")] →
  Tk.report_period other period l
  = match St.report date_col report_type l with
    | None => Ok None
    | Some [] => Raise IndexError
    | Some grp => Ok (Some grp)
    end.
Proof.
  intros Hcol Hpair.
  assert (report_type ≠ "None"
          ∧ report_freq period
            = (if decide (report_type = "Weekly") then "W"
               else if decide (report_type = "Monthly") then "M"
               else if decide (report_type = "Quarterly") then "Q"
               else "Y")) as [Hnone Hfreq].
  { repeat (apply elem_of_cons in Hpair as [[= -> ->]|Hpair];
      [split; [discriminate|reflexivity]|]).
    by apply elem_of_nil in Hpair. }
  unfold Tk.report_period, St.report.
  rewrite (decide_False (P := report_type = "None")) by done.
  destruct l as [|r0 l0]; [done|].
  assert (Forall2 (λ s t, Cal.reads other (row_date <$> r0 :: l0) s = Some t)
            (row_date <$> r0 :: l0) (date_col <$> r0 :: l0)) as Hreads.
  { apply Forall2_fmap, Forall_Forall2_diag, Forall_forall. exact Hcol. }
  unfold Cal.to_datetimes. rewrite (mapM_Some_2 _ _ _ Hreads).
  fold (report_freq period). cbv zeta. rewrite <- Hfreq.
  rewrite (keyed_of_records other _ _ _ _ Hreads).
  assert ((λ r, (period_of other (row_date <$> r0 :: l0) (report_freq period) r,
                 row_amount r)) <$> r0 :: l0
          = (λ r, (Cal.to_period (report_freq period) (date_col r), row_amount r))
              <$> r0 :: l0) as ->.
  { apply list_fmap_ext. intros i r Hr. unfold period_of.
    rewrite Hcol; [done|]. by eapply list_elem_of_lookup_2. }
  by destruct (Cal.groupby_sum _).
Qed.

Lemma both_programs_draw_the_same_report_witness :
  Tk.report_period refuses "M" two_dated
  = match St.report canonical_col "Monthly" two_dated with
    | None => Ok None
    | Some [] => Raise IndexError
    | Some grp => Ok (Some grp)
    end.
Proof.
  apply (both_programs_draw_the_same_report refuses canonical_col two_dated
           "Monthly" "M").
  - intros r Hr. unfold two_dated in Hr.
    repeat (apply elem_of_cons in Hr as [->|Hr]; [reflexivity|]).
    by apply elem_of_nil in Hr.
  - right. by left.
Defined.
